(** * Multi-agent routing workflow: a shallow embedding

    The development follows the Python sources of the routing core:

    - [src/graph/state.py]            the [AgentState] record and [create_initial_state]
    - [src/agents/orchestrator.py]    [MasterOrchestrator]
    - [src/agents/clarification.py]   [ClarificationAgent]
    - [src/agents/research.py]        [ResearchSupervisor]
    - [src/agents/synthesis.py]       [AnswerSynthesisAgent]
    - [src/agents/tools/pdf_retrieval.py]  [PDFRetrievalTool]
    - [src/graph/workflow.py]         [AgentWorkflow]

    Python integers are [Z], Python floats are the kernel's binary64 floats,
    strings are [string], lists are [list].  An agent's [execute] mutates the
    state dictionary in place and may raise: it is a computation in a monad
    that threads the state and keeps it across a raised exception, exactly as
    an in-place mutation survives a Python [try]/[except].  The capability
    ports (completion, prompt store, tracer, tool loop, retriever, checkpoint
    store) are oracles: every call is answered from the history of calls made
    so far and is recorded in that history. *)

From Stdlib Require Import List String Ascii ZArith Bool Lia Floats DecimalString.
Import ListNotations.

Set Warnings "-inexact-float".
Local Open Scope string_scope.
Local Open Scope Z_scope.

(* ===================================================================== *)
(** ** Python values: exceptions, sequences, strings                      *)
(* ===================================================================== *)

(** The exceptions the modelled code raises itself, and [PortError] for
    whatever a capability port raises. The payload is [str(e)]. *)
Inductive exn : Type :=
| IndexError (msg : string)
| AttributeError (msg : string)
| KeyError (msg : string)
| ValueError (msg : string)
| RecursionError (msg : string)
| PortError (msg : string).

Definition exn_str (e : exn) : string :=
  match e with
  | IndexError m | AttributeError m | KeyError m | ValueError m
  | RecursionError m | PortError m => m
  end.

Inductive result (A : Type) : Type :=
| Ok (a : A)
| Raise (e : exn).
Arguments Ok {A} a.
Arguments Raise {A} e.

Definition is_ok {A} (r : result A) : bool :=
  match r with Ok _ => true | Raise _ => false end.

Definition list_index_out_of_range : exn := IndexError "list index out of range".

Section PySeq.
Context {A : Type}.

(** [l[i:]] for any integer [i]. *)
Definition slice_from (i : Z) (l : list A) : list A :=
  let n := Z.of_nat (List.length l) in
  let start := if i <? 0 then Z.max 0 (n + i) else Z.min i n in
  skipn (Z.to_nat start) l.

(** [l[:k]] for a length [k] (the code only passes a [len(...)]). *)
Definition slice_to (k : nat) (l : list A) : list A := firstn k l.

(** [l[:-1]]. *)
Definition all_but_last (l : list A) : list A := removelast l.

(** [l[i]] for any integer [i]. *)
Definition item (l : list A) (i : Z) : result A :=
  let n := Z.of_nat (List.length l) in
  let j := if i <? 0 then n + i else i in
  if (j <? 0) || (n <=? j) then Raise list_index_out_of_range
  else match nth_error l (Z.to_nat j) with
       | Some a => Ok a
       | None => Raise list_index_out_of_range
       end.

(** [x in l], for a type with a boolean equality. *)
Definition mem (eqb : A -> A -> bool) (x : A) (l : list A) : bool :=
  existsb (eqb x) l.

(** The first element of [l] satisfying [p], as a [for ... break] loop finds it. *)
Fixpoint find_first (p : A -> bool) (l : list A) : option A :=
  match l with
  | [] => None
  | a :: l' => if p a then Some a else find_first p l'
  end.
End PySeq.

(** [str.upper], [str.lower] and [str.strip] belong to the language runtime
    and follow the Unicode tables: the definitions that call them take them as
    parameters. [ascii_upper] is [s.upper()] on ASCII text, enough to run the
    definitions on concrete inputs. *)
Definition upper_ascii (c : ascii) : ascii :=
  let n := nat_of_ascii c in
  if (Nat.leb 97 n && Nat.leb n 122)%bool then ascii_of_nat (n - 32) else c.

Fixpoint ascii_upper (s : string) : string :=
  match s with
  | EmptyString => EmptyString
  | String c s' => String (upper_ascii c) (ascii_upper s')
  end.

(** [needle in hay] on strings. *)
Fixpoint contains (needle hay : string) : bool :=
  match hay with
  | EmptyString => prefix needle EmptyString
  | String _ hay' => prefix needle hay || contains needle hay'
  end.

(** [sep.join(parts)]. *)
Definition join (sep : string) (parts : list string) : string :=
  String.concat sep parts.

(** Truthiness of a string: [if s:]. *)
Definition truthy (s : string) : bool :=
  match s with EmptyString => false | String _ _ => true end.

(* ===================================================================== *)
(** ** [src/graph/state.py]                                               *)
(* ===================================================================== *)

(** LangChain message classes the code tells apart with [isinstance] and
    [msg.type]. *)
Inductive message_type : Type := human | ai | tool | system.

Definition message_type_eqb (a b : message_type) : bool :=
  match a, b with
  | human, human | ai, ai | tool, tool | system, system => true
  | _, _ => false
  end.

(** A tool call is a dictionary; the code reads its ["name"] key with a default. *)
Record tool_call : Type := ToolCall { tool_call_name : option string }.

Record message : Type := Message {
  type : message_type;
  content : string;
  tool_calls : list tool_call
}.

Definition HumanMessage (c : string) : message := Message human c [].
Definition AIMessage (c : string) : message := Message ai c [].

Definition isinstance_HumanMessage (m : message) : bool := message_type_eqb (type m) human.
Definition isinstance_AIMessage (m : message) : bool := message_type_eqb (type m) ai.

(** A retrieved document, as [DocumentRetriever.retrieve] builds it. *)
Record document : Type := Document {
  doc_text : string;
  doc_source : string;
  doc_page : Z;
  doc_score : float
}.

(** [state["context"]]: the research dictionary. [final_output] is a key that
    is absent until the research agent stores it. *)
Record context_t : Type := MkContext {
  observations : list string;
  pdf_results : list document;
  web_results : list string;
  tool_history : list string;
  final_output : option string
}.

Record AgentState : Type := MkAgentState {
  messages : list message;
  session_id : string;
  next_agent : string;
  last_agent : option string;
  iteration : Z;
  context : context_t;
  clarification_needed : bool;
  missing_context : list string;
  clarification_count : Z;
  final_answer : option string;
  confidence_score : option float
}.

Definition create_initial_state (msgs : list message) (sid : string) : AgentState :=
  {| messages := msgs;
     session_id := sid;
     next_agent := "orchestrator";
     last_agent := None;
     iteration := 0;
     context := {| observations := [];
                   pdf_results := [];
                   web_results := [];
                   tool_history := [];
                   final_output := None |};
     clarification_needed := false;
     missing_context := [];
     clarification_count := 0;
     final_answer := None;
     confidence_score := None |}.

(** Item assignment [state[key] = v], one setter per key. *)
Definition set_messages (v : list message) (s : AgentState) : AgentState :=
  MkAgentState v (session_id s) (next_agent s) (last_agent s) (iteration s) (context s)
    (clarification_needed s) (missing_context s) (clarification_count s)
    (final_answer s) (confidence_score s).
Definition set_next_agent (v : string) (s : AgentState) : AgentState :=
  MkAgentState (messages s) (session_id s) v (last_agent s) (iteration s) (context s)
    (clarification_needed s) (missing_context s) (clarification_count s)
    (final_answer s) (confidence_score s).
Definition set_last_agent (v : option string) (s : AgentState) : AgentState :=
  MkAgentState (messages s) (session_id s) (next_agent s) v (iteration s) (context s)
    (clarification_needed s) (missing_context s) (clarification_count s)
    (final_answer s) (confidence_score s).
Definition set_iteration (v : Z) (s : AgentState) : AgentState :=
  MkAgentState (messages s) (session_id s) (next_agent s) (last_agent s) v (context s)
    (clarification_needed s) (missing_context s) (clarification_count s)
    (final_answer s) (confidence_score s).
Definition set_context (v : context_t) (s : AgentState) : AgentState :=
  MkAgentState (messages s) (session_id s) (next_agent s) (last_agent s) (iteration s) v
    (clarification_needed s) (missing_context s) (clarification_count s)
    (final_answer s) (confidence_score s).
Definition set_clarification_needed (v : bool) (s : AgentState) : AgentState :=
  MkAgentState (messages s) (session_id s) (next_agent s) (last_agent s) (iteration s)
    (context s) v (missing_context s) (clarification_count s)
    (final_answer s) (confidence_score s).
Definition set_missing_context (v : list string) (s : AgentState) : AgentState :=
  MkAgentState (messages s) (session_id s) (next_agent s) (last_agent s) (iteration s)
    (context s) (clarification_needed s) v (clarification_count s)
    (final_answer s) (confidence_score s).
Definition set_clarification_count (v : Z) (s : AgentState) : AgentState :=
  MkAgentState (messages s) (session_id s) (next_agent s) (last_agent s) (iteration s)
    (context s) (clarification_needed s) (missing_context s) v
    (final_answer s) (confidence_score s).
Definition set_final_answer (v : option string) (s : AgentState) : AgentState :=
  MkAgentState (messages s) (session_id s) (next_agent s) (last_agent s) (iteration s)
    (context s) (clarification_needed s) (missing_context s) (clarification_count s)
    v (confidence_score s).
Definition set_confidence_score (v : option float) (s : AgentState) : AgentState :=
  MkAgentState (messages s) (session_id s) (next_agent s) (last_agent s) (iteration s)
    (context s) (clarification_needed s) (missing_context s) (clarification_count s)
    (final_answer s) v.

Definition set_observations (v : list string) (c : context_t) : context_t :=
  MkContext v (pdf_results c) (web_results c) (tool_history c) (final_output c).
Definition set_tool_history (v : list string) (c : context_t) : context_t :=
  MkContext (observations c) (pdf_results c) (web_results c) v (final_output c).
Definition set_final_output (v : string) (c : context_t) : context_t :=
  MkContext (observations c) (pdf_results c) (web_results c) (tool_history c) (Some v).

(* ===================================================================== *)
(** ** Effects: in-place state, exceptions, recorded port calls           *)
(* ===================================================================== *)

(** A computation over a mutable world [W] that returns or raises. The world
    reached when the exception is raised is kept: [try_except] hands it to the
    handler, as Python does with a dictionary mutated inside a [try]. *)
Definition M (W A : Type) : Type := W -> result A * W.

Section Monad.
Context {W : Type}.

Definition ret {A} (a : A) : M W A := fun w => (Ok a, w).

Definition bind {A B} (c : M W A) (k : A -> M W B) : M W B :=
  fun w => match c w with
           | (Ok a, w') => k a w'
           | (Raise e, w') => (Raise e, w')
           end.

Definition raise {A} (e : exn) : M W A := fun w => (Raise e, w).

Definition lift {A} (r : result A) : M W A := fun w => (r, w).

Definition try_except {A} (body : M W A) (handler : exn -> M W A) : M W A :=
  fun w => match body w with
           | (Ok a, w') => (Ok a, w')
           | (Raise e, w') => handler e w'
           end.

Definition read : M W W := fun w => (Ok w, w).

Definition modify (f : W -> W) : M W unit := fun w => (Ok tt, f w).
End Monad.

Declare Scope py_scope.
Delimit Scope py_scope with py.
Notation "x <- c ;; k" := (bind c (fun x => k))
  (at level 61, c at next level, right associativity) : py_scope.
Notation "c ;; k" := (bind c (fun _ => k))
  (at level 61, right associativity) : py_scope.
Local Open Scope py_scope.

(** Keyword arguments of a prompt template or of [generate]: a dictionary
    with string keys, in insertion order. *)
Definition prompt_variables_t : Type := list (string * string).

(** [llm_client.generate(prompt=...)] or [llm_client.generate(prompt_variables=...)]. *)
Inductive generate_arg : Type :=
| by_prompt (prompt : string)
| by_prompt_variables (vars : prompt_variables_t).

(** The keyword arguments of [trace_generation]: [input_data] holds the
    prompt variables or the contents of the messages sent; [metadata] is a
    dictionary of strings, lists and integers. *)
Inductive trace_input : Type :=
| input_variables (vars : prompt_variables_t)
| input_messages (contents : list string).

Inductive metadata_value : Type :=
| meta_str (s : string)
| meta_list (l : list string)
| meta_int (n : Z).

Record trace_call : Type := {
  trace_name : string;
  trace_input_data : trace_input;
  trace_output : string;
  trace_model : string;
  trace_metadata : list (string * metadata_value);
  trace_session_id : string
}.

(** One recorded call of a capability port, with whether it returned. *)
Inductive event : Type :=
| ev_get_prompt (name : string) (version : option string) (label : string) (returned : bool)
| ev_compile (vars : prompt_variables_t) (returned : bool)
| ev_generate (model : string) (arg : generate_arg) (returned : bool)
| ev_trace_generation (call : trace_call) (returned : bool)
| ev_agent_invoke (sent : list message) (returned : bool)
| ev_retrieve (query : string) (top_k : Z) (returned : bool)
| ev_checkpoint_list (thread_id : string) (returned : bool)
| ev_checkpoint_get (thread_id : string) (returned : bool)
| ev_checkpoint_put (thread_id : string) (returned : bool)
| ev_checkpoint_delete (thread_id : string) (returned : bool).

Definition history : Type := list event.

Definition is_completion (e : event) : bool :=
  match e with
  | ev_generate _ _ _ | ev_agent_invoke _ _ => true
  | _ => false
  end.

(** The Completion port ([tools.llm.client.base.BaseLLM]). *)
Record BaseLLM : Type := {
  generate : history -> generate_arg -> result string;
  completion_model : string
}.

(** A prompt fetched from the prompt store: its text and its [compile]. *)
Record prompt_object : Type := {
  prompt_text : string;
  prompt_compile : prompt_variables_t -> result string
}.

(** The Tracer port (prompt fetch and generation tracing). *)
Record LangfuseClient : Type := {
  get_prompt : history -> string -> option string -> string -> result prompt_object;
  trace_generation : history -> trace_call -> result unit
}.

(** [self.agent_config["prompt"]]; every key is optional. *)
Record prompt_config_t : Type := {
  provider : option string;
  prompt_id : option string;
  prompt_version : option string;
  environment : option string
}.

(** An agent's configuration dictionary. [cfg_prompt] is the value of
    [self.prompt_config] after [__init__]: [None] is Python's [None] (the key
    was given with no value), an absent key gives the empty dictionary. *)
Record agent_config_t : Type := {
  cfg_name : option string;
  cfg_prompt : option prompt_config_t;
  cfg_max_history : option Z;
  cfg_max_clarifications : option Z
}.

Definition empty_prompt_config : prompt_config_t :=
  {| provider := None; prompt_id := None; prompt_version := None; environment := None |}.

(** [agent_config or {}] with no key given. *)
Definition default_agent_config : agent_config_t :=
  {| cfg_name := None; cfg_prompt := Some empty_prompt_config;
     cfg_max_history := None; cfg_max_clarifications := None |}.

(** [d.get(key, default)]. *)
Definition get_or {A} (v : option A) (default : A) : A :=
  match v with Some a => a | None => default end.

(** [self.prompt_config.get(key)]: an [AttributeError] when [prompt_config] is [None]. *)
Definition prompt_config_get (pc : option prompt_config_t)
    (key : prompt_config_t -> option string) : result (option string) :=
  match pc with
  | Some c => Ok (key c)
  | None => Raise (AttributeError "'NoneType' object has no attribute 'get'")
  end.

Definition option_string_eqb (a : option string) (b : string) : bool :=
  match a with Some x => String.eqb x b | None => false end.

(** The world an agent's [execute] runs in: the state dictionary it mutates
    and the calls made so far. *)
Record world : Type := World {
  state : AgentState;
  calls : history
}.

Definition assign (f : AgentState -> AgentState) : M world unit :=
  modify (fun w => World (f (state w)) (calls w)).

Definition record_call (e : event) : M world unit :=
  modify (fun w => World (state w) (calls w ++ [e])%list).

(** [state["iteration"] += 1]. *)
Definition increment_iteration : M world unit :=
  assign (fun s => set_iteration (iteration s + 1) s).

(** [state["messages"].append(m)]. *)
Definition append_message (m : message) : M world unit :=
  assign (fun s => set_messages (messages s ++ [m])%list s).

Definition call_generate (llm : BaseLLM) (arg : generate_arg) : M world string :=
  w <- read ;;
  let r := generate llm (calls w) arg in
  record_call (ev_generate (completion_model llm) arg (is_ok r)) ;;
  lift r.

Definition call_get_prompt (lf : LangfuseClient) (name : string)
    (version : option string) (label : string) : M world prompt_object :=
  w <- read ;;
  let r := get_prompt lf (calls w) name version label in
  record_call (ev_get_prompt name version label (is_ok r)) ;;
  lift r.

Definition call_compile (p : prompt_object) (vars : prompt_variables_t) : M world string :=
  let r := prompt_compile p vars in
  record_call (ev_compile vars (is_ok r)) ;;
  lift r.

Definition call_trace_generation (lf : LangfuseClient) (call : trace_call)
    : M world unit :=
  w <- read ;;
  let r := trace_generation lf (calls w) call in
  record_call (ev_trace_generation call (is_ok r)) ;;
  lift r.

(** The window every agent takes of the conversation:
    [msgs[-max_history:] if len(msgs) > max_history else msgs]. *)
Definition limit_history (max_history : Z) (msgs : list message) : list message :=
  if Z.of_nat (List.length msgs) >? max_history
  then slice_from (- max_history) msgs
  else msgs.

(** [_format_history], the same method in the orchestrator and the
    clarification agent. *)
Definition _format_history (msgs : list message) : string :=
  match msgs with
  | [] => "No previous conversation."
  | _ =>
      let formatted :=
        map (fun msg =>
               let role := if isinstance_HumanMessage msg then "User" else "Assistant" in
               role ++ ": " ++ content msg) msgs in
      join (String (ascii_of_nat 10) "") formatted
  end.

(** What every agent object holds after [__init__]. *)
Record agent_self : Type := {
  llm_client : BaseLLM;
  langfuse_client : option LangfuseClient;
  agent_config : agent_config_t
}.

(** The guard [self.langfuse_client and self.prompt_config.get("provider") == "langfuse"]:
    [and] does not look at the configuration when there is no client. *)
Definition langfuse_prompt_enabled (self : agent_self) : M world (option LangfuseClient) :=
  match langfuse_client self with
  | None => ret None
  | Some lf =>
      p <- lift (prompt_config_get (cfg_prompt (agent_config self)) provider) ;;
      ret (if option_string_eqb p "langfuse" then Some lf else None)
  end.

(** The block the three text agents share: fetch the template, compile it,
    generate from it and trace the generation. *)
Definition generate_with_langfuse (self : agent_self) (lf : LangfuseClient)
    (default_id agent_name class_name : string) (vars : prompt_variables_t)
    : M world string :=
  pid <- lift (prompt_config_get (cfg_prompt (agent_config self)) prompt_id) ;;
  pversion <- lift (prompt_config_get (cfg_prompt (agent_config self)) prompt_version) ;;
  penv <- lift (prompt_config_get (cfg_prompt (agent_config self)) environment) ;;
  prompt <- call_get_prompt lf (get_or pid default_id) pversion (get_or penv "dev") ;;
  compiled_prompt <- call_compile prompt vars ;;
  out <- call_generate (llm_client self) (by_prompt compiled_prompt) ;;
  w <- read ;;
  call_trace_generation lf
    {| trace_name := agent_name;
       trace_input_data := input_variables vars;
       trace_output := out;
       trace_model := completion_model (llm_client self);
       trace_metadata := [("agent", meta_str class_name)];
       trace_session_id := session_id (state w) |} ;;
  ret out.

(* ===================================================================== *)
(** ** [src/agents/orchestrator.py]                                       *)
(* ===================================================================== *)

Module MasterOrchestrator.

Definition agent_name (self : agent_self) : string :=
  get_or (cfg_name (agent_config self)) "orchestrator".

Definition max_history (self : agent_self) : Z :=
  get_or (cfg_max_history (agent_config self)) 10.

Definition max_clarifications (self : agent_self) : Z :=
  get_or (cfg_max_clarifications (agent_config self)) 2.

(** Layer 1: the counter limit. *)
Definition layer1 : M world unit :=
  assign (set_next_agent "research") ;;
  assign (set_clarification_needed false) ;;
  assign (set_clarification_count 0) ;;
  increment_iteration.

(** The test of layer 2 on the window [msgs] (of length at least two). *)
Definition follow_up_detected (msgs : list message) (last : option string)
    : M world bool :=
  prev_msg <- lift (item msgs (-2)) ;;
  current_msg <- lift (item msgs (-1)) ;;
  ret (isinstance_AIMessage prev_msg
       && isinstance_HumanMessage current_msg
       && option_string_eqb last "clarification").

Definition layer2 : M world unit :=
  assign (set_next_agent "research") ;;
  assign (set_clarification_needed false) ;;
  assign (set_clarification_count 0) ;;
  increment_iteration.

(** The decision of layer 3: through the prompt store when it is enabled,
    with a direct call as the fallback of that path, else a direct call. *)
Definition decide (self : agent_self) (vars : prompt_variables_t) : M world string :=
  enabled <- langfuse_prompt_enabled self ;;
  match enabled with
  | Some lf =>
      try_except
        (generate_with_langfuse self lf "orchestrator_intent" (agent_name self)
             "MasterOrchestrator" vars)
        (fun _ => call_generate (llm_client self) (by_prompt_variables vars))
  | None =>
      (* the warning about the provider reads the configuration again *)
      _ <- lift (prompt_config_get (cfg_prompt (agent_config self)) provider) ;;
      call_generate (llm_client self) (by_prompt_variables vars)
  end.

Section Runtime.
(** [upper s] is [s.upper()]. *)
Variable upper : string -> string.

Definition layer3 (self : agent_self) (msgs : list message) (count : Z) : M world unit :=
  current <- lift (item msgs (-1)) ;;
  let query := content current in
  let history := _format_history (all_but_last msgs) in
  let vars := [("query", query); ("history", history)] in
  try_except
    (decision <- decide self vars ;;
     (if contains "CLARIFICATION" (upper decision)
      then
        assign (set_next_agent "clarification") ;;
        assign (set_clarification_needed true) ;;
        assign (set_missing_context ["Query is vague or ambiguous"]) ;;
        assign (set_clarification_count (count + 1))
      else
        assign (set_next_agent "research") ;;
        assign (set_clarification_needed false) ;;
        assign (set_clarification_count 0)) ;;
     increment_iteration)
    (fun _ =>
       assign (set_next_agent "research") ;;
       assign (set_clarification_needed false) ;;
       increment_iteration).

Definition execute (self : agent_self) : M world unit :=
  w <- read ;;
  let msgs := limit_history (max_history self) (messages (state w)) in
  let count := clarification_count (state w) in
  if count >=? max_clarifications self then layer1
  else
    fired <- (if Z.of_nat (List.length msgs) >=? 2
              then
                hit <- follow_up_detected msgs (last_agent (state w)) ;;
                if hit then layer2 ;; ret true else ret false
              else ret false) ;;
    if fired then ret tt else layer3 self msgs count.
End Runtime.

End MasterOrchestrator.

(* ===================================================================== *)
(** ** [src/agents/clarification.py]                                      *)
(* ===================================================================== *)

Module ClarificationAgent.

Definition agent_name (self : agent_self) : string :=
  get_or (cfg_name (agent_config self)) "clarification".

Definition max_history (self : agent_self) : Z :=
  get_or (cfg_max_history (agent_config self)) 10.

Definition fallback : string :=
  "Could you please provide more details about your question?".

Definition ask (self : agent_self) (vars : prompt_variables_t) : M world string :=
  enabled <- langfuse_prompt_enabled self ;;
  match enabled with
  | Some lf =>
      try_except
        (generate_with_langfuse self lf "clarification" (agent_name self)
             "ClarificationAgent" vars)
        (fun _ => call_generate (llm_client self) (by_prompt_variables vars))
  | None => call_generate (llm_client self) (by_prompt_variables vars)
  end.

Definition execute (self : agent_self) : M world unit :=
  w <- read ;;
  let msgs := limit_history (max_history self) (messages (state w)) in
  current <- lift (item msgs (-1)) ;;
  let query := content current in
  let history := _format_history (all_but_last msgs) in
  try_except
    (let vars := [("query", query); ("history", history)] in
     clarification <- ask self vars ;;
     append_message (AIMessage clarification) ;;
     assign (set_final_answer (Some clarification)) ;;
     assign (set_next_agent "END") ;;
     assign (set_last_agent (Some "clarification")))
    (fun _ =>
       append_message (AIMessage fallback) ;;
       assign (set_final_answer (Some fallback)) ;;
       assign (set_next_agent "END") ;;
       assign (set_last_agent (Some "clarification"))).

End ClarificationAgent.

(* ===================================================================== *)
(** ** [src/agents/synthesis.py]                                          *)
(* ===================================================================== *)

Module AnswerSynthesisAgent.

Definition agent_name (self : agent_self) : string :=
  get_or (cfg_name (agent_config self)) "synthesis".

Definition max_history (self : agent_self) : Z :=
  get_or (cfg_max_history (agent_config self)) 10.

Definition _calculate_confidence (obs : list string) : float :=
  let num_observations := List.length obs in
  match num_observations with
  | 0%nat => 0.0%float
  | 1%nat => 0.6%float
  | 2%nat => 0.8%float
  | _ => 0.95%float
  end.

Definition generic_error : string :=
  "I encountered an error while processing your request.".

Definition newline : string := String (ascii_of_nat 10) "".

Definition synthesize (self : agent_self) (vars : prompt_variables_t) : M world string :=
  enabled <- langfuse_prompt_enabled self ;;
  match enabled with
  | Some lf =>
      try_except
        (generate_with_langfuse self lf "synthesis" (agent_name self)
             "AnswerSynthesisAgent" vars)
        (fun _ => call_generate (llm_client self) (by_prompt_variables vars))
  | None => call_generate (llm_client self) (by_prompt_variables vars)
  end.

Definition execute (self : agent_self) : M world unit :=
  w <- read ;;
  let msgs := limit_history (max_history self) (messages (state w)) in
  let query :=
    match find_first isinstance_HumanMessage msgs with
    | Some msg => content msg
    | None => "Unknown query"
    end in
  let obs := observations (context (state w)) in
  let final := get_or (final_output (context (state w))) "" in
  try_except
    (let joined := join (newline ++ newline) obs in
     let all_observations :=
       if truthy final
       then joined ++ newline ++ newline ++ "Final Output:" ++ newline ++ final
       else joined in
     let vars :=
       [("query", query);
        ("observations",
         if truthy all_observations then all_observations
         else "No observations available.")] in
     answer <- synthesize self vars ;;
     let confidence := _calculate_confidence obs in
     append_message (AIMessage answer) ;;
     assign (set_final_answer (Some answer)) ;;
     assign (set_confidence_score (Some confidence)) ;;
     assign (set_next_agent "END") ;;
     assign (set_last_agent (Some "synthesis")))
    (fun _ =>
       let fallback := if truthy final then final else generic_error in
       append_message (AIMessage fallback) ;;
       assign (set_final_answer (Some fallback)) ;;
       assign (set_confidence_score (Some 0.0%float)) ;;
       assign (set_next_agent "END")).

End AnswerSynthesisAgent.

(* ===================================================================== *)
(** ** [src/agents/research.py]                                           *)
(* ===================================================================== *)

Module ResearchSupervisor.

(** The research agent: the compiled tool loop ([create_agent]) is the
    port it calls; [invoke] returns the messages sent followed by the ones
    the loop produced, or raises. *)
Record t : Type := {
  agent_invoke : history -> list message -> result (list message);
  model_name : option string;
  langfuse_client : option LangfuseClient;
  agent_config : agent_config_t
}.

Definition agent_name (self : t) : string :=
  get_or (cfg_name (agent_config self)) "research".

Definition max_history (self : t) : Z :=
  get_or (cfg_max_history (agent_config self)) 10.

Definition call_agent_invoke (self : t) (sent : list message)
    : M world (list message) :=
  w <- read ;;
  let r := agent_invoke self (calls w) sent in
  record_call (ev_agent_invoke sent (is_ok r)) ;;
  lift r.

(** [hasattr(msg, 'tool_calls') and msg.tool_calls]. *)
Definition has_tool_calls (msg : message) : bool :=
  match tool_calls msg with [] => false | _ :: _ => true end.

(** One pass of the inner loop: a tool name not seen yet is appended to
    [tool_history] and described in [observations]. *)
Definition note_tool_call (acc : list string * list string) (tc : tool_call)
    : list string * list string :=
  let '(obs, hist) := acc in
  let tool_name := get_or (tool_call_name tc) "unknown" in
  if mem String.eqb tool_name hist then (obs, hist)
  else ((obs ++ [String.append "Used tool: " tool_name])%list, (hist ++ [tool_name])%list).

(** The outer loop over [result["messages"]]; the pair is
    [(observations, tool_history)]. *)
Definition extract_tool_calls (result_messages : list message)
    : list string * list string :=
  fold_left
    (fun acc msg =>
       if has_tool_calls msg then fold_left note_tool_call (tool_calls msg) acc
       else acc)
    result_messages ([], []).

(** The test of the reversed search for the final answer. *)
Definition is_final_ai (msg : message) : bool :=
  message_type_eqb (type msg) ai && negb (has_tool_calls msg).

Definition assign_context (f : context_t -> context_t) : M world unit :=
  assign (fun s => set_context (f (context s)) s).

Definition failure_notice : string := "Unable to complete research due to an error.".

Definition execute (self : t) : M world unit :=
  try_except
    (w <- read ;;
     let messages_to_send := limit_history (max_history self) (messages (state w)) in
     result_messages <- call_agent_invoke self messages_to_send ;;
     let '(obs, hist) := extract_tool_calls result_messages in
     assign_context (set_observations obs) ;;
     assign_context (set_tool_history hist) ;;
     last_msg <- lift (item result_messages (-1)) ;;
     let final := content last_msg in
     assign_context (set_final_output final) ;;
     match langfuse_client self with
     | Some lf =>
         try_except
           (call_trace_generation lf
              {| trace_name := agent_name self;
                 trace_input_data :=
                   input_messages
                     (map content
                        (slice_to (List.length messages_to_send) (messages (state w))));
                 trace_output := final;
                 trace_model := get_or (model_name self) "research-model";
                 trace_metadata :=
                   [("agent", meta_str "ResearchSupervisor");
                    ("tools_used", meta_list hist);
                    ("num_observations", meta_int (Z.of_nat (List.length obs)))];
                 trace_session_id := session_id (state w) |})
           (fun _ => ret tt)
     | None => ret tt
     end ;;
     match find_first is_final_ai (rev result_messages) with
     | Some final_ai_message => append_message final_ai_message
     | None =>
         last_msg' <- lift (item result_messages (-1)) ;;
         append_message last_msg'
     end ;;
     assign (set_next_agent "synthesis") ;;
     assign (set_last_agent (Some "research")) ;;
     increment_iteration)
    (fun e =>
       assign_context (set_observations ["Research failed: " ++ exn_str e]) ;;
       assign_context (set_final_output failure_notice) ;;
       assign (set_next_agent "synthesis") ;;
       increment_iteration).

End ResearchSupervisor.

(* ===================================================================== *)
(** ** [src/agents/tools/pdf_retrieval.py]                                *)
(* ===================================================================== *)

Module PDFRetrievalTool.

(** [str(n)] for an integer. *)
Definition str_int (n : Z) : string := NilZero.string_of_int (Z.to_int n).

(** [enumerate(l, start)]. *)
Fixpoint enumerate {A} (start : Z) (l : list A) : list (Z * A) :=
  match l with
  | [] => []
  | a :: l' => (start, a) :: enumerate (start + 1) l'
  end.

(** The tool object: the retriever it wraps and its threshold. *)
Record t : Type := {
  retrieve : history -> string -> Z -> result (list document);
  tool_session_id : string;
  min_similarity_score : float
}.

(** The field's default. *)
Definition default_min_similarity_score : float := 0.5%float.

Definition call_retrieve (self : t) (query : string) (top_k : Z)
    : M history (list document) :=
  h <- read ;;
  let r := retrieve self h query top_k in
  modify (fun h => (h ++ [ev_retrieve query top_k (is_ok r)])%list) ;;
  lift r.

(** [[doc for doc in documents if doc['score'] > self.min_similarity_score]]. *)
Definition filter_documents (self : t) (documents : list document) : list document :=
  filter (fun doc => PrimFloat.ltb (min_similarity_score self) (doc_score doc)) documents.

Section Formatting.
(** Python's float formatting is not part of the repository: [format_2f x]
    is [format(x, ".2f")] and [float_str x] is [str(x)]. *)
Variable format_2f : float -> string.
Variable float_str : float -> string.

Definition newline : string := String (ascii_of_nat 10) "".

Definition no_relevant_documents (self : t) : string :=
  "No relevant documents found in the academic papers (all similarity scores ≤ "
  ++ float_str (min_similarity_score self) ++ ").".

Definition format_document (entry : Z * document) : string :=
  let '(i, doc) := entry in
  "[Document " ++ str_int i ++ "] (Source: " ++ doc_source doc
  ++ ", Page: " ++ str_int (doc_page doc)
  ++ ", Score: " ++ format_2f (doc_score doc) ++ ")" ++ newline
  ++ doc_text doc ++ newline.

Definition _run (self : t) (query : string) : M history string :=
  documents <- call_retrieve self query 5 ;;
  let filtered_docs := filter_documents self documents in
  match filtered_docs with
  | [] => ret (no_relevant_documents self)
  | _ :: _ => ret (join newline (map format_document (enumerate 1 filtered_docs)))
  end.
End Formatting.

End PDFRetrievalTool.

(* ===================================================================== *)
(** ** [src/graph/workflow.py]                                            *)
(* ===================================================================== *)

Module AgentWorkflow.

(** The Checkpoint Store port, as the workflow and the graph compiled with
    it use it: listing a thread's checkpoints, reading its latest values
    (empty for an unknown thread), writing a checkpoint of the channels, and
    deleting the thread. *)
Record RedisSaver : Type := {
  saver_list : history -> string -> result (list AgentState);
  saver_get_state : history -> string -> result (option AgentState);
  saver_put : history -> string -> AgentState -> result unit;
  saver_delete_thread : history -> string -> result unit
}.

Record t : Type := {
  orchestrator : agent_self;
  clarification : agent_self;
  synthesis : agent_self;
  research : ResearchSupervisor.t;
  checkpointer : option RedisSaver
}.

(** The nodes added by [_build_graph], and where an edge may lead. *)
Inductive node : Type := Orchestrator | Clarification | Research | Synthesis.
Inductive target : Type := to_node (n : node) | END.

Definition node_name (n : node) : string :=
  match n with
  | Orchestrator => "orchestrator"
  | Clarification => "clarification"
  | Research => "research"
  | Synthesis => "synthesis"
  end.

Section Runtime.
(** [upper s] is [s.upper()]. *)
Variable upper : string -> string.

Definition node_action (self : t) (n : node) : M world unit :=
  match n with
  | Orchestrator => MasterOrchestrator.execute upper (orchestrator self)
  | Clarification => ClarificationAgent.execute (clarification self)
  | Research => ResearchSupervisor.execute (research self)
  | Synthesis => AnswerSynthesisAgent.execute (synthesis self)
  end.

Definition entry_point : node := Orchestrator.

Definition route_after_orchestrator (s : AgentState) : string := next_agent s.

(** The path map of [add_conditional_edges]. *)
Definition path_map : list (string * node) :=
  [("clarification", Clarification); ("research", Research)].

Fixpoint lookup (key : string) (m : list (string * node)) : option node :=
  match m with
  | [] => None
  | (k, n) :: m' => if String.eqb k key then Some n else lookup key m'
  end.

(** The edge taken after node [n] has run and left the state [s]. *)
Definition next_target (n : node) (s : AgentState) : result target :=
  match n with
  | Orchestrator =>
      match lookup (route_after_orchestrator s) path_map with
      | Some m => Ok (to_node m)
      | None => Raise (KeyError (route_after_orchestrator s))
      end
  | Clarification => Ok END
  | Research => Ok (to_node Synthesis)
  | Synthesis => Ok END
  end.

(** [operator.add], the reducer the state schema gives to [messages]. *)
Definition add (a b : list message) : list message := (a ++ b)%list.

(** A node returns the dictionary it was given: every key is written back.
    The plain keys keep the value returned; [messages] is reduced with [add]
    from the channel's list, which is the list the node has appended to,
    and the list returned. *)
Definition write_channels : M world unit :=
  assign (fun s => set_messages (add (messages s) (messages s)) s).

(** The graph library stops a run after this many steps. *)
Definition recursion_limit : nat := 25.

Definition recursion_error : exn :=
  RecursionError "Recursion limit of 25 reached without hitting a stop condition.".

(** The compiled graph run from node [n]: the node's agent runs, its return
    value is written to the channels, the edge out of [n] is chosen, and the
    step is saved with [save]. The value is the list of nodes executed. *)
Fixpoint traverse (self : t) (save : M world unit) (fuel : nat) (n : node)
    : M world (list node) :=
  match fuel with
  | O => raise recursion_error
  | S fuel' =>
      node_action self n ;;
      write_channels ;;
      w <- read ;;
      t <- lift (next_target n (state w)) ;;
      save ;;
      match t with
      | END => ret [n]
      | to_node m => rest <- traverse self save fuel' m ;; ret (n :: rest)
      end
  end.

(** The run of a graph compiled without a checkpointer: nothing is saved. *)
Definition run (self : t) (fuel : nat) (n : node) : M world (list node) :=
  traverse self (ret tt) fuel n.

(** Writing a checkpoint of the channels for [thread_id]. *)
Definition put_checkpoint (saver : RedisSaver) (thread_id : string) : M world unit :=
  w <- read ;;
  let r := saver_put saver (calls w) thread_id (state w) in
  record_call (ev_checkpoint_put thread_id (is_ok r)) ;;
  lift r.

(** The run of a graph compiled with a checkpointer: a checkpoint is written
    after every step, and a write that raises ends the run. *)
Definition run_saving (self : t) (saver : RedisSaver) (thread_id : string)
    (fuel : nat) (n : node) : M world (list node) :=
  traverse self (put_checkpoint saver thread_id) fuel n.

(** The channels a run starts from. The input dictionary is written like a
    node's return value: over the values [saved] by the thread's latest
    checkpoint when there is one, its [messages] reduced with [add]. *)
Definition map_input (saved : option AgentState) (input : AgentState) : AgentState :=
  match saved with
  | None => set_messages (add [] (messages input)) input
  | Some previous => set_messages (add (messages previous) (messages input)) input
  end.

(** A graph compiled with a checkpointer refuses a config that names no
    thread. *)
Definition thread_required : exn :=
  ValueError
    "Checkpointer requires one or more of the following 'configurable' keys: thread_id, checkpoint_ns, checkpoint_id".

(** What [invoke] hands back from a run: the final channels and the nodes
    executed. *)
Definition finish (r : result (list node) * world)
    : result (AgentState * list node) * history :=
  match r with
  | (Ok trace, w) => (Ok (state w, trace), calls w)
  | (Raise e, w) => (Raise e, calls w)
  end.

(** [invoke]: [self.graph.invoke(state, config=config)], the graph run from
    its entry point; [config] is the thread id under ["configurable"], if any.
    Without a checkpointer the config is not looked at and the run starts
    from the input alone. With one, the thread's latest checkpoint is read
    first, the input is written over it and saved, and every step is saved;
    what the store raises comes out of [invoke]. The value is the final state
    and the nodes executed. *)
Definition invoke (self : t) (config : option string) (input : AgentState)
    : M history (AgentState * list node) :=
  fun h =>
    match checkpointer self with
    | None =>
        finish (run self recursion_limit entry_point (World (map_input None input) h))
    | Some saver =>
        match config with
        | None => (Raise thread_required, h)
        | Some thread_id =>
            let r := saver_get_state saver h thread_id in
            let h1 := (h ++ [ev_checkpoint_get thread_id (is_ok r)])%list in
            match r with
            | Raise e => (Raise e, h1)
            | Ok saved =>
                finish ((put_checkpoint saver thread_id ;;
                         run_saving self saver thread_id recursion_limit entry_point)
                          (World (map_input saved input) h1))
            end
        end
    end.
End Runtime.

Definition not_initialized (what : string) : exn :=
  ValueError ("Checkpointer not initialized. Cannot " ++ what ++ ".").

Definition record_store_call (e : event) : M history unit :=
  modify (fun h => (h ++ [e])%list).

Definition get_thread_state (self : t) (thread_id : string)
    : M history (option AgentState) :=
  match checkpointer self with
  | None => raise (not_initialized "retrieve thread state")
  | Some saver =>
      h <- read ;;
      let r := saver_get_state saver h thread_id in
      record_store_call (ev_checkpoint_get thread_id (is_ok r)) ;;
      lift r
  end.

Definition get_thread_history (self : t) (thread_id : string)
    : M history (list AgentState) :=
  match checkpointer self with
  | None => raise (not_initialized "retrieve thread history")
  | Some saver =>
      h <- read ;;
      let r := saver_list saver h thread_id in
      record_store_call (ev_checkpoint_list thread_id (is_ok r)) ;;
      lift r
  end.

Definition delete_thread (self : t) (thread_id : string) : M history unit :=
  match checkpointer self with
  | None => raise (not_initialized "delete thread")
  | Some saver =>
      h <- read ;;
      let r := saver_delete_thread saver h thread_id in
      record_store_call (ev_checkpoint_delete thread_id (is_ok r)) ;;
      lift r
  end.

Definition thread_exists (self : t) (thread_id : string) : M history bool :=
  match checkpointer self with
  | None => ret false
  | Some _ =>
      try_except
        (checkpoints <- get_thread_history self thread_id ;;
         ret (Z.of_nat (List.length checkpoints) >? 0))
        (fun _ => ret false)
  end.

End AgentWorkflow.

(* ===================================================================== *)
(** ** Concrete inputs                                                    *)
(* ===================================================================== *)

(** A workflow whose agents never reach a port that answers, used to run the
    definitions on concrete inputs. *)
Definition failing_llm : BaseLLM :=
  {| generate := fun _ _ => Raise (PortError "completion unavailable");
     completion_model := "orchestrator-dotprompt" |}.

Definition plain_agent (llm : BaseLLM) (cfg : agent_config_t) : agent_self :=
  {| llm_client := llm; langfuse_client := None; agent_config := cfg |}.

Definition failing_research : ResearchSupervisor.t :=
  {| ResearchSupervisor.agent_invoke := fun _ _ => Raise (PortError "tool loop unavailable");
     ResearchSupervisor.model_name := Some "gpt-4o-mini";
     ResearchSupervisor.langfuse_client := None;
     ResearchSupervisor.agent_config := default_agent_config |}.

Definition workflow_without_store : AgentWorkflow.t :=
  {| AgentWorkflow.orchestrator := plain_agent failing_llm default_agent_config;
     AgentWorkflow.clarification := plain_agent failing_llm default_agent_config;
     AgentWorkflow.synthesis := plain_agent failing_llm default_agent_config;
     AgentWorkflow.research := failing_research;
     AgentWorkflow.checkpointer := None |}.


Definition sample_documents : list document :=
  [ {| doc_text := "Spider is a text-to-SQL benchmark."; doc_source := "spider.pdf";
       doc_page := 3; doc_score := 0.82%float |};
    {| doc_text := "Unrelated appendix."; doc_source := "other.pdf";
       doc_page := 17; doc_score := 0.31%float |};
    {| doc_text := "Borderline passage."; doc_source := "edge.pdf";
       doc_page := 1; doc_score := 0.5%float |} ].

Definition low_score_documents : list document :=
  [ {| doc_text := "Unrelated appendix."; doc_source := "other.pdf";
       doc_page := 17; doc_score := 0.31%float |};
    {| doc_text := "Noise."; doc_source := "noise.pdf";
       doc_page := 2; doc_score := 0.12%float |} ].

Definition sample_tool (documents : list document) : PDFRetrievalTool.t :=
  {| PDFRetrievalTool.retrieve := fun _ _ _ => Ok documents;
     PDFRetrievalTool.tool_session_id := "default";
     PDFRetrievalTool.min_similarity_score := PDFRetrievalTool.default_min_similarity_score |}.

(** A stand-in for Python's float formatting, enough to run [_run]. *)
Definition show_float (x : float) : string :=
  if PrimFloat.ltb x 0.5%float then "low" else "high".

(** The state a second turn starts from after one clarification: the
    question, the clarifying question, and the user's reply. *)
Definition follow_up_state : AgentState :=
  {| messages := [HumanMessage "Tell me more about it";
                  AIMessage "Which paper do you mean?";
                  HumanMessage "The Spider paper"];
     session_id := "session-123";
     next_agent := "END";
     last_agent := Some "clarification";
     iteration := 1;
     context := {| observations := []; pdf_results := []; web_results := [];
                   tool_history := []; final_output := None |};
     clarification_needed := true;
     missing_context := ["Query is vague or ambiguous"];
     clarification_count := 1;
     final_answer := Some "Which paper do you mean?";
     confidence_score := None |}.

(** An orchestrator configured to look at the latest message only, whose
    Completion port is down. *)
Definition short_window_orchestrator : agent_self :=
  plain_agent failing_llm
    {| cfg_name := None; cfg_prompt := Some empty_prompt_config;
       cfg_max_history := Some 1; cfg_max_clarifications := None |}.

(** A tool loop that searches the papers, then the web (asking for the papers
    once more), and answers: the messages sent come back first. *)
Definition scripted_loop (sent : list message) : list message :=
  (sent ++
   [ Message ai "" [ToolCall (Some "pdf_retrieval")];
     Message tool "[Document 1] (Source: spider.pdf, Page: 3, Score: 0.82)" [];
     Message ai "" [ToolCall (Some "web_search"); ToolCall (Some "pdf_retrieval")];
     Message tool "Spider 2.0 was released in 2024." [];
     Message ai "Spider reports 85.3% execution accuracy." [] ])%list.

Definition scripted_research : ResearchSupervisor.t :=
  {| ResearchSupervisor.agent_invoke := fun _ sent => Ok (scripted_loop sent);
     ResearchSupervisor.model_name := Some "gpt-4o-mini";
     ResearchSupervisor.langfuse_client := None;
     ResearchSupervisor.agent_config := default_agent_config |}.

Definition first_turn_state : AgentState :=
  create_initial_state [HumanMessage "What accuracy does Spider report?"] "session-123".

(** An orchestrator model that always asks for clarification, read through
    a window of one message; a clarification model that always asks the same
    question; a synthesis model that repeats a fixed answer. *)
Definition constant_llm (answer : string) : BaseLLM :=
  {| generate := fun _ _ => Ok answer; completion_model := "gpt-4o-mini" |}.

Definition always_clarifying_workflow : AgentWorkflow.t :=
  {| AgentWorkflow.orchestrator :=
       plain_agent (constant_llm "CLARIFICATION")
         {| cfg_name := None; cfg_prompt := Some empty_prompt_config;
            cfg_max_history := Some 1; cfg_max_clarifications := None |};
     AgentWorkflow.clarification :=
       plain_agent (constant_llm "Which paper do you mean?") default_agent_config;
     AgentWorkflow.synthesis :=
       plain_agent (constant_llm "Spider reports 85.3% execution accuracy.")
         default_agent_config;
     AgentWorkflow.research := scripted_research;
     AgentWorkflow.checkpointer := None |}.

(** [src/apis/routes/chat.py]: a later turn of a thread starts from the
    thread's state with the new user message appended. *)
Definition continue_conversation (existing_state : AgentState) (message : string)
    : AgentState :=
  set_messages (messages existing_state ++ [HumanMessage message])%list existing_state.

(** A checkpoint store that holds [held] for every thread and accepts every
    write; and a workflow run over it. *)
Definition store_holding (held : option AgentState) : AgentWorkflow.RedisSaver :=
  {| AgentWorkflow.saver_list :=
       fun _ _ => Ok match held with Some s => [s] | None => [] end;
     AgentWorkflow.saver_get_state := fun _ _ => Ok held;
     AgentWorkflow.saver_put := fun _ _ _ => Ok tt;
     AgentWorkflow.saver_delete_thread := fun _ _ => Ok tt |}.

Definition over_store (self : AgentWorkflow.t) (held : option AgentState)
    : AgentWorkflow.t :=
  {| AgentWorkflow.orchestrator := AgentWorkflow.orchestrator self;
     AgentWorkflow.clarification := AgentWorkflow.clarification self;
     AgentWorkflow.synthesis := AgentWorkflow.synthesis self;
     AgentWorkflow.research := AgentWorkflow.research self;
     AgentWorkflow.checkpointer := Some (store_holding held) |}.

(** A checkpoint store that is down: every call raises. *)
Definition failing_store : AgentWorkflow.RedisSaver :=
  {| AgentWorkflow.saver_list := fun _ _ => Raise (PortError "store unavailable");
     AgentWorkflow.saver_get_state := fun _ _ => Raise (PortError "store unavailable");
     AgentWorkflow.saver_put := fun _ _ _ => Raise (PortError "store unavailable");
     AgentWorkflow.saver_delete_thread := fun _ _ => Raise (PortError "store unavailable") |}.

(** The final state of a turn of the thread ["session-123"] over a store
    holding [held], or the input when the turn raised. *)
Definition turn (self : AgentWorkflow.t) (held : option AgentState) (input : AgentState)
    : AgentState * list AgentWorkflow.node :=
  match fst (AgentWorkflow.invoke ascii_upper (over_store self held) (Some "session-123")
               input []) with
  | Ok r => r
  | Raise _ => (input, [])
  end.

(* ===================================================================== *)
(** ** Vocabulary of the statements                                        *)
(* ===================================================================== *)

(** A computation that may call ports but assigns to no key of the state. *)
Definition keeps_state {A} (c : M world A) : Prop :=
  forall w, state (snd (c w)) = state w.

(** The three ways layer 3 leaves the state. *)
Definition routed_to_clarification (count : Z) (s : AgentState) : AgentState :=
  set_iteration (iteration s + 1)
    (set_clarification_count (count + 1)
       (set_missing_context ["Query is vague or ambiguous"]
          (set_clarification_needed true (set_next_agent "clarification" s)))).

Definition routed_to_research (s : AgentState) : AgentState :=
  set_iteration (iteration s + 1)
    (set_clarification_count 0
       (set_clarification_needed false (set_next_agent "research" s))).

Definition routed_by_fallback (s : AgentState) : AgentState :=
  set_iteration (iteration s + 1)
    (set_clarification_needed false (set_next_agent "research" s)).

(** The Completion port of an agent is down: every call raises. *)
Definition completion_fails (llm : BaseLLM) : Prop :=
  forall (h : history) (arg : generate_arg), exists e, generate llm h arg = Raise e.

(** The state the clarification agent leaves when it has asked [text]. *)
Definition clarified (text : string) (s : AgentState) : AgentState :=
  set_last_agent (Some "clarification")
    (set_next_agent "END"
       (set_final_answer (Some text)
          (set_messages (messages s ++ [AIMessage text])%list s))).

(** The states the synthesis agent leaves: after an answer, and after a failure. *)
Definition synthesized (answer : string) (s : AgentState) : AgentState :=
  set_last_agent (Some "synthesis")
    (set_next_agent "END"
       (set_confidence_score
          (Some (AnswerSynthesisAgent._calculate_confidence (observations (context s))))
          (set_final_answer (Some answer)
             (set_messages (messages s ++ [AIMessage answer])%list s)))).

Definition synthesis_fallback (s : AgentState) : string :=
  match final_output (context s) with
  | Some (String c rest) => String c rest
  | Some EmptyString | None => AnswerSynthesisAgent.generic_error
  end.

Definition synthesis_failed (s : AgentState) : AgentState :=
  set_next_agent "END"
    (set_confidence_score (Some 0.0%float)
       (set_final_answer (Some (synthesis_fallback s))
          (set_messages (messages s ++ [AIMessage (synthesis_fallback s)])%list s))).

(** The message the research agent appends for a non-empty loop result. *)
Definition appended_message (result_messages : list message) : message :=
  match find_first ResearchSupervisor.is_final_ai (rev result_messages) with
  | Some final_ai_message => final_ai_message
  | None => last result_messages (AIMessage "")
  end.

(** The state after a loop that returned the non-empty [result_messages]. *)
Definition researched (result_messages : list message) (s : AgentState) : AgentState :=
  set_iteration (iteration s + 1)
    (set_last_agent (Some "research")
       (set_next_agent "synthesis"
          (set_messages (messages s ++ [appended_message result_messages])%list
             (set_context
                (set_final_output (content (last result_messages (AIMessage "")))
                   (set_tool_history
                      (snd (ResearchSupervisor.extract_tool_calls result_messages))
                      (set_observations
                         (fst (ResearchSupervisor.extract_tool_calls result_messages))
                         (context s))))
                s)))).

(** The state after a loop that raised [e]; [ctx] is the context the
    handler found. *)
Definition research_failed (e : exn) (ctx : context_t) (s : AgentState) : AgentState :=
  set_iteration (iteration s + 1)
    (set_next_agent "synthesis"
       (set_context
          (set_final_output ResearchSupervisor.failure_notice
             (set_observations [String.append "Research failed: " (exn_str e)] ctx))
          s)).

(** The channels after a node's return value has been written back. *)
Definition written (s : AgentState) : AgentState :=
  set_messages (AgentWorkflow.add (messages s) (messages s)) s.

(** The tool loop of the research agent is down: every call raises. *)
Definition tool_loop_fails (self : ResearchSupervisor.t) : Prop :=
  forall (h : history) (sent : list message),
    exists e, ResearchSupervisor.agent_invoke self h sent = Raise e.

Definition tool_name_of (tc : tool_call) : string :=
  get_or (tool_call_name tc) "unknown".

(** The tool names requested in a loop result, in the order requested. *)
Definition requested_tools (result_messages : list message) : list string :=
  flat_map (fun msg => map tool_name_of (tool_calls msg)) result_messages.

(** The names of [names] without repetition, each at its first occurrence. *)
Definition first_occurrences (names : list string) : list string :=
  rev (nodup string_dec (rev names)).

Definition describe_tool (tool_name : string) : string :=
  String.append "Used tool: " tool_name.

(** An orchestrator whose history limit is negative. *)
Definition negative_history_orchestrator : agent_self :=
  plain_agent failing_llm
    {| cfg_name := None; cfg_prompt := Some empty_prompt_config;
       cfg_max_history := Some (-3); cfg_max_clarifications := None |}.

(* ===================================================================== *)
(** ** [src/apis/routes]                                                  *)
(* ===================================================================== *)

(** What a route hands to the web framework: its response model, or the
    [HTTPException] it raised. *)
Inductive http (A : Type) : Type :=
| Response (a : A)
| HTTPException (status_code : Z) (detail : string).
Arguments Response {A} a.
Arguments HTTPException {A} status_code detail.

Definition HTTP_400_BAD_REQUEST : Z := 400.
Definition HTTP_404_NOT_FOUND : Z := 404.
Definition HTTP_500_INTERNAL_SERVER_ERROR : Z := 500.

(** [s.lower()] on ASCII text, a stand-in for the runtime's [str.lower]. *)
Definition lower_ascii (c : ascii) : ascii :=
  let n := nat_of_ascii c in
  if (Nat.leb 65 n && Nat.leb n 90)%bool then ascii_of_nat (n + 32) else c.

Fixpoint ascii_lower (s : string) : string :=
  match s with
  | EmptyString => EmptyString
  | String c s' => String (lower_ascii c) (ascii_lower s')
  end.

(** A route body runs inside [try]; an [HTTPException] it raises is the
    value [body] returns, any other exception goes to [handler]. *)
Definition route {A} (body : M history (http A)) (handler : exn -> http A)
    : history -> http A * history :=
  fun h =>
    match body h with
    | (Ok r, h') => (r, h')
    | (Raise e, h') => (handler e, h')
    end.

(** [src/apis/routes/memory.py] *)
Module MemoryRoutes.

Record Message : Type := {
  role : string;
  message_content : string;
  timestamp : string;
  metadata : list (string * string)
}.

Record SessionHistoryResponse : Type := {
  history_session_id : string;
  history_message_count : Z;
  history_messages : list Message
}.

Record SessionClearedResponse : Type := {
  cleared_message : string;
  cleared_session_id : string
}.

(** One round of the loop over the stored messages; [now k] is the clock at
    its [k]-th reading during the request. *)
Definition collect (now : nat -> string) (acc : list Message) (msg : message)
    : list Message :=
  if isinstance_HumanMessage msg || isinstance_AIMessage msg
  then
    let role := if isinstance_HumanMessage msg then "user" else "assistant" in
    (acc ++ [ {| role := role;
                 message_content := content msg;
                 timestamp := now (List.length acc);
                 metadata := [] |} ])%list
  else acc.

Definition not_found (session_id : string) : string :=
  "Session not found: " ++ session_id.

Definition get_session_history (self : AgentWorkflow.t) (now : nat -> string)
    (session_id : string) : history -> http SessionHistoryResponse * history :=
  route
    (found <- AgentWorkflow.thread_exists self session_id ;;
     if negb found
     then ret (HTTPException HTTP_404_NOT_FOUND (not_found session_id))
     else
       state <- AgentWorkflow.get_thread_state self session_id ;;
       let stored := match state with Some s => messages s | None => [] end in
       let collected := fold_left (collect now) stored [] in
       ret (Response {| history_session_id := session_id;
                        history_message_count := Z.of_nat (List.length collected);
                        history_messages := collected |}))
    (fun e =>
       HTTPException HTTP_500_INTERNAL_SERVER_ERROR
         ("Failed to retrieve session history: " ++ exn_str e)).

Definition clear_session (self : AgentWorkflow.t) (session_id : string)
    : history -> http SessionClearedResponse * history :=
  route
    (found <- AgentWorkflow.thread_exists self session_id ;;
     if negb found
     then ret (HTTPException HTTP_404_NOT_FOUND (not_found session_id))
     else
       AgentWorkflow.delete_thread self session_id ;;
       ret (Response {| cleared_message := "Session cleared successfully";
                        cleared_session_id := session_id |}))
    (fun e =>
       HTTPException HTTP_500_INTERNAL_SERVER_ERROR
         ("Failed to clear session: " ++ exn_str e)).

End MemoryRoutes.

(** [src/apis/routes/chat.py] *)
Module ChatRoute.

Record ChatRequest : Type := {
  message : string;
  request_session_id : option string;
  top_k : Z
}.

Record ChatResponse : Type := {
  answer : string;
  sources : list document;
  response_session_id : string;
  message_count : Z
}.

(** [chat_request.session_id or str(uuid.uuid4())]. *)
Definition session_of (uuid4 : string) (chat_request : ChatRequest) : string :=
  match request_session_id chat_request with
  | Some (String c rest) => String c rest
  | Some EmptyString | None => uuid4
  end.

Definition no_documents : string :=
  "No documents found in vector database. Please ingest PDFs first.".

Definition failed_to_generate (error_msg : string) : http ChatResponse :=
  HTTPException HTTP_500_INTERNAL_SERVER_ERROR ("Failed to generate answer: " ++ error_msg).

Section Runtime.
(** [upper s] is [s.upper()], [lower s] is [s.lower()]. *)
Variable upper lower : string -> string.

(** The two [except] clauses. *)
Definition on_exception (e : exn) : http ChatResponse :=
  match e with
  | ValueError msg => HTTPException HTTP_400_BAD_REQUEST msg
  | _ =>
      let error_msg := exn_str e in
      if contains "no documents" (lower error_msg)
         || contains "empty collection" (lower error_msg)
      then HTTPException HTTP_404_NOT_FOUND no_documents
      else failed_to_generate error_msg
  end.

(** [chat]: [uuid4] is the identifier the generator would give. The graph is
    run for the thread of the session. Reading ["messages"] from an empty
    snapshot is a [KeyError], and slicing a [final_answer] that is [None] for
    the log line a [TypeError]; both reach the second [except] clause, whose
    result is written at the place they arise. *)
Definition chat (self : AgentWorkflow.t) (uuid4 : string)
    (chat_request : ChatRequest) : history -> http ChatResponse * history :=
  let session_id := session_of uuid4 chat_request in
  route
    (found <- AgentWorkflow.thread_exists self session_id ;;
     loaded <-
       (if found
        then
          existing_state <- AgentWorkflow.get_thread_state self session_id ;;
          ret (option_map (fun s => continue_conversation s (message chat_request))
                 existing_state)
        else
          ret (Some (create_initial_state [HumanMessage (message chat_request)]
                       session_id))) ;;
     match loaded with
     | None => ret (failed_to_generate "'messages'")
     | Some state_to_invoke =>
         result <- AgentWorkflow.invoke upper self (Some session_id) state_to_invoke ;;
         let final_state := fst result in
         match final_answer final_state with
         | None => ret (failed_to_generate "'NoneType' object is not subscriptable")
         | Some answer =>
             ret (Response {| answer := answer;
                              sources := [];
                              response_session_id := session_id;
                              message_count :=
                                Z.of_nat (List.length (messages final_state)) |})
         end
     end)
    on_exception.
End Runtime.

End ChatRoute.

(** A checkpoint store that holds one thread, ["session-123"], whose latest
    state is [stored_state]; and a workflow using it. *)
Definition stored_state : AgentState :=
  set_last_agent (Some "clarification")
    (set_clarification_count 1
       (create_initial_state
          [ HumanMessage "Tell me more about it";
            Message tool "lookup" [];
            AIMessage "Which paper do you mean?" ]
          "session-123")).

Definition sample_store : AgentWorkflow.RedisSaver :=
  {| AgentWorkflow.saver_list :=
       fun _ thread_id =>
         if String.eqb thread_id "session-123" then Ok [stored_state] else Ok [];
     AgentWorkflow.saver_get_state :=
       fun _ thread_id =>
         if String.eqb thread_id "session-123" then Ok (Some stored_state) else Ok None;
     AgentWorkflow.saver_put := fun _ _ _ => Ok tt;
     AgentWorkflow.saver_delete_thread := fun _ _ => Ok tt |}.

Definition workflow_with_store : AgentWorkflow.t :=
  {| AgentWorkflow.orchestrator := plain_agent failing_llm default_agent_config;
     AgentWorkflow.clarification := plain_agent failing_llm default_agent_config;
     AgentWorkflow.synthesis := plain_agent failing_llm default_agent_config;
     AgentWorkflow.research := failing_research;
     AgentWorkflow.checkpointer := Some sample_store |}.

(** A clock for the timestamps of a history response. *)
Definition sample_clock (k : nat) : string :=
  match k with
  | O => "2025-01-01T00:00:00"
  | _ => "2025-01-01T00:00:01"
  end.

(** The role a stored message is listed under. *)
Definition role_of (msg : message) : string :=
  if isinstance_HumanMessage msg then "user" else "assistant".

Definition in_dialogue (msg : message) : bool :=
  isinstance_HumanMessage msg || isinstance_AIMessage msg.

(** The thread is unknown to the workflow at [h]: there is no store, or
    listing the thread's checkpoints raises, or there is none. *)
Definition thread_unknown (self : AgentWorkflow.t) (thread_id : string) (h : history)
    : Prop :=
  match AgentWorkflow.checkpointer self with
  | None => True
  | Some saver =>
      match AgentWorkflow.saver_list saver h thread_id with
      | Ok [] | Raise _ => True
      | Ok (_ :: _) => False
      end
  end.

(** The number of recorded calls that satisfy [p]. *)
Definition count_calls (p : event -> bool) (h : history) : nat :=
  List.length (filter p h).

(** A computation that keeps the calls recorded so far and records at most
    [n] further calls satisfying [p], whether it returns or raises. *)
Definition adds_at_most (p : event -> bool) (n : nat) {A} (c : M world A) : Prop :=
  forall w : world,
    exists added : history,
      calls (snd (c w)) = (calls w ++ added)%list
      /\ (count_calls p added <= n)%nat.

(** A prompt store that serves every template while its tracing is down,
    and a clarification agent configured to use it. *)
Definition untraced_store : LangfuseClient :=
  {| get_prompt :=
       fun _ name _ _ =>
         Ok {| prompt_text := name;
               prompt_compile := fun _ => Ok "Ask the user what is unclear." |};
     trace_generation := fun _ _ => Raise (PortError "tracing unavailable") |}.

Definition untraced_clarification : agent_self :=
  {| llm_client := constant_llm "Which paper do you mean?";
     langfuse_client := Some untraced_store;
     agent_config :=
       {| cfg_name := None;
          cfg_prompt :=
            Some {| provider := Some "langfuse"; prompt_id := None;
                    prompt_version := None; environment := None |};
          cfg_max_history := None; cfg_max_clarifications := None |} |}.

(* ===================================================================== *)
(** ** [src/graph/workflow.py]: the checkpointer of [__init__]            *)
(* ===================================================================== *)

Module WorkflowInit.

(** The Redis client handed to [__init__], as the constructor uses it: what
    [RedisSaver(redis_client=...)] gives on it, and what [setup()] of that
    saver gives. *)
Record redis_client_t : Type := {
  new_saver : result AgentWorkflow.RedisSaver;
  saver_setup : AgentWorkflow.RedisSaver -> result unit
}.

(** The block that sets [self.checkpointer], run on the attribute's value:
    [None] at first, assigned as soon as the saver is constructed, before
    [setup()] is called; the handler only logs. *)
Definition set_up_checkpointer (redis_client : option redis_client_t)
    : M (option AgentWorkflow.RedisSaver) unit :=
  modify (fun _ => None) ;;
  match redis_client with
  | None => ret tt
  | Some client =>
      try_except
        (saver <- lift (new_saver client) ;;
         modify (fun _ => Some saver) ;;
         lift (saver_setup client saver))
        (fun _ => ret tt)
  end.

(** [self.checkpointer] after [__init__]. *)
Definition init_checkpointer (redis_client : option redis_client_t)
    : option AgentWorkflow.RedisSaver :=
  snd (set_up_checkpointer redis_client None).

End WorkflowInit.

(* ===================================================================== *)
(** ** [src/rag/retriever/document_retriever.py]                          *)
(* ===================================================================== *)

(** [s.strip()] on ASCII text, a stand-in for the runtime's [str.strip],
    which also removes the other Unicode whitespace. *)
Definition is_space (c : ascii) : bool :=
  let n := nat_of_ascii c in
  (Nat.leb 9 n && Nat.leb n 13) || (Nat.leb 28 n && Nat.leb n 32).

Fixpoint ascii_lstrip (s : string) : string :=
  match s with
  | EmptyString => EmptyString
  | String c s' => if is_space c then ascii_lstrip s' else s
  end.

Definition reverse (s : string) : string :=
  string_of_list_ascii (rev (list_ascii_of_string s)).

Definition ascii_rstrip (s : string) : string := reverse (ascii_lstrip (reverse s)).

Definition ascii_strip (s : string) : string := ascii_rstrip (ascii_lstrip s).

Module DocumentRetriever.

Definition embedding : Type := list float.

(** The calls the retriever makes, with whether they returned. *)
Inductive call : Type :=
| embed_call (texts : list string) (returned : bool)
| search_call (query_embedding : embedding) (k : Z) (returned : bool).

(** A hit of the vector store: a dictionary whose keys may be missing. *)
Record hit_metadata : Type := {
  meta_source : option string;
  meta_page : option Z
}.

Record hit : Type := {
  hit_text : option string;
  hit_metadata_of : option hit_metadata;
  hit_score : option float
}.

(** The retriever object: the embedding side of the model client and the
    vector store; [filter] is passed through as it is given. *)
Record t : Type := {
  embed : list call -> list string -> result (list embedding);
  search : list call -> embedding -> Z -> option (list (string * string))
           -> result (list hit)
}.

Definition call_embed (self : t) (texts : list string) : M (list call) (list embedding) :=
  h <- read ;;
  let r := embed self h texts in
  modify (fun h => (h ++ [embed_call texts (is_ok r)])%list) ;;
  lift r.

Definition call_search (self : t) (query_embedding : embedding) (k : Z)
    (filter : option (list (string * string))) : M (list call) (list hit) :=
  h <- read ;;
  let r := search self h query_embedding k filter in
  modify (fun h => (h ++ [search_call query_embedding k (is_ok r)])%list) ;;
  lift r.

(** [result.get("metadata", {})]. *)
Definition metadata_or_empty (result : hit) : hit_metadata :=
  get_or (hit_metadata_of result) {| meta_source := None; meta_page := None |}.

(** One round of the loop that formats the hits. *)
Definition to_document (result : hit) : document :=
  {| doc_text := get_or (hit_text result) "";
     doc_source := get_or (meta_source (metadata_or_empty result)) "unknown";
     doc_page := get_or (meta_page (metadata_or_empty result)) 0;
     doc_score := get_or (hit_score result) 0.0%float |}.

Definition query_cannot_be_empty : exn := ValueError "Query cannot be empty".

Section Runtime.
(** [strip s] is [s.strip()]. *)
Variable strip : string -> string.

(** The test [not query or not query.strip()]. *)
Definition blank (query : string) : bool :=
  negb (truthy query) || negb (truthy (strip query)).

(** [retrieve]; both [except] clauses raise again what they caught. *)
Definition retrieve (self : t) (query : string) (top_k : Z)
    (filter : option (list (string * string))) : M (list call) (list document) :=
  if blank query
  then raise query_cannot_be_empty
  else
    try_except
      (query_embeddings <- call_embed self [query] ;;
       query_embedding <- lift (item query_embeddings 0) ;;
       search_results <- call_search self query_embedding top_k filter ;;
       let documents := fold_left (fun acc result => (acc ++ [to_document result])%list)
                          search_results [] in
       ret documents)
      (fun e => raise e).
End Runtime.

End DocumentRetriever.

(** The retriever a [PDFRetrievalTool] reaches through its [rag_service]:
    each call of the tool is one call of [retrieve], without a filter. *)
Definition retriever_of (strip : string -> string) (retriever : DocumentRetriever.t)
    : history -> string -> Z -> result (list document) :=
  fun _ query top_k =>
    fst (DocumentRetriever.retrieve strip retriever query top_k None []).

Definition pdf_tool_over (strip : string -> string) (retriever : DocumentRetriever.t)
    (minimum : float) : PDFRetrievalTool.t :=
  {| PDFRetrievalTool.retrieve := retriever_of strip retriever;
     PDFRetrievalTool.tool_session_id := "default";
     PDFRetrievalTool.min_similarity_score := minimum |}.

(** A vector store with two hits, one of them without score and metadata. *)
Definition sample_retriever : DocumentRetriever.t :=
  {| DocumentRetriever.embed := fun _ texts => Ok (map (fun _ => [0.25%float]) texts);
     DocumentRetriever.search :=
       fun _ _ _ _ =>
         Ok [ {| DocumentRetriever.hit_text := Some "Spider is a text-to-SQL benchmark.";
                 DocumentRetriever.hit_metadata_of :=
                   Some {| DocumentRetriever.meta_source := Some "spider.pdf";
                           DocumentRetriever.meta_page := Some 3 |};
                 DocumentRetriever.hit_score := Some 0.82%float |};
              {| DocumentRetriever.hit_text := Some "A hit without a score.";
                 DocumentRetriever.hit_metadata_of := None;
                 DocumentRetriever.hit_score := None |} ] |}.

(** A Redis client whose saver is constructed while its [setup()] raises. *)
Definition unprepared_redis : WorkflowInit.redis_client_t :=
  {| WorkflowInit.new_saver := Ok sample_store;
     WorkflowInit.saver_setup := fun _ => Raise (PortError "index creation failed") |}.

(** Whether a recorded call returned. *)
Definition event_returned (e : event) : bool :=
  match e with
  | ev_get_prompt _ _ _ returned | ev_compile _ returned | ev_generate _ _ returned
  | ev_trace_generation _ returned | ev_agent_invoke _ returned
  | ev_retrieve _ _ returned | ev_checkpoint_list _ returned
  | ev_checkpoint_get _ returned | ev_checkpoint_put _ returned
  | ev_checkpoint_delete _ returned => returned
  end.

(** No call of the model recorded in [added] returned: every completion and
    every invocation of the tool loop made there raised. *)
Definition no_completion_returned (added : history) : Prop :=
  forall e, In e added -> is_completion e = true -> event_returned e = false.

(** A computation that only adds to the record of calls, and returns only
    after a call of the model that returned. *)
Definition answers_after_completion {A} (c : M world A) : Prop :=
  forall w : world,
    exists added : history,
      calls (snd (c w)) = (calls w ++ added)%list
      /\ (is_ok (fst (c w)) = true ->
          exists e, In e added /\ is_completion e = true /\ event_returned e = true).

(** A way of saving a step that returns and leaves the channels as they are. *)
Definition quiet (save : M world unit) : Prop :=
  forall w : world, exists h' : history, save w = (Ok tt, World (state w) h').

(** [save] with its exceptions dropped: the saving as a run sees it for as
    long as the store returns. *)
Definition mute (save : M world unit) : M world unit :=
  fun w => (Ok tt, snd (save w)).

(** The checkpoint store ended the turn that [invoke] started at [h] with
    outcome [out]: the workflow has a store and the config names no thread,
    or reading the checkpoint of the thread at [h] raised, or a write of a
    checkpoint raised; [invoke] then raises what the store raised, and the
    failed call is the last one recorded. *)
Definition store_stopped (self : AgentWorkflow.t) (config : option string) (h : history)
    (out : result (AgentState * list AgentWorkflow.node) * history) : Prop :=
  exists saver : AgentWorkflow.RedisSaver,
    AgentWorkflow.checkpointer self = Some saver
    /\ match config with
       | None => out = (Raise AgentWorkflow.thread_required, h)
       | Some thread_id =>
           exists e : exn,
             (AgentWorkflow.saver_get_state saver h thread_id = Raise e
              /\ out = (Raise e, (h ++ [ev_checkpoint_get thread_id false])%list))
             \/ (exists (front : history) (s : AgentState),
                   AgentWorkflow.saver_put saver front thread_id s = Raise e
                   /\ out = (Raise e, (front ++ [ev_checkpoint_put thread_id false])%list))
       end.

(** The follow-up pattern of layer 2 on the window [msgs]: it ends with an
    Assistant message followed by a User message and the clarification agent
    ran last. *)
Definition follow_up_pattern (msgs : list message) (last : option string) : bool :=
  match rev msgs with
  | current_msg :: prev_msg :: _ =>
      isinstance_AIMessage prev_msg
      && isinstance_HumanMessage current_msg
      && option_string_eqb last "clarification"
  | _ => false
  end.

(** A Completion port that raises on a compiled prompt and answers on prompt
    variables, a prompt store that serves and traces, and a clarification
    agent over both. *)
Definition retry_only_llm : BaseLLM :=
  {| generate :=
       fun _ arg =>
         match arg with
         | by_prompt _ => Raise (PortError "completion unavailable")
         | by_prompt_variables _ => Ok "Which paper do you mean?"
         end;
     completion_model := "gpt-4o-mini" |}.

Definition serving_store : LangfuseClient :=
  {| get_prompt :=
       fun _ name _ _ =>
         Ok {| prompt_text := name;
               prompt_compile := fun _ => Ok "Ask the user what is unclear." |};
     trace_generation := fun _ _ => Ok tt |}.

Definition retrying_clarification : agent_self :=
  {| llm_client := retry_only_llm;
     langfuse_client := Some serving_store;
     agent_config :=
       {| cfg_name := None;
          cfg_prompt :=
            Some {| provider := Some "langfuse"; prompt_id := None;
                    prompt_version := None; environment := None |};
          cfg_max_history := None; cfg_max_clarifications := None |} |}.

(** The same workflow with its checkpoint store down. *)
Definition failing_store_workflow : AgentWorkflow.t :=
  {| AgentWorkflow.orchestrator := AgentWorkflow.orchestrator always_clarifying_workflow;
     AgentWorkflow.clarification := AgentWorkflow.clarification always_clarifying_workflow;
     AgentWorkflow.synthesis := AgentWorkflow.synthesis always_clarifying_workflow;
     AgentWorkflow.research := AgentWorkflow.research always_clarifying_workflow;
     AgentWorkflow.checkpointer := Some failing_store |}.

(** A checkpoint store that serves the entry of a turn and raises on the first
    write after a call of the model; and the workflow over it. *)
Definition full_store : AgentWorkflow.RedisSaver :=
  {| AgentWorkflow.saver_list := fun _ _ => Ok [];
     AgentWorkflow.saver_get_state := fun _ _ => Ok None;
     AgentWorkflow.saver_put :=
       fun h _ _ =>
         if existsb is_completion h then Raise (PortError "store full") else Ok tt;
     AgentWorkflow.saver_delete_thread := fun _ _ => Ok tt |}.

Definition full_store_workflow : AgentWorkflow.t :=
  {| AgentWorkflow.orchestrator := AgentWorkflow.orchestrator always_clarifying_workflow;
     AgentWorkflow.clarification := AgentWorkflow.clarification always_clarifying_workflow;
     AgentWorkflow.synthesis := AgentWorkflow.synthesis always_clarifying_workflow;
     AgentWorkflow.research := AgentWorkflow.research always_clarifying_workflow;
     AgentWorkflow.checkpointer := Some full_store |}.

(** A computation that only adds to the record of calls. *)
Definition extends_calls {A} (c : M world A) : Prop :=
  forall w : world, exists added : history, calls (snd (c w)) = (calls w ++ added)%list.
(* ===================================================================== *)
(** * Properties                                                          *)
(* ===================================================================== *)

Section Properties.
(** The runtime's [str.upper], [str.lower] and [str.strip]. *)
Variable upper lower strip : string -> string.

(** ** Confidence scoring *)

(** C6: the confidence computed by the synthesis agent is 0.0 for no
    observation, 0.6 for exactly one, 0.8 for exactly two and 0.95 for three
    or more; hence it never decreases when the number of observations grows. *)
Theorem confidence_score_steps :
  (forall obs, List.length obs = 0%nat ->
     AnswerSynthesisAgent._calculate_confidence obs = 0.0%float) /\
  (forall obs, List.length obs = 1%nat ->
     AnswerSynthesisAgent._calculate_confidence obs = 0.6%float) /\
  (forall obs, List.length obs = 2%nat ->
     AnswerSynthesisAgent._calculate_confidence obs = 0.8%float) /\
  (forall obs, (3 <= List.length obs)%nat ->
     AnswerSynthesisAgent._calculate_confidence obs = 0.95%float) /\
  (forall obs1 obs2, (List.length obs1 <= List.length obs2)%nat ->
     PrimFloat.leb (AnswerSynthesisAgent._calculate_confidence obs1)
                   (AnswerSynthesisAgent._calculate_confidence obs2) = true).
Proof.
  unfold AnswerSynthesisAgent._calculate_confidence.
  repeat split; intros obs.
  - intros ->. reflexivity.
  - intros ->. reflexivity.
  - intros ->. reflexivity.
  - intros H. destruct (List.length obs) as [|[|[|n]]]; try lia. reflexivity.
  - intros obs2 H.
    destruct (List.length obs) as [|[|[|n]]], (List.length obs2) as [|[|[|m]]];
      try lia; reflexivity.
Qed.

(** ** Thread management without and with a checkpoint store *)

(** C8, as stated, fails: without a checkpoint store [get_thread_state] and
    [delete_thread] raise [ValueError] instead of doing nothing. *)
Lemma thread_operations_raise_without_store :
  fst (AgentWorkflow.get_thread_state workflow_without_store "session-123" [])
    = Raise (ValueError "Checkpointer not initialized. Cannot retrieve thread state.")
  /\ fst (AgentWorkflow.delete_thread workflow_without_store "session-123" [])
    = Raise (ValueError "Checkpointer not initialized. Cannot delete thread.").
Proof. split; reflexivity. Qed.

(** C8 (amended): without a checkpoint store, for every thread id,
    [thread_exists] returns [False], while [get_thread_state] and
    [delete_thread] raise the [ValueError] "Checkpointer not initialized";
    none of the three calls the store. *)
Theorem thread_operations_without_store
    (self : AgentWorkflow.t) (thread_id : string) (h : history)
    (Hnone : AgentWorkflow.checkpointer self = None) :
  AgentWorkflow.thread_exists self thread_id h = (Ok false, h)
  /\ AgentWorkflow.get_thread_state self thread_id h
     = (Raise (ValueError "Checkpointer not initialized. Cannot retrieve thread state."), h)
  /\ AgentWorkflow.delete_thread self thread_id h
     = (Raise (ValueError "Checkpointer not initialized. Cannot delete thread."), h).
Proof.
  unfold AgentWorkflow.thread_exists, AgentWorkflow.get_thread_state,
    AgentWorkflow.delete_thread.
  rewrite Hnone. repeat split.
Qed.

(** C10: [thread_exists] always returns and never raises. Without a
    checkpoint store it is [False]; with one, it is [False] when listing the
    thread's checkpoints raises, and otherwise [True] exactly when the list
    of checkpoints is not empty. *)
Theorem thread_exists_total (self : AgentWorkflow.t) (thread_id : string) (h : history) :
  exists (b : bool) (h' : history),
    AgentWorkflow.thread_exists self thread_id h = (Ok b, h')
    /\ b = match AgentWorkflow.checkpointer self with
           | None => false
           | Some saver =>
               match AgentWorkflow.saver_list saver h thread_id with
               | Raise _ => false
               | Ok [] => false
               | Ok (_ :: _) => true
               end
           end.
Proof.
  unfold AgentWorkflow.thread_exists, AgentWorkflow.get_thread_history.
  destruct (AgentWorkflow.checkpointer self) as [saver|].
  - unfold try_except, bind, read, lift, ret, AgentWorkflow.record_store_call, modify.
    destruct (AgentWorkflow.saver_list saver h thread_id) as [[|c cs]|e];
      do 2 eexists; split; reflexivity.
  - exists false, h. split; reflexivity.
Qed.

(** ** Retrieval filtering *)

(** Strict comparison of binary64 floats is asymmetric. *)
Lemma SFltb_asym (a b : spec_float) : SFltb a b = true -> SFltb b a = false.
Proof.
  unfold SFltb.
  destruct a as [sa|sa| |sa ma ea], b as [sb|sb| |sb mb eb]; simpl;
    try (destruct sa); try (destruct sb); simpl; try congruence.
  all: rewrite (Z.compare_antisym ea eb); destruct (ea ?= eb)%Z; simpl; try congruence.
  all: change (PosDef.Pos.compare_cont Eq ?p ?q) with (Pos.compare p q).
  all: rewrite (Pos.compare_antisym ma mb); destruct (ma ?= mb)%positive; simpl; congruence.
Qed.

Lemma float_ltb_asym (x y : float) :
  PrimFloat.ltb x y = true -> PrimFloat.ltb y x = false.
Proof. rewrite !ltb_spec. apply SFltb_asym. Qed.

Lemma filter_documents_spec (self : PDFRetrievalTool.t) (documents : list document) doc :
  In doc (PDFRetrievalTool.filter_documents self documents) <->
  In doc documents
  /\ PrimFloat.ltb (PDFRetrievalTool.min_similarity_score self) (doc_score doc) = true.
Proof. unfold PDFRetrievalTool.filter_documents. apply filter_In. Qed.

Lemma filter_documents_nil (self : PDFRetrievalTool.t) (documents : list document) :
  (forall doc, In doc documents ->
     PrimFloat.ltb (PDFRetrievalTool.min_similarity_score self) (doc_score doc) = false) ->
  PDFRetrievalTool.filter_documents self documents = [].
Proof.
  unfold PDFRetrievalTool.filter_documents.
  induction documents as [|d ds IH]; intros H; simpl; [reflexivity|].
  rewrite (H d (or_introl eq_refl)). apply IH. intros doc Hin. apply H. now right.
Qed.

(** C9: whatever list of documents the retriever returns, the documents the
    tool formats for the model are those scoring above the configured minimum
    (0.5 by default): every document scoring below it is left out; and when no
    document passes, the tool returns the non-empty "No relevant documents
    found ..." message. *)
Theorem pdf_retrieval_filters_by_score
    (format_2f float_str : float -> string)
    (self : PDFRetrievalTool.t) (query : string) (h : history)
    (documents : list document)
    (Hret : PDFRetrievalTool.retrieve self h query 5 = Ok documents) :
  let shown := PDFRetrievalTool.filter_documents self documents in
  let minimum := PDFRetrievalTool.min_similarity_score self in
  exists out : string,
    PDFRetrievalTool._run format_2f float_str self query h
      = (Ok out, (h ++ [ev_retrieve query 5 true])%list)
    /\ out = match shown with
             | [] => PDFRetrievalTool.no_relevant_documents float_str self
             | _ :: _ =>
                 join PDFRetrievalTool.newline
                   (map (PDFRetrievalTool.format_document format_2f)
                        (PDFRetrievalTool.enumerate 1 shown))
             end
    /\ (forall doc, In doc shown ->
          In doc documents /\ PrimFloat.ltb minimum (doc_score doc) = true)
    /\ (forall doc, In doc documents ->
          PrimFloat.ltb (doc_score doc) minimum = true -> ~ In doc shown)
    /\ ((forall doc, In doc documents -> PrimFloat.ltb minimum (doc_score doc) = false) ->
          out = PDFRetrievalTool.no_relevant_documents float_str self
          /\ prefix "No relevant documents found" out = true
          /\ out <> "")
    /\ PDFRetrievalTool.default_min_similarity_score = 0.5%float.
Proof.
  intros shown minimum.
  exists (match shown with
          | [] => PDFRetrievalTool.no_relevant_documents float_str self
          | _ :: _ =>
              join PDFRetrievalTool.newline
                (map (PDFRetrievalTool.format_document format_2f)
                     (PDFRetrievalTool.enumerate 1 shown))
          end).
  split.
  { unfold PDFRetrievalTool._run, PDFRetrievalTool.call_retrieve,
      bind, read, modify, lift, ret.
    rewrite Hret. simpl. fold shown. destruct shown; reflexivity. }
  split; [reflexivity|].
  split.
  { intros doc Hin. now apply filter_documents_spec in Hin. }
  split.
  { intros doc _ Hlow Hin. apply filter_documents_spec in Hin as [_ Hhigh].
    apply float_ltb_asym in Hlow. unfold minimum in Hlow. congruence. }
  split; [|reflexivity].
  intros Hall. subst shown. rewrite (filter_documents_nil self documents Hall).
  repeat split. discriminate.
Qed.

(** ** The orchestrator's guard layers *)

Lemma item_last {A} (l : list A) (a : A) : item (l ++ [a]) (-1) = Ok a.
Proof.
  unfold item. rewrite length_app. cbn [List.length].
  replace (-1 <? 0) with true by reflexivity.
  replace (Z.of_nat (List.length l + 1) + -1) with (Z.of_nat (List.length l)) by lia.
  replace (Z.of_nat (List.length l) <? 0) with false by (symmetry; apply Z.ltb_ge; lia).
  replace (Z.of_nat (List.length l + 1) <=? Z.of_nat (List.length l)) with false
    by (symmetry; apply Z.leb_gt; lia).
  cbn [orb]. rewrite Nat2Z.id, nth_error_app2, Nat.sub_diag by lia. reflexivity.
Qed.

Lemma item_last_but_one {A} (l : list A) (a b : A) : item (l ++ [a; b]) (-2) = Ok a.
Proof.
  unfold item. rewrite length_app. cbn [List.length].
  replace (-2 <? 0) with true by reflexivity.
  replace (Z.of_nat (List.length l + 2) + -2) with (Z.of_nat (List.length l)) by lia.
  replace (Z.of_nat (List.length l) <? 0) with false by (symmetry; apply Z.ltb_ge; lia).
  replace (Z.of_nat (List.length l + 2) <=? Z.of_nat (List.length l)) with false
    by (symmetry; apply Z.leb_gt; lia).
  cbn [orb]. rewrite Nat2Z.id, nth_error_app2, Nat.sub_diag by lia. reflexivity.
Qed.

Lemma item_last_cons {A} (l : list A) (a b : A) : item (l ++ [a; b]) (-1) = Ok b.
Proof.
  replace (l ++ [a; b])%list with ((l ++ [a]) ++ [b])%list
    by (rewrite <- app_assoc; reflexivity).
  apply item_last.
Qed.

Lemma counter_guard_outcome (self : agent_self) (w : world) :
  clarification_count (state w) >= MasterOrchestrator.max_clarifications self ->
  exists s' : AgentState,
    MasterOrchestrator.execute upper self w = (Ok tt, World s' (calls w))
    /\ next_agent s' = "research"
    /\ clarification_count s' = 0.
Proof.
  intros Hmax. unfold MasterOrchestrator.execute, bind at 1, read.
  replace (clarification_count (state w) >=? MasterOrchestrator.max_clarifications self)
    with true by (symmetry; rewrite Z.geb_leb; apply Z.leb_le; lia).
  eexists. split; [reflexivity|]. split; reflexivity.
Qed.

(** C2: when the counter has reached [max_clarifications] (2 unless
    configured) on entry, [execute] returns at once with
    [next_agent = "research"], the counter reset to 0, [clarification_needed]
    cleared and [iteration] one higher; it calls no port, whatever the
    messages and whatever the model would have answered. *)
Theorem counter_guard_forces_research (self : agent_self) (w : world)
    (Hmax : clarification_count (state w) >= MasterOrchestrator.max_clarifications self) :
  exists s' : AgentState,
    MasterOrchestrator.execute upper self w = (Ok tt, World s' (calls w))
    /\ next_agent s' = "research"
    /\ clarification_count s' = 0
    /\ clarification_needed s' = false
    /\ iteration s' = iteration (state w) + 1
    /\ messages s' = messages (state w)
    /\ last_agent s' = last_agent (state w)
    /\ final_answer s' = final_answer (state w)
    /\ MasterOrchestrator.max_clarifications self
       = match cfg_max_clarifications (agent_config self) with
         | Some n => n
         | None => 2
         end.
Proof.
  unfold MasterOrchestrator.execute, bind at 1, read.
  replace (clarification_count (state w) >=? MasterOrchestrator.max_clarifications self)
    with true by (symmetry; rewrite Z.geb_leb; apply Z.leb_le; lia).
  eexists. split; [reflexivity|].
  repeat split.
Qed.

(** C3: below the counter limit, when the window of the last [max_history]
    messages ends with an Assistant message followed by a User message and
    the last agent was the clarification agent, [execute] routes to research,
    resets the counter, raises [iteration] by one, and calls no port. *)
Theorem follow_up_guard_forces_research (self : agent_self) (w : world)
    (front : list message) (prev_msg current_msg : message)
    (Hbelow : clarification_count (state w) < MasterOrchestrator.max_clarifications self)
    (Hwindow : limit_history (MasterOrchestrator.max_history self) (messages (state w))
               = (front ++ [prev_msg; current_msg])%list)
    (Hprev : type prev_msg = ai)
    (Hcurrent : type current_msg = human)
    (Hlast : last_agent (state w) = Some "clarification") :
  exists s' : AgentState,
    MasterOrchestrator.execute upper self w = (Ok tt, World s' (calls w))
    /\ next_agent s' = "research"
    /\ clarification_count s' = 0
    /\ clarification_needed s' = false
    /\ iteration s' = iteration (state w) + 1
    /\ messages s' = messages (state w)
    /\ last_agent s' = last_agent (state w)
    /\ final_answer s' = final_answer (state w).
Proof.
  unfold MasterOrchestrator.execute, bind at 1, read.
  replace (clarification_count (state w) >=? MasterOrchestrator.max_clarifications self)
    with false by (symmetry; rewrite Z.geb_leb; apply Z.leb_gt; lia).
  rewrite Hwindow.
  replace (Z.of_nat (List.length (front ++ [prev_msg; current_msg])) >=? 2) with true
    by (symmetry; rewrite Z.geb_leb; apply Z.leb_le; rewrite length_app; simpl; lia).
  unfold MasterOrchestrator.follow_up_detected, bind, lift, ret.
  rewrite item_last_but_one, item_last_cons.
  unfold isinstance_AIMessage, isinstance_HumanMessage.
  rewrite Hprev, Hcurrent, Hlast. cbn.
  eexists. split; [reflexivity|]. repeat split. exact Hlast.
Qed.

(** C7 (the code departs from the claim): with the counter at 1, a window
    that holds only the latest message and a failing Completion port, the
    failure fallback routes to research and leaves [clarification_count] at 1
    instead of resetting it to 0. *)
Theorem failure_fallback_keeps_clarification_count :
  exists s' : AgentState,
    MasterOrchestrator.execute upper short_window_orchestrator (World follow_up_state [])
    = (Ok tt,
       World s' [ev_generate "orchestrator-dotprompt"
                   (by_prompt_variables
                      [("query", "The Spider paper");
                       ("history", "No previous conversation.")])
                   false])
    /\ next_agent s' = "research"
    /\ clarification_count follow_up_state = 1
    /\ clarification_count s' = 1
    /\ clarification_count s' <> 0.
Proof.
  eexists. split; [vm_compute; reflexivity|].
  repeat split. discriminate.
Qed.

(** ** Port calls leave the state dictionary alone *)

Lemma keeps_state_ret {A} (a : A) : keeps_state (ret a).
Proof. intros w. reflexivity. Qed.

Lemma keeps_state_lift {A} (r : result A) : keeps_state (lift r).
Proof. intros w. reflexivity. Qed.

Lemma keeps_state_read : keeps_state (@read world).
Proof. intros w. reflexivity. Qed.

Lemma keeps_state_record_call (e : event) : keeps_state (record_call e).
Proof. intros w. reflexivity. Qed.

Lemma keeps_state_bind {A B} (c : M world A) (k : A -> M world B) :
  keeps_state c -> (forall a, keeps_state (k a)) -> keeps_state (bind c k).
Proof.
  intros Hc Hk w. unfold bind. specialize (Hc w).
  destruct (c w) as [[a|e] w1]; simpl in *.
  - rewrite Hk. exact Hc.
  - exact Hc.
Qed.

Lemma keeps_state_try_except {A} (body : M world A) (handler : exn -> M world A) :
  keeps_state body -> (forall e, keeps_state (handler e)) ->
  keeps_state (try_except body handler).
Proof.
  intros Hb Hh w. unfold try_except. specialize (Hb w).
  destruct (body w) as [[a|e] w1]; simpl in *.
  - exact Hb.
  - rewrite Hh. exact Hb.
Qed.

Ltac keeps_state_step :=
  first [ apply keeps_state_bind; [|intros ?]
        | apply keeps_state_try_except; [|intros ?]
        | apply keeps_state_ret
        | apply keeps_state_lift
        | apply keeps_state_read
        | apply keeps_state_record_call ].

Ltac keeps_state_tac := repeat keeps_state_step.

Lemma keeps_state_call_generate llm arg : keeps_state (call_generate llm arg).
Proof. unfold call_generate. keeps_state_tac. Qed.

Lemma keeps_state_call_get_prompt lf name version label :
  keeps_state (call_get_prompt lf name version label).
Proof. unfold call_get_prompt. keeps_state_tac. Qed.

Lemma keeps_state_call_compile p vars : keeps_state (call_compile p vars).
Proof. unfold call_compile. keeps_state_tac. Qed.

Lemma keeps_state_call_trace_generation lf call :
  keeps_state (call_trace_generation lf call).
Proof. unfold call_trace_generation. keeps_state_tac. Qed.

Lemma keeps_state_langfuse_prompt_enabled self :
  keeps_state (langfuse_prompt_enabled self).
Proof.
  unfold langfuse_prompt_enabled. destruct (langfuse_client self); keeps_state_tac.
Qed.

Lemma keeps_state_generate_with_langfuse self lf default_id name class vars :
  keeps_state (generate_with_langfuse self lf default_id name class vars).
Proof.
  unfold generate_with_langfuse.
  repeat first [ apply keeps_state_call_generate
               | apply keeps_state_call_get_prompt
               | apply keeps_state_call_compile
               | apply keeps_state_call_trace_generation
               | keeps_state_step ].
Qed.

Lemma keeps_state_decide self vars : keeps_state (MasterOrchestrator.decide self vars).
Proof.
  unfold MasterOrchestrator.decide.
  apply keeps_state_bind; [apply keeps_state_langfuse_prompt_enabled|].
  intros [lf|].
  - apply keeps_state_try_except;
      [apply keeps_state_generate_with_langfuse | intros; apply keeps_state_call_generate].
  - apply keeps_state_bind; [apply keeps_state_lift|].
    intros; apply keeps_state_call_generate.
Qed.

Lemma keeps_state_ask self vars : keeps_state (ClarificationAgent.ask self vars).
Proof.
  unfold ClarificationAgent.ask.
  apply keeps_state_bind; [apply keeps_state_langfuse_prompt_enabled|].
  intros [lf|].
  - apply keeps_state_try_except;
      [apply keeps_state_generate_with_langfuse | intros; apply keeps_state_call_generate].
  - apply keeps_state_call_generate.
Qed.

Lemma keeps_state_synthesize self vars :
  keeps_state (AnswerSynthesisAgent.synthesize self vars).
Proof.
  unfold AnswerSynthesisAgent.synthesize.
  apply keeps_state_bind; [apply keeps_state_langfuse_prompt_enabled|].
  intros [lf|].
  - apply keeps_state_try_except;
      [apply keeps_state_generate_with_langfuse | intros; apply keeps_state_call_generate].
  - apply keeps_state_call_generate.
Qed.

(** ** What the orchestrator can return *)

Lemma item_last_ok {A} (l : list A) : l <> [] -> exists a, item l (-1) = Ok a.
Proof.
  intros Hne. destruct (exists_last Hne) as (l' & a & ->).
  exists a. apply item_last.
Qed.

Lemma item_nil {A} (i : Z) : item (@nil A) i = Raise list_index_out_of_range.
Proof.
  unfold item. cbn [List.length Z.of_nat].
  destruct (i <? 0) eqn:Hi.
  - replace (0 + i <? 0) with true by (symmetry; apply Z.ltb_lt; apply Z.ltb_lt in Hi; lia).
    reflexivity.
  - replace (0 <=? i) with true by (symmetry; apply Z.leb_le; apply Z.ltb_ge in Hi; lia).
    rewrite orb_true_r. reflexivity.
Qed.

(** A history limit that is not negative keeps the latest message. *)
Lemma limit_history_nonempty (max_history : Z) (msgs : list message) :
  0 <= max_history -> msgs <> [] -> limit_history max_history msgs <> [].
Proof.
  intros Hmh Hne. unfold limit_history.
  destruct (Z.of_nat (List.length msgs) >? max_history) eqn:Hlen; [|exact Hne].
  rewrite Z.gtb_ltb in Hlen. apply Z.ltb_lt in Hlen.
  unfold slice_from. intros Hnil.
  apply (f_equal (@List.length message)) in Hnil.
  rewrite length_skipn in Hnil. cbn [List.length] in Hnil.
  destruct (- max_history <? 0) eqn:Hneg.
  - apply Z.ltb_lt in Hneg. lia.
  - apply Z.ltb_ge in Hneg. lia.
Qed.

Lemma layer3_outcome (self : agent_self) (msgs : list message) (count : Z) (w : world) :
  msgs <> [] ->
  exists (s' : AgentState) (h' : history),
    MasterOrchestrator.layer3 upper self msgs count w = (Ok tt, World s' h')
    /\ (s' = routed_to_clarification count (state w)
        \/ s' = routed_to_research (state w)
        \/ s' = routed_by_fallback (state w)).
Proof.
  intros Hne. destruct (item_last_ok msgs Hne) as (current & Hitem).
  unfold MasterOrchestrator.layer3. unfold bind at 1. unfold lift at 1.
  rewrite Hitem. unfold try_except. unfold bind at 1.
  set (vars := [("query", content current);
                ("history", _format_history (all_but_last msgs))]).
  pose proof (keeps_state_decide self vars w) as Hkeep.
  destruct (MasterOrchestrator.decide self vars w) as [[decision|e] [s1 h1]];
    simpl in Hkeep; subst s1.
  - destruct (contains "CLARIFICATION" (upper decision)).
    + do 2 eexists. split; [reflexivity|]. left. reflexivity.
    + do 2 eexists. split; [reflexivity|]. right. left. reflexivity.
  - do 2 eexists. split; [reflexivity|]. right. right. reflexivity.
Qed.

Lemma execute_outcome (self : agent_self) (w : world) :
  limit_history (MasterOrchestrator.max_history self) (messages (state w)) <> [] ->
  exists (s' : AgentState) (h' : history),
    MasterOrchestrator.execute upper self w = (Ok tt, World s' h')
    /\ (s' = routed_to_clarification (clarification_count (state w)) (state w)
          /\ clarification_count (state w) < MasterOrchestrator.max_clarifications self
        \/ s' = routed_to_research (state w)
        \/ s' = routed_by_fallback (state w)
          /\ clarification_count (state w) < MasterOrchestrator.max_clarifications self).
Proof.
  intros Hne.
  unfold MasterOrchestrator.execute. unfold bind at 1. unfold read at 1.
  destruct (clarification_count (state w) >=? MasterOrchestrator.max_clarifications self)
    eqn:Hcount.
  - do 2 eexists. split; [reflexivity|]. right. left. reflexivity.
  - rewrite Z.geb_leb in Hcount. apply Z.leb_gt in Hcount.
    set (msgs := limit_history (MasterOrchestrator.max_history self) (messages (state w))) in *.
    unfold bind at 1.
    destruct (Z.of_nat (List.length msgs) >=? 2) eqn:Hlen.
    + unfold bind at 1.
      unfold MasterOrchestrator.follow_up_detected.
      unfold bind at 1. unfold lift at 1.
      destruct (item msgs (-2)) as [prev_msg|e] eqn:Hprev.
      * unfold bind at 1. unfold lift at 1.
        destruct (item_last_ok msgs Hne) as (current & Hitem). rewrite Hitem.
        unfold ret at 1.
        destruct (isinstance_AIMessage prev_msg && isinstance_HumanMessage current
                  && option_string_eqb (last_agent (state w)) "clarification").
        -- do 2 eexists. split; [reflexivity|]. right. left. reflexivity.
        -- unfold ret at 1.
           destruct (layer3_outcome self msgs (clarification_count (state w)) w Hne)
             as (s' & h' & Hrun & Hcases).
           exists s', h'. split; [exact Hrun|]. tauto.
      * exfalso. unfold item in Hprev.
        rewrite Z.geb_leb in Hlen. apply Z.leb_le in Hlen.
        replace (-2 <? 0) with true in Hprev by reflexivity.
        replace (Z.of_nat (List.length msgs) + -2 <? 0) with false in Hprev
          by (symmetry; apply Z.ltb_ge; lia).
        replace (Z.of_nat (List.length msgs) <=? Z.of_nat (List.length msgs) + -2)
          with false in Hprev by (symmetry; apply Z.leb_gt; lia).
        cbn [orb] in Hprev.
        destruct (nth_error msgs (Z.to_nat (Z.of_nat (List.length msgs) + -2))) eqn:Hnth;
          [discriminate|].
        apply nth_error_None in Hnth. lia.
    + unfold ret at 1.
      destruct (layer3_outcome self msgs (clarification_count (state w)) w Hne)
        as (s' & h' & Hrun & Hcases).
      exists s', h'. split; [exact Hrun|]. tauto.
Qed.

(** ** What the clarification and synthesis agents can return *)

Lemma call_generate_fails (llm : BaseLLM) (arg : generate_arg) (w : world) :
  completion_fails llm ->
  exists e w', call_generate llm arg w = (Raise e, w').
Proof.
  intros Hfail. unfold call_generate, bind, read, record_call, modify, lift.
  destruct (Hfail (calls w) arg) as (e & ->). simpl. eauto.
Qed.

Lemma generate_with_langfuse_fails self lf default_id name class vars (w : world) :
  completion_fails (llm_client self) ->
  exists e w', generate_with_langfuse self lf default_id name class vars w = (Raise e, w').
Proof.
  intros Hfail. unfold generate_with_langfuse.
  repeat (unfold bind at 1;
          match goal with
          | |- context [lift ?r ?x] =>
              unfold lift at 1; destruct r; [|eauto]
          | |- context [call_get_prompt ?a ?b ?c ?d ?x] =>
              destruct (call_get_prompt a b c d x) as [[?|?] ?]; [|eauto]
          | |- context [call_compile ?a ?b ?x] =>
              destruct (call_compile a b x) as [[?|?] ?]; [|eauto]
          end).
  unfold bind at 1.
  match goal with
  | |- context [call_generate ?a ?b ?x] =>
      destruct (call_generate_fails a b x Hfail) as (e & w' & ->)
  end.
  eauto.
Qed.

Lemma try_generate_fails {A} (self : agent_self) (body : M world A)
    (k : M world A) (w : world) :
  (forall w0, exists e w', body w0 = (Raise e, w')) ->
  (forall w0, exists e w', k w0 = (Raise e, w')) ->
  exists e w', try_except body (fun _ => k) w = (Raise e, w').
Proof.
  intros Hb Hk. unfold try_except.
  destruct (Hb w) as (e & w' & ->). apply Hk.
Qed.

Lemma ask_fails (self : agent_self) (vars : prompt_variables_t) (w : world) :
  completion_fails (llm_client self) ->
  exists e w', ClarificationAgent.ask self vars w = (Raise e, w').
Proof.
  intros Hfail. unfold ClarificationAgent.ask. unfold bind at 1.
  destruct (langfuse_prompt_enabled self w) as [[[lf|]|e] w1]; [| |eauto].
  - apply (try_generate_fails self); intros w0.
    + apply generate_with_langfuse_fails; assumption.
    + apply call_generate_fails; assumption.
  - apply call_generate_fails; assumption.
Qed.

Lemma synthesize_fails (self : agent_self) (vars : prompt_variables_t) (w : world) :
  completion_fails (llm_client self) ->
  exists e w', AnswerSynthesisAgent.synthesize self vars w = (Raise e, w').
Proof.
  intros Hfail. unfold AnswerSynthesisAgent.synthesize. unfold bind at 1.
  destruct (langfuse_prompt_enabled self w) as [[[lf|]|e] w1]; [| |eauto].
  - apply (try_generate_fails self); intros w0.
    + apply generate_with_langfuse_fails; assumption.
    + apply call_generate_fails; assumption.
  - apply call_generate_fails; assumption.
Qed.

Lemma clarification_outcome (self : agent_self) (w : world) :
  limit_history (ClarificationAgent.max_history self) (messages (state w)) <> [] ->
  exists (text : string) (h' : history),
    ClarificationAgent.execute self w = (Ok tt, World (clarified text (state w)) h')
    /\ (completion_fails (llm_client self) -> text = ClarificationAgent.fallback).
Proof.
  intros Hne. destruct (item_last_ok _ Hne) as (current & Hitem).
  unfold ClarificationAgent.execute. unfold bind at 1. unfold read at 1.
  unfold bind at 1. unfold lift at 1. rewrite Hitem.
  unfold try_except. unfold bind at 1.
  set (vars := [("query", content current);
                ("history", _format_history (all_but_last
                   (limit_history (ClarificationAgent.max_history self)
                      (messages (state w)))))]).
  pose proof (keeps_state_ask self vars w) as Hkeep.
  pose proof (ask_fails self vars w) as Hfails.
  destruct (ClarificationAgent.ask self vars w) as [[text|e] [s1 h1]];
    simpl in Hkeep; subst s1.
  - exists text, h1. split; [reflexivity|].
    intros Hfail. destruct (Hfails Hfail) as (e & w' & Habs). discriminate.
  - exists ClarificationAgent.fallback, h1. split; [reflexivity|]. reflexivity.
Qed.

Lemma synthesis_outcome (self : agent_self) (w : world) :
  exists (s' : AgentState) (h' : history),
    AnswerSynthesisAgent.execute self w = (Ok tt, World s' h')
    /\ ((exists answer, s' = synthesized answer (state w))
        \/ s' = synthesis_failed (state w))
    /\ (completion_fails (llm_client self) -> s' = synthesis_failed (state w)).
Proof.
  unfold AnswerSynthesisAgent.execute. unfold bind at 1. unfold read at 1.
  unfold try_except. unfold bind at 1.
  match goal with
  | |- context [AnswerSynthesisAgent.synthesize self ?v w] => set (vars := v)
  end.
  pose proof (keeps_state_synthesize self vars w) as Hkeep.
  pose proof (synthesize_fails self vars w) as Hfails.
  destruct (AnswerSynthesisAgent.synthesize self vars w) as [[answer|e] [s1 h1]];
    simpl in Hkeep; subst s1.
  - do 2 eexists. split; [reflexivity|]. split.
    + left. exists answer. reflexivity.
    + intros Hfail. destruct (Hfails Hfail) as (e & w' & Habs). discriminate.
  - exists (synthesis_failed (state w)), h1. split.
    + unfold synthesis_failed, synthesis_fallback.
      destruct (final_output (context (state w))) as [[|c rest]|]; reflexivity.
    + split; [right|]; reflexivity.
Qed.

(** ** What the research agent can return *)

Lemma find_first_rev_spec {A} (p : A -> bool) (l : list A) :
  match find_first p (rev l) with
  | Some m =>
      exists pre post,
        l = (pre ++ m :: post)%list /\ p m = true
        /\ forallb (fun x => negb (p x)) post = true
  | None => forallb (fun x => negb (p x)) l = true
  end.
Proof.
  induction l as [|a l IH] using rev_ind.
  - reflexivity.
  - rewrite rev_unit. cbn [find_first].
    destruct (p a) eqn:Hpa.
    + exists l, []. repeat split. exact Hpa.
    + destruct (find_first p (rev l)) as [m|].
      * destruct IH as (pre & post & -> & Hpm & Hpost).
        exists pre, (post ++ [a])%list. split; [|split].
        -- rewrite <- app_assoc. reflexivity.
        -- exact Hpm.
        -- rewrite forallb_app, Hpost. cbn. rewrite Hpa. reflexivity.
      * rewrite forallb_app, IH. cbn. rewrite Hpa. reflexivity.
Qed.

Lemma item_last_default {A} (l : list A) (d : A) :
  l <> [] -> item l (-1) = Ok (last l d).
Proof.
  intros Hne. destruct (exists_last Hne) as (l' & a & ->).
  rewrite item_last, last_last. reflexivity.
Qed.

Lemma research_outcome (self : ResearchSupervisor.t) (w : world) :
  exists (s' : AgentState) (h' : history),
    ResearchSupervisor.execute self w = (Ok tt, World s' h')
    /\ match ResearchSupervisor.agent_invoke self (calls w)
               (limit_history (ResearchSupervisor.max_history self) (messages (state w)))
       with
       | Ok (m :: rest) => s' = researched (m :: rest) (state w)
       | Ok [] =>
           s' = research_failed list_index_out_of_range
                  (set_tool_history [] (set_observations [] (context (state w))))
                  (state w)
       | Raise e => s' = research_failed e (context (state w)) (state w)
       end.
Proof.
  cbv [ResearchSupervisor.execute try_except bind read lift ret modify assign record_call
       ResearchSupervisor.call_agent_invoke ResearchSupervisor.assign_context
       increment_iteration append_message call_trace_generation].
  destruct (ResearchSupervisor.agent_invoke self (calls w)
              (limit_history (ResearchSupervisor.max_history self) (messages (state w))))
    as [[|m rest]|e]; cbn [state calls].
  - rewrite item_nil. do 2 eexists. split; reflexivity.
  - unfold researched, appended_message.
    destruct (ResearchSupervisor.extract_tool_calls (m :: rest)) as [obs hist].
    rewrite (item_last_default (m :: rest) (AIMessage "")) by discriminate.
    cbn [state calls fst snd].
    destruct (ResearchSupervisor.langfuse_client self) as [lf|].
    + destruct (trace_generation lf _ _);
        destruct (find_first ResearchSupervisor.is_final_ai (rev (m :: rest)));
        do 2 eexists; split; reflexivity.
    + destruct (find_first ResearchSupervisor.is_final_ai (rev (m :: rest)));
        do 2 eexists; split; reflexivity.
  - do 2 eexists. split; reflexivity.
Qed.

Lemma is_final_ai_true (m : message) :
  ResearchSupervisor.is_final_ai m = true -> type m = ai /\ tool_calls m = [].
Proof.
  unfold ResearchSupervisor.is_final_ai, ResearchSupervisor.has_tool_calls.
  destruct (type m), (tool_calls m); cbn; intros H; try discriminate; split; reflexivity.
Qed.

(** C5, as stated, fails: when the tool loop raises, the research agent
    appends no message and does not record itself as the last agent. *)
Lemma research_failure_appends_nothing :
  exists s' : AgentState,
    ResearchSupervisor.execute failing_research (World first_turn_state [])
    = (Ok tt,
       World s' [ev_agent_invoke [HumanMessage "What accuracy does Spider report?"] false])
    /\ messages s' = messages first_turn_state
    /\ last_agent s' = None
    /\ last_agent s' <> Some "research".
Proof.
  eexists. split; [vm_compute; reflexivity|]. repeat split. discriminate.
Qed.

(** C5 (amended): when the tool loop returns a non-empty list of messages,
    the research agent appends exactly one message: the last AI message of the
    result that carries no tool calls or, if there is none, the last message of
    the result; it stores [final_output], routes to synthesis, records itself
    as the last agent and raises [iteration] by one. When the loop raises or
    returns nothing, no message is appended, [final_output] is the failure
    notice, and the agent still routes to synthesis with [iteration] one
    higher. *)
Theorem research_appends_only_final_answer (self : ResearchSupervisor.t) (w : world) :
  let sent := limit_history (ResearchSupervisor.max_history self) (messages (state w)) in
  (forall result_messages,
      ResearchSupervisor.agent_invoke self (calls w) sent = Ok result_messages ->
      result_messages <> [] ->
      exists (s' : AgentState) (h' : history) (appended : message),
        ResearchSupervisor.execute self w = (Ok tt, World s' h')
        /\ messages s' = (messages (state w) ++ [appended])%list
        /\ ((exists pre post,
                result_messages = (pre ++ appended :: post)%list
                /\ type appended = ai /\ tool_calls appended = []
                /\ forallb (fun m => negb (ResearchSupervisor.is_final_ai m)) post = true)
            \/ (forallb (fun m => negb (ResearchSupervisor.is_final_ai m)) result_messages
                  = true
                /\ exists pre, result_messages = (pre ++ [appended])%list))
        /\ final_output (context s')
           = Some (content (last result_messages (AIMessage "")))
        /\ next_agent s' = "synthesis"
        /\ last_agent s' = Some "research"
        /\ iteration s' = iteration (state w) + 1)
  /\ (ResearchSupervisor.agent_invoke self (calls w) sent = Ok []
      \/ (exists e, ResearchSupervisor.agent_invoke self (calls w) sent = Raise e) ->
      exists (s' : AgentState) (h' : history),
        ResearchSupervisor.execute self w = (Ok tt, World s' h')
        /\ messages s' = messages (state w)
        /\ final_output (context s') = Some ResearchSupervisor.failure_notice
        /\ next_agent s' = "synthesis"
        /\ iteration s' = iteration (state w) + 1).
Proof.
  intros sent.
  destruct (research_outcome self w) as (s' & h' & Hrun & Hcase). fold sent in Hcase.
  split.
  - intros result_messages Hinvoke Hne. rewrite Hinvoke in Hcase.
    destruct result_messages as [|m rest]; [congruence|]. subst s'.
    exists (researched (m :: rest) (state w)), h', (appended_message (m :: rest)).
    split; [exact Hrun|]. split; [reflexivity|]. split; [|repeat split].
    unfold appended_message.
    pose proof (find_first_rev_spec ResearchSupervisor.is_final_ai (m :: rest)) as Hfind.
    destruct (find_first ResearchSupervisor.is_final_ai (rev (m :: rest))) as [found|].
    + left. destruct Hfind as (pre & post & Heq & Hfinal & Hpost).
      apply is_final_ai_true in Hfinal as [Hty Hcalls].
      exists pre, post. repeat split; assumption.
    + right. split; [exact Hfind|].
      destruct (@exists_last _ (m :: rest)) as (pre & a & Heq); [discriminate|].
      exists pre. rewrite Heq at 1. rewrite Heq, last_last. reflexivity.
  - intros [Hempty|(e & Hraise)].
    + rewrite Hempty in Hcase. subst s'. do 2 eexists. split; [exact Hrun|].
      repeat split.
    + rewrite Hraise in Hcase. subst s'. do 2 eexists. split; [exact Hrun|].
      repeat split.
Qed.

(** ** Running the compiled graph *)

Lemma quiet_ret : quiet (ret tt).
Proof. intros w. exists (calls w). destruct w. reflexivity. Qed.

Lemma put_checkpoint_eval (saver : AgentWorkflow.RedisSaver) (thread_id : string)
    (w : world) :
  AgentWorkflow.put_checkpoint saver thread_id w
  = (AgentWorkflow.saver_put saver (calls w) thread_id (state w),
     World (state w)
       (calls w ++ [ev_checkpoint_put thread_id
                      (is_ok (AgentWorkflow.saver_put saver (calls w) thread_id
                                (state w)))])%list).
Proof.
  unfold AgentWorkflow.put_checkpoint, bind, read, record_call, modify, lift.
  reflexivity.
Qed.

Lemma quiet_mute_put_checkpoint (saver : AgentWorkflow.RedisSaver) (thread_id : string) :
  quiet (mute (AgentWorkflow.put_checkpoint saver thread_id)).
Proof.
  intros w. unfold mute. rewrite put_checkpoint_eval. eexists. reflexivity.
Qed.

(** A run goes as with a saving that returns, up to the first write that
    raises; the run then raises what the saving raised, in the world the
    saving left. *)
Lemma traverse_mute (self : AgentWorkflow.t) (save : M world unit) (fuel : nat) :
  forall (n : AgentWorkflow.node) (w : world),
    AgentWorkflow.traverse upper self save fuel n w
    = AgentWorkflow.traverse upper self (mute save) fuel n w
    \/ exists (e : exn) (w1 : world),
         save w1 = (Raise e, snd (AgentWorkflow.traverse upper self save fuel n w))
         /\ fst (AgentWorkflow.traverse upper self save fuel n w) = Raise e.
Proof.
  induction fuel as [|fuel IH]; intros n w; [left; reflexivity|].
  cbn [AgentWorkflow.traverse].
  unfold bind, read, lift, ret, AgentWorkflow.write_channels, assign, modify.
  destruct (AgentWorkflow.node_action upper self n w) as [[[]|e] w1];
    [|left; reflexivity].
  destruct (AgentWorkflow.next_target n _) as [target|e]; [|left; reflexivity].
  unfold mute at 1.
  match goal with
  | |- context [save ?w3] => destruct (save w3) as [[[]|e] w4] eqn:Hsave; cbn [snd]
  end.
  - destruct target as [m|]; [|left; reflexivity].
    destruct (IH m w4) as [->|(e & w5 & Hraise & Hfst)]; [left; reflexivity|].
    right. exists e, w5.
    destruct (AgentWorkflow.traverse upper self save fuel m w4) as [[rest|e'] w6];
      cbn [fst snd] in *; [discriminate|]. split; assumption.
  - right. eexists e, _. split; [exact Hsave|reflexivity].
Qed.

(** One step of a run whose saving returns. *)
Lemma traverse_step (self : AgentWorkflow.t) (save : M world unit) (fuel : nat)
    (n : AgentWorkflow.node) (w : world) (s1 : AgentState) (h1 : history) :
  quiet save ->
  AgentWorkflow.node_action upper self n w = (Ok tt, World s1 h1) ->
  exists h2 : history,
    AgentWorkflow.traverse upper self save (S fuel) n w =
    match AgentWorkflow.next_target n (written s1) with
    | Ok AgentWorkflow.END => (Ok [n], World (written s1) h2)
    | Ok (AgentWorkflow.to_node m) =>
        match AgentWorkflow.traverse upper self save fuel m (World (written s1) h2) with
        | (Ok rest, w') => (Ok (n :: rest), w')
        | (Raise e, w') => (Raise e, w')
        end
    | Raise e => (Raise e, World (written s1) h1)
    end.
Proof.
  intros Hsave Hnode.
  destruct (Hsave (World (written s1) h1)) as (h2 & Hsaved). cbn [state] in Hsaved.
  exists h2. cbn [AgentWorkflow.traverse].
  unfold bind at 1. rewrite Hnode.
  unfold bind at 1, AgentWorkflow.write_channels, assign, modify.
  unfold bind at 1, read. unfold bind at 1, lift. cbn [state calls].
  fold (written s1).
  destruct (AgentWorkflow.next_target n (written s1)) as [[m|]|e]; [| |reflexivity].
  - unfold bind at 1. rewrite Hsaved. reflexivity.
  - unfold bind at 1. rewrite Hsaved. reflexivity.
Qed.

Lemma run_step (self : AgentWorkflow.t) (fuel : nat) (n : AgentWorkflow.node)
    (w : world) (s1 : AgentState) (h1 : history) :
  AgentWorkflow.node_action upper self n w = (Ok tt, World s1 h1) ->
  AgentWorkflow.run upper self (S fuel) n w =
  match AgentWorkflow.next_target n (written s1) with
  | Ok AgentWorkflow.END => (Ok [n], World (written s1) h1)
  | Ok (AgentWorkflow.to_node m) =>
      match AgentWorkflow.run upper self fuel m (World (written s1) h1) with
      | (Ok rest, w') => (Ok (n :: rest), w')
      | (Raise e, w') => (Raise e, w')
      end
  | Raise e => (Raise e, World (written s1) h1)
  end.
Proof.
  intros Hnode. unfold AgentWorkflow.run. cbn [AgentWorkflow.traverse].
  unfold bind at 1. rewrite Hnode.
  unfold bind at 1, AgentWorkflow.write_channels, assign, modify.
  unfold bind at 1, read. unfold bind at 1, lift. cbn [state calls].
  fold (written s1).
  destruct (AgentWorkflow.next_target n (written s1)) as [[m|]|e]; reflexivity.
Qed.

Lemma limit_history_nil (max_history : Z) : limit_history max_history [] = [].
Proof.
  unfold limit_history, slice_from. cbn [List.length].
  destruct (Z.of_nat 0 >? max_history); [|reflexivity].
  apply skipn_nil.
Qed.

Lemma map_input_messages_nonempty (saved : option AgentState) (input : AgentState) :
  messages input <> [] -> messages (AgentWorkflow.map_input saved input) <> [].
Proof.
  intros Hne. unfold AgentWorkflow.map_input, AgentWorkflow.add.
  destruct saved as [previous|]; cbn.
  - intros Hnil. apply app_eq_nil in Hnil as [_ Hnil]. congruence.
  - exact Hne.
Qed.

(** ** Termination of a turn *)

(** ** Runs whose saving returns *)

Lemma traverse_synthesis (self : AgentWorkflow.t) (save : M world unit) (fuel : nat)
    (w : world) :
  quiet save ->
  exists (s' : AgentState) (h' : history),
    AgentWorkflow.traverse upper self save (S fuel) AgentWorkflow.Synthesis w
    = (Ok [AgentWorkflow.Synthesis], World s' h')
    /\ next_agent s' = "END"
    /\ final_answer s' <> None.
Proof.
  intros Hsave.
  destruct (synthesis_outcome (AgentWorkflow.synthesis self) w)
    as (s1 & h1 & Hrun & Hcase & _).
  destruct (traverse_step self save fuel AgentWorkflow.Synthesis w s1 h1 Hsave Hrun)
    as (h2 & ->).
  cbn [AgentWorkflow.next_target].
  exists (written s1), h2. split; [reflexivity|].
  destruct Hcase as [(answer & ->)| ->]; split; cbn; congruence.
Qed.

Lemma traverse_clarification (self : AgentWorkflow.t) (save : M world unit) (fuel : nat)
    (w : world) :
  quiet save ->
  limit_history (ClarificationAgent.max_history (AgentWorkflow.clarification self))
    (messages (state w)) <> [] ->
  exists (s' : AgentState) (h' : history),
    AgentWorkflow.traverse upper self save (S fuel) AgentWorkflow.Clarification w
    = (Ok [AgentWorkflow.Clarification], World s' h')
    /\ next_agent s' = "END"
    /\ final_answer s' <> None.
Proof.
  intros Hsave Hne.
  destruct (clarification_outcome (AgentWorkflow.clarification self) w Hne)
    as (text & h1 & Hrun & _).
  destruct (traverse_step self save fuel AgentWorkflow.Clarification w _ h1 Hsave Hrun)
    as (h2 & ->).
  cbn [AgentWorkflow.next_target].
  do 2 eexists. split; [reflexivity|]. split; cbn; congruence.
Qed.



Lemma traverse_synthesis_counters (self : AgentWorkflow.t) (save : M world unit)
    (fuel : nat) (w : world) :
  quiet save ->
  exists (s' : AgentState) (h' : history),
    AgentWorkflow.traverse upper self save (S fuel) AgentWorkflow.Synthesis w
    = (Ok [AgentWorkflow.Synthesis], World s' h')
    /\ clarification_count s' = clarification_count (state w)
    /\ iteration s' = iteration (state w)
    /\ final_answer s' <> None.
Proof.
  intros Hsave.
  destruct (synthesis_outcome (AgentWorkflow.synthesis self) w)
    as (s1 & h1 & Hrun & Hcase & _).
  destruct (traverse_step self save fuel AgentWorkflow.Synthesis w s1 h1 Hsave Hrun)
    as (h2 & ->).
  cbn [AgentWorkflow.next_target].
  exists (written s1), h2. split; [reflexivity|].
  destruct Hcase as [(answer & ->)| ->]; repeat split; cbn; congruence.
Qed.

Lemma traverse_clarification_counters (self : AgentWorkflow.t) (save : M world unit)
    (fuel : nat) (w : world) :
  quiet save ->
  limit_history (ClarificationAgent.max_history (AgentWorkflow.clarification self))
    (messages (state w)) <> [] ->
  exists (s' : AgentState) (h' : history),
    AgentWorkflow.traverse upper self save (S fuel) AgentWorkflow.Clarification w
    = (Ok [AgentWorkflow.Clarification], World s' h')
    /\ clarification_count s' = clarification_count (state w)
    /\ iteration s' = iteration (state w).
Proof.
  intros Hsave Hne.
  destruct (clarification_outcome (AgentWorkflow.clarification self) w Hne)
    as (text & h1 & Hrun & _).
  destruct (traverse_step self save fuel AgentWorkflow.Clarification w _ h1 Hsave Hrun)
    as (h2 & ->).
  cbn [AgentWorkflow.next_target].
  do 2 eexists. split; [reflexivity|]. split; reflexivity.
Qed.

Lemma traverse_research_counters (self : AgentWorkflow.t) (save : M world unit)
    (fuel : nat) (w : world) :
  quiet save ->
  exists (s' : AgentState) (h' : history),
    AgentWorkflow.traverse upper self save (S (S fuel)) AgentWorkflow.Research w
    = (Ok [AgentWorkflow.Research; AgentWorkflow.Synthesis], World s' h')
    /\ clarification_count s' = clarification_count (state w)
    /\ iteration s' = iteration (state w) + 1
    /\ next_agent s' = "END"
    /\ final_answer s' <> None.
Proof.
  intros Hsave.
  destruct (research_outcome (AgentWorkflow.research self) w) as (s1 & h1 & Hrun & Hcase).
  destruct (traverse_step self save (S fuel) AgentWorkflow.Research w s1 h1 Hsave Hrun)
    as (h2 & ->).
  cbn [AgentWorkflow.next_target].
  destruct (traverse_synthesis_counters self save fuel (World (written s1) h2) Hsave)
    as (s2 & h3 & Hrun2 & Hcount & Hiter & Hanswer).
  destruct (traverse_synthesis self save fuel (World (written s1) h2) Hsave)
    as (s2' & h3' & Hrun2' & Hnext & _).
  rewrite Hrun2 in Hrun2'. injection Hrun2' as <- <-.
  rewrite Hrun2.
  exists s2, h3. split; [reflexivity|].
  rewrite Hcount, Hiter. cbn [state].
  destruct (ResearchSupervisor.agent_invoke _ _ _) as [[|m rest]|e]; subst s1;
    repeat split; assumption.
Qed.

(** From a state that the orchestrator routes to research. *)
Lemma traverse_after_route_to_research (self : AgentWorkflow.t) (save : M world unit)
    (fuel : nat) (w : world) (s1 : AgentState) (h1 : history) :
  quiet save ->
  MasterOrchestrator.execute upper (AgentWorkflow.orchestrator self) w
  = (Ok tt, World s1 h1) ->
  next_agent s1 = "research" ->
  exists (s' : AgentState) (h' : history),
    AgentWorkflow.traverse upper self save (S (S (S fuel))) AgentWorkflow.Orchestrator w
    = (Ok [AgentWorkflow.Orchestrator; AgentWorkflow.Research; AgentWorkflow.Synthesis],
       World s' h')
    /\ clarification_count s' = clarification_count s1
    /\ iteration s' = iteration s1 + 1
    /\ next_agent s' = "END"
    /\ final_answer s' <> None.
Proof.
  intros Hsave Hrun Hnext.
  destruct (traverse_step self save (S (S fuel)) AgentWorkflow.Orchestrator w s1 h1
              Hsave Hrun) as (h2 & ->).
  cbn [AgentWorkflow.next_target]. unfold AgentWorkflow.route_after_orchestrator.
  replace (next_agent (written s1)) with (next_agent s1) by reflexivity.
  rewrite Hnext. cbn [AgentWorkflow.lookup AgentWorkflow.path_map String.eqb Ascii.eqb
                      Bool.eqb andb].
  destruct (traverse_research_counters self save fuel (World (written s1) h2) Hsave)
    as (s2 & h3 & -> & Hend).
  exists s2, h3. split; [reflexivity|exact Hend].
Qed.

Lemma map_input_keeps_counters (saved : option AgentState) (input : AgentState) :
  clarification_count (AgentWorkflow.map_input saved input) = clarification_count input
  /\ iteration (AgentWorkflow.map_input saved input) = iteration input
  /\ last_agent (AgentWorkflow.map_input saved input) = last_agent input.
Proof. destruct saved; repeat split. Qed.

(** A turn is stopped by the checkpoint store, or it is a run whose saving
    returns, started from the input written over what was saved. *)
Lemma invoke_unless_stopped (self : AgentWorkflow.t) (config : option string)
    (input : AgentState) (h : history) :
  store_stopped self config h (AgentWorkflow.invoke upper self config input h)
  \/ exists (save : M world unit) (saved : option AgentState) (h0 : history),
       quiet save
       /\ AgentWorkflow.invoke upper self config input h
          = AgentWorkflow.finish
              (AgentWorkflow.traverse upper self save AgentWorkflow.recursion_limit
                 AgentWorkflow.entry_point
                 (World (AgentWorkflow.map_input saved input) h0)).
Proof.
  destruct (AgentWorkflow.checkpointer self) as [saver|] eqn:Hsaver.
  2:{ right. exists (ret tt), None, h. split; [apply quiet_ret|].
      unfold AgentWorkflow.invoke. rewrite Hsaver. reflexivity. }
  destruct config as [thread_id|].
  2:{ left. exists saver. split; [exact Hsaver|].
      unfold AgentWorkflow.invoke. rewrite Hsaver. reflexivity. }
  destruct (AgentWorkflow.saver_get_state saver h thread_id) as [saved|e] eqn:Hread.
  2:{ left. exists saver. split; [exact Hsaver|]. exists e. left.
      split; [exact Hread|].
      unfold AgentWorkflow.invoke. rewrite Hsaver, Hread. reflexivity. }
  set (h1 := (h ++ [ev_checkpoint_get thread_id true])%list).
  set (s0 := AgentWorkflow.map_input saved input).
  assert (Hentry :
            AgentWorkflow.invoke upper self (Some thread_id) input h
            = AgentWorkflow.finish
                ((AgentWorkflow.put_checkpoint saver thread_id ;;
                  AgentWorkflow.run_saving upper self saver thread_id
                    AgentWorkflow.recursion_limit AgentWorkflow.entry_point)
                   (World s0 h1))).
  { unfold AgentWorkflow.invoke. rewrite Hsaver, Hread. reflexivity. }
  rewrite Hentry. clear Hentry.
  destruct (AgentWorkflow.saver_put saver h1 thread_id s0) as [[]|e] eqn:Hput.
  2:{ left. exists saver. split; [exact Hsaver|]. exists e. right.
      exists h1, s0. split; [exact Hput|].
      unfold bind. rewrite put_checkpoint_eval. cbn [state calls].
      rewrite Hput. reflexivity. }
  assert (Hfirst :
            (AgentWorkflow.put_checkpoint saver thread_id ;;
             AgentWorkflow.run_saving upper self saver thread_id
               AgentWorkflow.recursion_limit AgentWorkflow.entry_point) (World s0 h1)
            = AgentWorkflow.traverse upper self
                (AgentWorkflow.put_checkpoint saver thread_id)
                AgentWorkflow.recursion_limit AgentWorkflow.entry_point
                (World s0 (h1 ++ [ev_checkpoint_put thread_id true])%list)).
  { unfold bind. rewrite put_checkpoint_eval. cbn [state calls].
    rewrite Hput. reflexivity. }
  rewrite Hfirst. clear Hfirst.
  destruct (traverse_mute self (AgentWorkflow.put_checkpoint saver thread_id)
              AgentWorkflow.recursion_limit AgentWorkflow.entry_point
              (World s0 (h1 ++ [ev_checkpoint_put thread_id true])%list))
    as [Hsame|(e & w1 & Hraise & Hfst)].
  - right. exists (mute (AgentWorkflow.put_checkpoint saver thread_id)), saved.
    eexists. split; [apply quiet_mute_put_checkpoint|].
    rewrite Hsame. reflexivity.
  - left. exists saver. split; [exact Hsaver|]. exists e. right.
    rewrite put_checkpoint_eval in Hraise.
    exists (calls w1), (state w1).
    destruct (AgentWorkflow.traverse upper self
                (AgentWorkflow.put_checkpoint saver thread_id)
                AgentWorkflow.recursion_limit AgentWorkflow.entry_point
                (World s0 (h1 ++ [ev_checkpoint_put thread_id true])%list))
      as [[trace|e'] w2]; cbn [fst snd] in *; [discriminate|].
    injection Hfst as ->. injection Hraise as Hput' <-.
    split; [exact Hput'|]. cbn [AgentWorkflow.finish calls]. rewrite Hput'. reflexivity.
Qed.

(** ** Termination of a turn *)


(** ** Failing open *)

(** ** Answers and the calls behind them *)

Lemma extends_same {A} (c : M world A) :
  (forall w, calls (snd (c w)) = calls w) -> extends_calls c.
Proof. intros Hsame w. exists []. rewrite app_nil_r. apply Hsame. Qed.

Lemma extends_ret {A} (a : A) : extends_calls (ret a).
Proof. apply extends_same. reflexivity. Qed.

Lemma extends_lift {A} (r : result A) : extends_calls (lift r).
Proof. apply extends_same. reflexivity. Qed.

Lemma extends_read : extends_calls (@read world).
Proof. apply extends_same. reflexivity. Qed.

Lemma extends_assign (f : AgentState -> AgentState) : extends_calls (assign f).
Proof. apply extends_same. reflexivity. Qed.

Lemma extends_record_call (e : event) : extends_calls (record_call e).
Proof. intros w. exists [e]. reflexivity. Qed.

Lemma extends_bind {A B} (c : M world A) (k : A -> M world B) :
  extends_calls c -> (forall a, extends_calls (k a)) -> extends_calls (bind c k).
Proof.
  intros Hc Hk w. unfold bind. destruct (Hc w) as (added1 & Hcalls1).
  destruct (c w) as [[a|e] w1]; cbn [snd] in *.
  - destruct (Hk a w1) as (added2 & Hcalls2).
    exists (added1 ++ added2)%list. rewrite Hcalls2, Hcalls1, app_assoc. reflexivity.
  - exists added1. exact Hcalls1.
Qed.

Lemma extends_try_except {A} (body : M world A) (handler : exn -> M world A) :
  extends_calls body -> (forall e, extends_calls (handler e)) ->
  extends_calls (try_except body handler).
Proof.
  intros Hb Hh w. unfold try_except. destruct (Hb w) as (added1 & Hcalls1).
  destruct (body w) as [[a|e] w1]; cbn [snd] in *.
  - exists added1. exact Hcalls1.
  - destruct (Hh e w1) as (added2 & Hcalls2).
    exists (added1 ++ added2)%list. rewrite Hcalls2, Hcalls1, app_assoc. reflexivity.
Qed.

Ltac extends_step :=
  first [ apply extends_bind; [|intros ?]
        | apply extends_try_except; [|intros ?]
        | apply extends_ret
        | apply extends_lift
        | apply extends_read
        | apply extends_assign
        | apply extends_record_call ].

Ltac extends_tac := repeat extends_step.

Lemma extends_call_get_prompt lf name version label :
  extends_calls (call_get_prompt lf name version label).
Proof. unfold call_get_prompt. extends_tac. Qed.

Lemma extends_call_compile p vars : extends_calls (call_compile p vars).
Proof. unfold call_compile. extends_tac. Qed.

Lemma extends_call_trace_generation lf call :
  extends_calls (call_trace_generation lf call).
Proof. unfold call_trace_generation. extends_tac. Qed.

Lemma extends_langfuse_prompt_enabled self : extends_calls (langfuse_prompt_enabled self).
Proof. unfold langfuse_prompt_enabled. destruct (langfuse_client self); extends_tac. Qed.

Lemma answers_call_generate (llm : BaseLLM) (arg : generate_arg) :
  answers_after_completion (call_generate llm arg).
Proof.
  intros w. unfold call_generate, bind, read, record_call, modify, lift. cbn [fst snd calls].
  eexists. split; [reflexivity|].
  intros Hok. eexists. split; [left; reflexivity|]. split; [reflexivity|exact Hok].
Qed.

(** A quiet prefix before a computation that answers after a completion. *)
Lemma answers_bind {A B} (c : M world A) (k : A -> M world B) :
  extends_calls c -> (forall a, answers_after_completion (k a)) ->
  answers_after_completion (bind c k).
Proof.
  intros Hc Hk w. unfold bind. destruct (Hc w) as (added1 & Hcalls1).
  destruct (c w) as [[a|e] w1]; cbn [snd] in *.
  - destruct (Hk a w1) as (added2 & Hcalls2 & Hanswer).
    exists (added1 ++ added2)%list. rewrite Hcalls2, Hcalls1, app_assoc.
    split; [reflexivity|]. intros Hok.
    destruct (Hanswer Hok) as (ev & Hin & Hev). exists ev.
    split; [apply in_or_app; right; exact Hin|exact Hev].
  - exists added1. split; [exact Hcalls1|]. discriminate.
Qed.

(** A computation that answers after a completion, followed by steps that
    cannot turn a failure into an answer. *)
Lemma answers_bind_left {A B} (c : M world A) (k : A -> M world B) :
  answers_after_completion c -> (forall a, extends_calls (k a)) ->
  answers_after_completion (bind c k).
Proof.
  intros Hc Hk w. unfold bind. destruct (Hc w) as (added1 & Hcalls1 & Hanswer).
  destruct (c w) as [[a|e] w1]; cbn [fst snd] in *.
  - destruct (Hk a w1) as (added2 & Hcalls2).
    exists (added1 ++ added2)%list. rewrite Hcalls2, Hcalls1, app_assoc.
    split; [reflexivity|]. intros _.
    destruct (Hanswer eq_refl) as (ev & Hin & Hev). exists ev.
    split; [apply in_or_app; left; exact Hin|exact Hev].
  - exists added1. split; [exact Hcalls1|]. discriminate.
Qed.

Lemma answers_try_except {A} (body : M world A) (handler : exn -> M world A) :
  answers_after_completion body -> (forall e, answers_after_completion (handler e)) ->
  answers_after_completion (try_except body handler).
Proof.
  intros Hb Hh w. unfold try_except. destruct (Hb w) as (added1 & Hcalls1 & Hanswer).
  destruct (body w) as [[a|e] w1]; cbn [fst snd] in *.
  - exists added1. split; [exact Hcalls1|exact Hanswer].
  - destruct (Hh e w1) as (added2 & Hcalls2 & Hanswer2).
    exists (added1 ++ added2)%list. rewrite Hcalls2, Hcalls1, app_assoc.
    split; [reflexivity|]. intros Hok.
    destruct (Hanswer2 Hok) as (ev & Hin & Hev). exists ev.
    split; [apply in_or_app; right; exact Hin|exact Hev].
Qed.

Lemma answers_generate_with_langfuse self lf default_id name class vars :
  answers_after_completion (generate_with_langfuse self lf default_id name class vars).
Proof.
  unfold generate_with_langfuse.
  do 3 (apply answers_bind; [apply extends_lift|intros ?]).
  apply answers_bind; [apply extends_call_get_prompt|intros ?].
  apply answers_bind; [apply extends_call_compile|intros ?].
  apply answers_bind_left; [apply answers_call_generate|intros out].
  apply extends_bind; [apply extends_read|intros ?].
  apply extends_bind; [apply extends_call_trace_generation|intros ?].
  apply extends_ret.
Qed.

Lemma answers_ask self vars : answers_after_completion (ClarificationAgent.ask self vars).
Proof.
  unfold ClarificationAgent.ask.
  apply answers_bind; [apply extends_langfuse_prompt_enabled|intros [lf|]].
  - apply answers_try_except; [apply answers_generate_with_langfuse|intros ?].
    apply answers_call_generate.
  - apply answers_call_generate.
Qed.

Lemma answers_synthesize self vars :
  answers_after_completion (AnswerSynthesisAgent.synthesize self vars).
Proof.
  unfold AnswerSynthesisAgent.synthesize.
  apply answers_bind; [apply extends_langfuse_prompt_enabled|intros [lf|]].
  - apply answers_try_except; [apply answers_generate_with_langfuse|intros ?].
    apply answers_call_generate.
  - apply answers_call_generate.
Qed.

Lemma no_completion_returned_app (added1 added2 : history) :
  no_completion_returned (added1 ++ added2)%list ->
  no_completion_returned added1 /\ no_completion_returned added2.
Proof.
  intros Hnone. split; intros e Hin; apply Hnone; apply in_or_app; [left|right]; exact Hin.
Qed.

Lemma completion_returned_excluded (added : history) (e : event) :
  no_completion_returned added ->
  In e added -> is_completion e = true -> event_returned e = true -> False.
Proof. intros Hnone Hin Hcompletion Hreturned. rewrite (Hnone e Hin Hcompletion) in Hreturned. discriminate. Qed.

(** What the clarification agent leaves, with the calls it made: the model's
    text only after a completion that returned. *)
Lemma clarification_outcome_calls (self : agent_self) (w : world) :
  limit_history (ClarificationAgent.max_history self) (messages (state w)) <> [] ->
  exists (text : string) (added : history),
    ClarificationAgent.execute self w
    = (Ok tt, World (clarified text (state w)) (calls w ++ added)%list)
    /\ (no_completion_returned added -> text = ClarificationAgent.fallback).
Proof.
  intros Hne. destruct (item_last_ok _ Hne) as (current & Hitem).
  unfold ClarificationAgent.execute. unfold bind at 1. unfold read at 1.
  unfold bind at 1. unfold lift at 1. rewrite Hitem.
  unfold try_except. unfold bind at 1.
  set (vars := [("query", content current);
                ("history", _format_history (all_but_last
                   (limit_history (ClarificationAgent.max_history self)
                      (messages (state w)))))]).
  pose proof (keeps_state_ask self vars w) as Hkeep.
  destruct (answers_ask self vars w) as (added & Hcalls & Hanswer).
  destruct (ClarificationAgent.ask self vars w) as [[text|e] [s1 h1]];
    cbn [fst snd state calls] in *; subst s1 h1.
  - exists text, added. split; [reflexivity|].
    intros Hnone. destruct (Hanswer eq_refl) as (ev & Hin & Hcompletion & Hreturned).
    destruct (completion_returned_excluded added ev Hnone Hin Hcompletion Hreturned).
  - exists ClarificationAgent.fallback, added. split; [reflexivity|]. reflexivity.
Qed.

Lemma synthesis_outcome_calls (self : agent_self) (w : world) :
  exists (s' : AgentState) (added : history),
    AnswerSynthesisAgent.execute self w = (Ok tt, World s' (calls w ++ added)%list)
    /\ ((exists answer, s' = synthesized answer (state w))
        \/ s' = synthesis_failed (state w))
    /\ (no_completion_returned added -> s' = synthesis_failed (state w)).
Proof.
  unfold AnswerSynthesisAgent.execute. unfold bind at 1. unfold read at 1.
  unfold try_except. unfold bind at 1.
  match goal with
  | |- context [AnswerSynthesisAgent.synthesize self ?v w] => set (vars := v)
  end.
  pose proof (keeps_state_synthesize self vars w) as Hkeep.
  destruct (answers_synthesize self vars w) as (added & Hcalls & Hanswer).
  destruct (AnswerSynthesisAgent.synthesize self vars w) as [[answer|e] [s1 h1]];
    cbn [fst snd state calls] in *; subst s1 h1.
  - exists (synthesized answer (state w)), added. split; [reflexivity|]. split.
    + left. exists answer. reflexivity.
    + intros Hnone. destruct (Hanswer eq_refl) as (ev & Hin & Hcompletion & Hreturned).
      destruct (completion_returned_excluded added ev Hnone Hin Hcompletion Hreturned).
  - exists (synthesis_failed (state w)), added. split.
    + unfold synthesis_failed, synthesis_fallback.
      destruct (final_output (context (state w))) as [[|c rest]|]; reflexivity.
    + split; [right|]; reflexivity.
Qed.

Lemma extends_research (self : ResearchSupervisor.t) :
  extends_calls (ResearchSupervisor.execute self).
Proof.
  unfold ResearchSupervisor.execute.
  apply extends_try_except.
  - apply extends_bind; [apply extends_read|intros w]. cbv zeta.
    apply extends_bind.
    { unfold ResearchSupervisor.call_agent_invoke. extends_tac. }
    intros result_messages.
    destruct (ResearchSupervisor.extract_tool_calls result_messages) as [obs hist].
    unfold ResearchSupervisor.assign_context, append_message, increment_iteration.
    repeat first [ apply extends_call_trace_generation
                 | extends_step
                 | match goal with
                   | |- extends_calls (match ?x with _ => _ end) => destruct x
                   end ].
  - intros e.
    unfold ResearchSupervisor.assign_context, increment_iteration. extends_tac.
Qed.

(** ** Failing open *)

(** C4 (amended): a Completion call that raises never aborts the turn: the
    clarification agent (on a window that is not empty) and the synthesis
    agent always return with an answer and [next_agent = "END"], and the run
    from the research node always goes on to synthesis and ends with an answer.
    When no call of the model made during the run returned, the clarification
    agent appends exactly the fallback question as an Assistant message and
    makes it [final_answer], with [last_agent = "clarification"]; the
    synthesis agent answers with [context.final_output] verbatim, or the
    generic error text when that is absent or empty, with
    [confidence_score = 0.0]. When the tool loop of the research agent raises,
    the failure notice is stored as [final_output], and it is the answer when
    no completion of the synthesis agent returned either. *)
Theorem completion_failure_is_caught :
  (forall (self : agent_self) (w : world),
      limit_history (ClarificationAgent.max_history self) (messages (state w)) <> [] ->
      exists (s' : AgentState) (added : history),
        ClarificationAgent.execute self w = (Ok tt, World s' (calls w ++ added)%list)
        /\ final_answer s' <> None
        /\ next_agent s' = "END"
        /\ last_agent s' = Some "clarification"
        /\ (no_completion_returned added ->
            messages s'
            = (messages (state w)
               ++ [AIMessage "Could you please provide more details about your question?"])%list
            /\ final_answer s'
               = Some "Could you please provide more details about your question?"))
  /\ (forall (self : agent_self) (w : world),
        exists (s' : AgentState) (added : history) (text : string),
          AnswerSynthesisAgent.execute self w = (Ok tt, World s' (calls w ++ added)%list)
          /\ final_answer s' <> None
          /\ next_agent s' = "END"
          /\ text = match final_output (context (state w)) with
                    | Some (String c rest) => String c rest
                    | Some EmptyString | None =>
                        "I encountered an error while processing your request."
                    end
          /\ (no_completion_returned added ->
              messages s' = (messages (state w) ++ [AIMessage text])%list
              /\ final_answer s' = Some text
              /\ confidence_score s' = Some 0.0%float))
  /\ (forall (self : AgentWorkflow.t) (w : world) (fuel : nat),
        exists (s' : AgentState) (added : history),
          AgentWorkflow.run upper self (S (S fuel)) AgentWorkflow.Research w
          = (Ok [AgentWorkflow.Research; AgentWorkflow.Synthesis],
             World s' (calls w ++ added)%list)
          /\ final_answer s' <> None
          /\ next_agent s' = "END"
          /\ (is_ok (ResearchSupervisor.agent_invoke (AgentWorkflow.research self) (calls w)
                       (limit_history
                          (ResearchSupervisor.max_history (AgentWorkflow.research self))
                          (messages (state w)))) = false ->
              final_output (context s')
              = Some "Unable to complete research due to an error."
              /\ (no_completion_returned added ->
                  final_answer s' = Some "Unable to complete research due to an error."))).
Proof.
  split; [|split].
  - intros self w Hne.
    destruct (clarification_outcome_calls self w Hne) as (text & added & Hrun & Htext).
    do 2 eexists. split; [exact Hrun|]. repeat split; try discriminate.
    + rewrite (Htext H). reflexivity.
    + rewrite (Htext H). reflexivity.
  - intros self w.
    destruct (synthesis_outcome_calls self w) as (s' & added & Hrun & Hcase & Hfailed).
    exists s', added, (synthesis_fallback (state w)).
    split; [exact Hrun|].
    split; [destruct Hcase as [(answer & ->)| ->]; cbn; congruence|].
    split; [destruct Hcase as [(answer & ->)| ->]; reflexivity|].
    split; [reflexivity|].
    intros Hnone. rewrite (Hfailed Hnone). repeat split.
  - intros self w fuel.
    destruct (research_outcome (AgentWorkflow.research self) w) as (s1 & h1 & Hrun & Hcase).
    destruct (extends_research (AgentWorkflow.research self) w) as (added1 & Hcalls1).
    rewrite Hrun in Hcalls1. cbn [snd calls] in Hcalls1. subst h1.
    rewrite (run_step self (S fuel) AgentWorkflow.Research w _ _ Hrun).
    cbn [AgentWorkflow.next_target].
    destruct (synthesis_outcome_calls (AgentWorkflow.synthesis self)
                (World (written s1) (calls w ++ added1)%list))
      as (s3 & added3 & Hrun3 & Hcase3 & Hfailed3).
    cbn [calls state] in Hrun3, Hcase3, Hfailed3.
    rewrite (run_step self fuel AgentWorkflow.Synthesis _ s3 _ Hrun3).
    cbn [AgentWorkflow.next_target].
    exists (written s3), (added1 ++ added3)%list.
    split; [rewrite app_assoc; reflexivity|].
    split; [destruct Hcase3 as [(answer & ->)| ->]; cbn; congruence|].
    split; [destruct Hcase3 as [(answer & ->)| ->]; reflexivity|].
    intros Hraised.
    destruct (ResearchSupervisor.agent_invoke _ _ _) as [result_messages|e];
      [discriminate|]. subst s1.
    split; [destruct Hcase3 as [(answer & ->)| ->]; reflexivity|].
    intros Hnone. apply no_completion_returned_app in Hnone as [_ Hnone3].
    rewrite (Hfailed3 Hnone3). reflexivity.
Qed.

Lemma failing_llm_fails : completion_fails failing_llm.
Proof. intros h arg. eexists. reflexivity. Qed.

Lemma failing_research_fails : tool_loop_fails failing_research.
Proof. intros h sent. eexists. reflexivity. Qed.

(** ** Tool history of the research agent *)

Lemma mem_string_In (x : string) (l : list string) :
  mem String.eqb x l = true <-> In x l.
Proof.
  unfold mem. rewrite existsb_exists. split.
  - intros (y & Hin & Heq). apply String.eqb_eq in Heq. now subst.
  - intros Hin. exists x. split; [exact Hin|apply String.eqb_refl].
Qed.

Lemma extract_tool_calls_flat (result_messages : list message)
    (acc : list string * list string) :
  fold_left
    (fun acc msg =>
       if ResearchSupervisor.has_tool_calls msg
       then fold_left ResearchSupervisor.note_tool_call (tool_calls msg) acc
       else acc)
    result_messages acc
  = fold_left ResearchSupervisor.note_tool_call
      (flat_map tool_calls result_messages) acc.
Proof.
  revert acc. induction result_messages as [|msg rest IH]; intros acc; [reflexivity|].
  cbn [fold_left flat_map]. rewrite fold_left_app, IH.
  unfold ResearchSupervisor.has_tool_calls.
  destruct (tool_calls msg); reflexivity.
Qed.

Lemma first_occurrences_snoc (names : list string) (x : string) :
  first_occurrences (names ++ [x])
  = if mem String.eqb x (first_occurrences names)
    then first_occurrences names
    else (first_occurrences names ++ [x])%list.
Proof.
  unfold first_occurrences at 1. rewrite rev_app_distr. cbn [rev app nodup].
  destruct (mem String.eqb x (first_occurrences names)) eqn:Hmem.
  - apply mem_string_In in Hmem. unfold first_occurrences in Hmem.
    rewrite <- in_rev, nodup_In in Hmem.
    destruct (in_dec string_dec x (rev names)) as [_|Hout]; [reflexivity|contradiction].
  - destruct (in_dec string_dec x (rev names)) as [Hin|_].
    + exfalso. apply Bool.not_true_iff_false in Hmem. apply Hmem.
      apply mem_string_In. unfold first_occurrences.
      rewrite <- in_rev, nodup_In. exact Hin.
    + reflexivity.
Qed.

Lemma note_tool_calls_spec (calls_made : list tool_call) :
  fold_left ResearchSupervisor.note_tool_call calls_made ([], [])
  = (map describe_tool (first_occurrences (map tool_name_of calls_made)),
     first_occurrences (map tool_name_of calls_made)).
Proof.
  induction calls_made as [|tc rest IH] using rev_ind; [reflexivity|].
  rewrite fold_left_app, IH. cbn [fold_left].
  unfold ResearchSupervisor.note_tool_call. fold (tool_name_of tc).
  rewrite map_app. cbn [map]. rewrite first_occurrences_snoc.
  destruct (mem String.eqb (tool_name_of tc)
              (first_occurrences (map tool_name_of rest))); [reflexivity|].
  rewrite map_app. reflexivity.
Qed.

(** X1: the tool history is the list of requested tool names with repetitions
    dropped, each name at its first use; every name of the history is described
    by one observation, in the same order. *)
Theorem tool_history_is_deduplicated (result_messages : list message) :
  let extracted := ResearchSupervisor.extract_tool_calls result_messages in
  snd extracted = first_occurrences (requested_tools result_messages)
  /\ NoDup (snd extracted)
  /\ (forall tool_name,
        In tool_name (snd extracted) <-> In tool_name (requested_tools result_messages))
  /\ fst extracted = map describe_tool (snd extracted).
Proof.
  intros extracted. subst extracted.
  unfold ResearchSupervisor.extract_tool_calls.
  rewrite extract_tool_calls_flat, note_tool_calls_spec. cbn [fst snd].
  assert (Hnames : map tool_name_of (flat_map tool_calls result_messages)
                   = requested_tools result_messages).
  { unfold requested_tools. induction result_messages as [|m rest IH]; [reflexivity|].
    cbn [flat_map]. rewrite map_app, IH. reflexivity. }
  rewrite Hnames. repeat split.
  - unfold first_occurrences. apply NoDup_rev, NoDup_nodup.
  - unfold first_occurrences. rewrite <- in_rev, nodup_In, <- in_rev. tauto.
  - unfold first_occurrences. rewrite <- in_rev, nodup_In, <- in_rev. tauto.
Qed.

(** ** The counters over a whole turn *)

(** X2: over one turn started from a state with at least one message and
    with history limits that are not negative, unless the checkpoint store
    stops the turn, the turn returns, the clarification counter stays between
    0 and [max_clarifications], and [iteration] grows by the number of agent
    nodes that count themselves: one on the clarification branch (the
    orchestrator), two on the research branch (the orchestrator and the
    research agent). *)
Theorem turn_keeps_counter_in_range (self : AgentWorkflow.t)
    (config : option string) (input : AgentState) (h : history)
    (Hmsgs : messages input <> [])
    (Hhistory_o :
       0 <= MasterOrchestrator.max_history (AgentWorkflow.orchestrator self))
    (Hhistory_c :
       0 <= ClarificationAgent.max_history (AgentWorkflow.clarification self))
    (Hrange :
       0 <= clarification_count input
         <= MasterOrchestrator.max_clarifications (AgentWorkflow.orchestrator self)) :
  store_stopped self config h (AgentWorkflow.invoke upper self config input h)
  \/ exists (final : AgentState) (trace : list AgentWorkflow.node) (h' : history),
       AgentWorkflow.invoke upper self config input h = (Ok (final, trace), h')
       /\ 0 <= clarification_count final
            <= MasterOrchestrator.max_clarifications (AgentWorkflow.orchestrator self)
       /\ (trace = [AgentWorkflow.Orchestrator; AgentWorkflow.Clarification]
           /\ clarification_count final = clarification_count input + 1
           /\ iteration final = iteration input + 1
           \/ trace = [AgentWorkflow.Orchestrator; AgentWorkflow.Research;
                       AgentWorkflow.Synthesis]
              /\ (clarification_count final = 0
                  \/ clarification_count final = clarification_count input)
              /\ iteration final = iteration input + 2).
Proof.
  destruct (invoke_unless_stopped self config input h)
    as [Hstopped|(save & saved & h0 & Hsave & ->)]; [left; exact Hstopped|right].
  unfold AgentWorkflow.recursion_limit, AgentWorkflow.entry_point.
  set (w0 := World (AgentWorkflow.map_input saved input) h0).
  destruct (map_input_keeps_counters saved input) as (Hcount0 & Hiter0 & _).
  change (clarification_count (state w0) = clarification_count input) in Hcount0.
  change (iteration (state w0) = iteration input) in Hiter0.
  assert (Hmsgs0 : messages (state w0) <> [])
    by (apply map_input_messages_nonempty; exact Hmsgs).
  destruct (execute_outcome (AgentWorkflow.orchestrator self) w0)
    as (s1 & h1 & Hrun & Hcase).
  { apply limit_history_nonempty; assumption. }
  destruct Hcase as [[-> Hlt]|Hresearch].
  - destruct (traverse_step self save 24 AgentWorkflow.Orchestrator w0 _ h1 Hsave Hrun)
      as (h2 & ->).
    cbn [AgentWorkflow.next_target AgentWorkflow.route_after_orchestrator written
         next_agent routed_to_clarification set_messages set_iteration
         set_clarification_count set_missing_context set_clarification_needed
         set_next_agent].
    cbn [AgentWorkflow.lookup AgentWorkflow.path_map String.eqb Ascii.eqb Bool.eqb andb].
    match goal with
    | |- context [AgentWorkflow.traverse upper self save 24 AgentWorkflow.Clarification
                    ?w1] =>
        destruct (traverse_clarification_counters self save 23 w1 Hsave)
          as (s2 & h3 & Hrun2 & Hc & Hi)
    end.
    { apply limit_history_nonempty; [exact Hhistory_c|].
      cbn. unfold AgentWorkflow.add.
      intros Hnil. apply app_eq_nil in Hnil as [Hnil _]. exact (Hmsgs0 Hnil). }
    cbn [written routed_to_clarification set_messages set_iteration
         set_clarification_count set_missing_context set_clarification_needed
         set_next_agent] in Hrun2.
    rewrite Hrun2.
    exists s2, [AgentWorkflow.Orchestrator; AgentWorkflow.Clarification], h3.
    split; [reflexivity|].
    change (clarification_count s2 = clarification_count (state w0) + 1) in Hc.
    change (iteration s2 = iteration (state w0) + 1) in Hi.
    rewrite Hcount0 in Hc, Hlt. rewrite Hiter0 in Hi.
    split; [lia|]. left. repeat split; assumption.
  - assert (Hnext : next_agent s1 = "research")
      by (destruct Hresearch as [->|[-> _]]; reflexivity).
    destruct (traverse_after_route_to_research self save 22 w0 s1 h1 Hsave Hrun Hnext)
      as (s2 & h2 & -> & Hc & Hi & _).
    exists s2, [AgentWorkflow.Orchestrator; AgentWorkflow.Research; AgentWorkflow.Synthesis],
      h2.
    split; [reflexivity|].
    destruct Hresearch as [->|[-> _]].
    + change (clarification_count s2 = 0) in Hc.
      change (iteration s2 = iteration (state w0) + 1 + 1) in Hi.
      rewrite Hiter0 in Hi.
      split; [lia|]. right. split; [reflexivity|]. split; [left; exact Hc|lia].
    + change (clarification_count s2 = clarification_count (state w0)) in Hc.
      change (iteration s2 = iteration (state w0) + 1 + 1) in Hi.
      rewrite Hcount0 in Hc. rewrite Hiter0 in Hi.
      split; [lia|]. right. split; [reflexivity|]. split; [right; exact Hc|lia].
Qed.

(** ** The model-driven decision *)

Lemma item_last_but_one_ok {A} (l : list A) :
  Z.of_nat (List.length l) >= 2 -> exists a, item l (-2) = Ok a.
Proof.
  intros Hlen.
  destruct l as [|x l] using rev_ind; [cbn in Hlen; lia|].
  destruct l as [|y l _] using rev_ind; [cbn in Hlen; lia|].
  exists y. rewrite <- app_assoc. apply item_last_but_one.
Qed.

Lemma follow_up_detected_eval (msgs : list message) (last : option string) (w : world) :
  Z.of_nat (List.length msgs) >= 2 ->
  MasterOrchestrator.follow_up_detected msgs last w
  = (Ok (follow_up_pattern msgs last), w).
Proof.
  intros Hlen.
  destruct msgs as [|x l] using rev_ind; [cbn in Hlen; lia|].
  destruct l as [|y l _] using rev_ind; [cbn in Hlen; lia|].
  unfold MasterOrchestrator.follow_up_detected, follow_up_pattern, bind, lift, ret.
  rewrite <- app_assoc. cbn [app].
  rewrite item_last_but_one, item_last_cons.
  rewrite rev_app_distr. cbn [rev app]. reflexivity.
Qed.

(** X3: layer 3 without a Langfuse client, on a window that is not empty,
    below the counter limit and when the follow-up pattern is not there. With
    a prompt configuration that is [None] no Completion call is made and the
    failure fallback routes to research. Otherwise exactly one Completion call
    is made, with the latest message as the query and the earlier window as
    the history. A decision whose upper-cased text contains CLARIFICATION
    routes to clarification and raises the counter by one; any other decision
    routes to research and resets the counter; a call that raises routes to
    research and leaves the counter. Either way [iteration] grows by one and
    the messages stay. *)
Theorem model_decision_routes (self : agent_self) (w : world) (current : message)
    (Hno_store : langfuse_client self = None)
    (Hbelow : clarification_count (state w) < MasterOrchestrator.max_clarifications self)
    (Hpattern :
       follow_up_pattern
         (limit_history (MasterOrchestrator.max_history self) (messages (state w)))
         (last_agent (state w)) = false)
    (Hcurrent :
       item (limit_history (MasterOrchestrator.max_history self) (messages (state w))) (-1)
       = Ok current) :
  let vars :=
    [("query", content current);
     ("history",
      _format_history
        (all_but_last
           (limit_history (MasterOrchestrator.max_history self) (messages (state w)))))] in
  let asked := generate (llm_client self) (calls w) (by_prompt_variables vars) in
  exists s' : AgentState,
    iteration s' = iteration (state w) + 1
    /\ messages s' = messages (state w)
    /\ match cfg_prompt (agent_config self) with
       | None =>
           MasterOrchestrator.execute upper self w = (Ok tt, World s' (calls w))
           /\ s' = routed_by_fallback (state w)
       | Some _ =>
           MasterOrchestrator.execute upper self w
           = (Ok tt,
              World s'
                (calls w ++ [ev_generate (completion_model (llm_client self))
                               (by_prompt_variables vars) (is_ok asked)])%list)
           /\ match asked with
              | Ok decision =>
                  if contains "CLARIFICATION" (upper decision)
                  then next_agent s' = "clarification"
                       /\ clarification_count s' = clarification_count (state w) + 1
                       /\ clarification_needed s' = true
                       /\ missing_context s' = ["Query is vague or ambiguous"]
                  else next_agent s' = "research"
                       /\ clarification_count s' = 0
                       /\ clarification_needed s' = false
              | Raise _ =>
                  next_agent s' = "research"
                  /\ clarification_count s' = clarification_count (state w)
                  /\ clarification_needed s' = false
              end
       end.
Proof.
  intros vars asked.
  set (msgs := limit_history (MasterOrchestrator.max_history self) (messages (state w))) in *.
  assert (Hlayer3 :
            MasterOrchestrator.execute upper self w
            = MasterOrchestrator.layer3 upper self msgs (clarification_count (state w)) w).
  { unfold MasterOrchestrator.execute. unfold bind at 1. unfold read at 1.
    replace (clarification_count (state w) >=? MasterOrchestrator.max_clarifications self)
      with false by (symmetry; rewrite Z.geb_leb; apply Z.leb_gt; lia).
    fold msgs.
    assert (Hfired :
              (if Z.of_nat (List.length msgs) >=? 2
               then
                 bind (MasterOrchestrator.follow_up_detected msgs (last_agent (state w)))
                   (fun hit =>
                      if hit then bind MasterOrchestrator.layer2 (fun _ => ret true)
                      else ret false)
               else ret false) w = (Ok false, w)).
    { destruct (Z.of_nat (List.length msgs) >=? 2) eqn:Hlen; [|reflexivity].
      rewrite Z.geb_leb in Hlen. apply Z.leb_le in Hlen.
      unfold bind. rewrite follow_up_detected_eval by lia. rewrite Hpattern. reflexivity. }
    unfold bind at 1. rewrite Hfired. reflexivity. }
  rewrite Hlayer3.
  unfold MasterOrchestrator.layer3. unfold bind at 1. unfold lift at 1. rewrite Hcurrent.
  fold vars.
  unfold try_except. unfold bind at 1.
  unfold MasterOrchestrator.decide, langfuse_prompt_enabled.
  rewrite Hno_store.
  destruct (cfg_prompt (agent_config self)) as [config|].
  - cbv [bind ret lift prompt_config_get call_generate read record_call modify].
    cbn [calls state]. fold asked.
    destruct asked as [decision|e]; cbn [is_ok].
    + destruct (contains "CLARIFICATION" (upper decision)).
      * exists (routed_to_clarification (clarification_count (state w)) (state w)).
        repeat split.
      * exists (routed_to_research (state w)). repeat split.
    + exists (routed_by_fallback (state w)). repeat split.
  - cbv [bind ret lift prompt_config_get].
    exists (routed_by_fallback (state w)). repeat split.
Qed.

(** ** Edge cases of the agents: an empty window *)

Lemma clarification_empty_window (self : agent_self) (w : world) :
  limit_history (ClarificationAgent.max_history self) (messages (state w)) = [] ->
  ClarificationAgent.execute self w = (Raise list_index_out_of_range, w).
Proof.
  intros Hnil. unfold ClarificationAgent.execute.
  unfold bind at 1. unfold read at 1. unfold bind at 1. unfold lift at 1.
  rewrite Hnil, item_nil. reflexivity.
Qed.

Lemma orchestrator_empty_window (self : agent_self) (w : world) :
  limit_history (MasterOrchestrator.max_history self) (messages (state w)) = [] ->
  clarification_count (state w) < MasterOrchestrator.max_clarifications self ->
  MasterOrchestrator.execute upper self w = (Raise list_index_out_of_range, w).
Proof.
  intros Hnil Hbelow. unfold MasterOrchestrator.execute.
  unfold bind at 1. unfold read at 1.
  replace (clarification_count (state w) >=? MasterOrchestrator.max_clarifications self)
    with false by (symmetry; rewrite Z.geb_leb; apply Z.leb_gt; lia).
  rewrite Hnil. cbn [List.length Z.of_nat Z.geb Z.compare].
  unfold bind at 1. unfold ret at 1.
  unfold MasterOrchestrator.layer3. unfold bind at 1. unfold lift at 1.
  rewrite item_nil. reflexivity.
Qed.

(** X4: with an empty message window (no message, or a negative history
    limit) the clarification agent raises [IndexError] before its [try]
    block, and so does the orchestrator below the counter limit; neither calls
    a port nor changes the state. *)
Theorem empty_window_raises_index_error (self : agent_self) (w : world) :
  (limit_history (ClarificationAgent.max_history self) (messages (state w)) = [] ->
   ClarificationAgent.execute self w
   = (Raise (IndexError "list index out of range"), w))
  /\ (limit_history (MasterOrchestrator.max_history self) (messages (state w)) = [] ->
      clarification_count (state w) < MasterOrchestrator.max_clarifications self ->
      MasterOrchestrator.execute upper self w
      = (Raise (IndexError "list index out of range"), w)).
Proof.
  split.
  - apply clarification_empty_window.
  - apply orchestrator_empty_window.
Qed.

(** ** What the answering agents write *)

(** X5: whatever its ports do, the clarification agent (given a non-empty
    window) appends exactly one Assistant message, the text it stores as
    [final_answer], sets [next_agent = "END"] and [last_agent =
    "clarification"], and leaves every other key as it was: in particular it
    does not count itself in [iteration]. *)
Theorem clarification_writes_only_its_answer (self : agent_self) (w : world)
    (Hwindow :
       limit_history (ClarificationAgent.max_history self) (messages (state w)) <> []) :
  exists (text : string) (s' : AgentState) (h' : history),
    ClarificationAgent.execute self w = (Ok tt, World s' h')
    /\ messages s' = (messages (state w) ++ [AIMessage text])%list
    /\ final_answer s' = Some text
    /\ next_agent s' = "END"
    /\ last_agent s' = Some "clarification"
    /\ iteration s' = iteration (state w)
    /\ clarification_count s' = clarification_count (state w)
    /\ clarification_needed s' = clarification_needed (state w)
    /\ missing_context s' = missing_context (state w)
    /\ context s' = context (state w)
    /\ session_id s' = session_id (state w)
    /\ confidence_score s' = confidence_score (state w).
Proof.
  destruct (clarification_outcome self w Hwindow) as (text & h' & Hrun & _).
  exists text, (clarified text (state w)), h'. split; [exact Hrun|]. repeat split.
Qed.


Lemma find_first_split {A} (p : A -> bool) (pre : list A) (x : A) (post : list A) :
  (forall a, In a pre -> p a = false) -> p x = true ->
  find_first p (pre ++ x :: post) = Some x.
Proof.
  intros Hpre Hx. induction pre as [|a pre IH]; cbn [app find_first].
  - rewrite Hx. reflexivity.
  - rewrite (Hpre a (or_introl eq_refl)). apply IH.
    intros b Hb. apply Hpre. now right.
Qed.

Lemma find_first_none {A} (p : A -> bool) (l : list A) :
  (forall a, In a l -> p a = false) -> find_first p l = None.
Proof.
  intros Hall. induction l as [|a l IH]; [reflexivity|]. cbn [find_first].
  rewrite (Hall a (or_introl eq_refl)). apply IH.
  intros b Hb. apply Hall. now right.
Qed.

Lemma isinstance_HumanMessage_false (m : message) :
  type m <> human -> isinstance_HumanMessage m = false.
Proof.
  unfold isinstance_HumanMessage.
  destruct (type m); intros H; [exfalso; apply H; reflexivity|reflexivity..].
Qed.

(** X7: without a prompt store the synthesis agent makes exactly one
    Completion call. Its query is the first User message of the window (not
    the latest one), or "Unknown query" when the window holds no User message;
    its observations text is "No observations available." when there is
    neither an observation nor a research output. *)
Theorem synthesis_asks_about_first_user_message (self : agent_self) (w : world)
    (Hno_store : langfuse_client self = None) :
  let window :=
    limit_history (AnswerSynthesisAgent.max_history self) (messages (state w)) in
  exists (query obs_text : string) (returned : bool) (s' : AgentState),
    AnswerSynthesisAgent.execute self w
    = (Ok tt,
       World s'
         (calls w ++
          [ev_generate (completion_model (llm_client self))
             (by_prompt_variables [("query", query); ("observations", obs_text)])
             returned])%list)
    /\ (forall pre first_user post,
          window = (pre ++ first_user :: post)%list ->
          type first_user = human ->
          (forall m, In m pre -> type m <> human) ->
          query = content first_user)
    /\ ((forall m, In m window -> type m <> human) -> query = "Unknown query")
    /\ (observations (context (state w)) = [] ->
        final_output (context (state w)) = None
        \/ final_output (context (state w)) = Some "" ->
        obs_text = "No observations available.")
    /\ (returned = false -> confidence_score s' = Some 0.0%float).
Proof.
  intros window.
  unfold AnswerSynthesisAgent.execute. unfold bind at 1. unfold read at 1.
  fold window.
  unfold try_except. unfold bind at 1.
  unfold AnswerSynthesisAgent.synthesize, langfuse_prompt_enabled.
  rewrite Hno_store.
  cbv [bind ret lift call_generate read record_call modify].
  cbn [calls state].
  match goal with
  | |- context [generate (llm_client self) (calls w) (by_prompt_variables
                  [("query", ?q); ("observations", ?o)])] =>
      set (query := q); set (obs_text := o)
  end.
  assert (Hquery1 : forall pre first_user post,
             window = (pre ++ first_user :: post)%list ->
             type first_user = human ->
             (forall m, In m pre -> type m <> human) ->
             query = content first_user).
  { intros pre first_user post Hwin Hty Hpre. subst query. rewrite Hwin.
    rewrite find_first_split; [reflexivity| |].
    - intros m Hm. apply isinstance_HumanMessage_false. now apply Hpre.
    - unfold isinstance_HumanMessage. rewrite Hty. reflexivity. }
  assert (Hquery2 : (forall m, In m window -> type m <> human) ->
                    query = "Unknown query").
  { intros Hall. subst query. rewrite find_first_none; [reflexivity|].
    intros m Hm. apply isinstance_HumanMessage_false. now apply Hall. }
  assert (Hobs : observations (context (state w)) = [] ->
                 final_output (context (state w)) = None
                 \/ final_output (context (state w)) = Some "" ->
                 obs_text = "No observations available.").
  { intros Hnone [Hout|Hout]; subst obs_text; rewrite Hnone, Hout; reflexivity. }
  destruct (generate (llm_client self) (calls w)
              (by_prompt_variables [("query", query); ("observations", obs_text)]))
    as [answer|e]; cbn [is_ok].
  - exists query, obs_text, true. eexists. split; [reflexivity|].
    repeat split; try assumption. discriminate.
  - exists query, obs_text, false. eexists. split; [reflexivity|].
    repeat split; assumption.
Qed.

(** ** Confidence after a research step *)





(** ** The only way a turn can fail *)

Lemma empty_window_cause (max_history : Z) (msgs : list message) :
  limit_history max_history msgs = [] -> msgs = [] \/ max_history < 0.
Proof.
  intros Hnil. destruct msgs as [|m rest]; [left; reflexivity|right].
  destruct (Z_lt_le_dec max_history 0) as [Hneg|Hpos]; [exact Hneg|].
  exfalso. apply (limit_history_nonempty max_history (m :: rest) Hpos); [discriminate|].
  exact Hnil.
Qed.

Lemma traverse_step_raise (self : AgentWorkflow.t) (save : M world unit) (fuel : nat)
    (n : AgentWorkflow.node) (w w' : world) (e : exn) :
  AgentWorkflow.node_action upper self n w = (Raise e, w') ->
  AgentWorkflow.traverse upper self save (S fuel) n w = (Raise e, w').
Proof.
  intros Hnode. cbn [AgentWorkflow.traverse]. unfold bind at 1. rewrite Hnode. reflexivity.
Qed.

Lemma traverse_orchestrator_total (self : AgentWorkflow.t) (save : M world unit)
    (fuel : nat) (w : world) :
  quiet save ->
  (exists (trace : list AgentWorkflow.node) (s' : AgentState) (h' : history),
      AgentWorkflow.traverse upper self save (S (S (S fuel))) AgentWorkflow.Orchestrator w
      = (Ok trace, World s' h')
      /\ (trace = [AgentWorkflow.Orchestrator; AgentWorkflow.Clarification]
          \/ trace = [AgentWorkflow.Orchestrator; AgentWorkflow.Research;
                      AgentWorkflow.Synthesis])
      /\ next_agent s' = "END"
      /\ final_answer s' <> None)
  \/ (exists w' : world,
        AgentWorkflow.traverse upper self save (S (S (S fuel))) AgentWorkflow.Orchestrator w
        = (Raise list_index_out_of_range, w')
        /\ (messages (state w) = []
            \/ MasterOrchestrator.max_history (AgentWorkflow.orchestrator self) < 0
            \/ ClarificationAgent.max_history (AgentWorkflow.clarification self) < 0)).
Proof.
  intros Hsave.
  destruct (Z_lt_le_dec (clarification_count (state w))
              (MasterOrchestrator.max_clarifications (AgentWorkflow.orchestrator self)))
    as [Hbelow|Hmax].
  2:{ left.
      destruct (counter_guard_outcome (AgentWorkflow.orchestrator self) w)
        as (s1 & Hrun & Hnext & _); [lia|].
      destruct (traverse_after_route_to_research self save fuel w s1 (calls w) Hsave
                  Hrun Hnext) as (s' & h' & Htraverse & _ & _ & Hend).
      exists [AgentWorkflow.Orchestrator; AgentWorkflow.Research; AgentWorkflow.Synthesis],
        s', h'.
      split; [exact Htraverse|]. split; [right; reflexivity|exact Hend]. }
  destruct (limit_history (MasterOrchestrator.max_history (AgentWorkflow.orchestrator self))
              (messages (state w))) as [|m0 window] eqn:Hwin.
  { right. exists w. split.
    - apply traverse_step_raise. apply orchestrator_empty_window; assumption.
    - destruct (empty_window_cause _ _ Hwin) as [Hnil|Hneg]; [left|right; left]; assumption. }
  assert (Hwin' : limit_history
                    (MasterOrchestrator.max_history (AgentWorkflow.orchestrator self))
                    (messages (state w)) <> []) by (rewrite Hwin; discriminate).
  assert (Hmsgs : messages (state w) <> []).
  { intros Hnil. rewrite Hnil, limit_history_nil in Hwin. discriminate. }
  clear Hwin.
  destruct (execute_outcome (AgentWorkflow.orchestrator self) w Hwin')
    as (s1 & h1 & Hrun & Hcase).
  assert (Hroute :
            (next_agent s1 = "clarification" /\ messages s1 = messages (state w))
            \/ next_agent s1 = "research").
  { destruct Hcase as [[-> _]|[->|[-> _]]]; [left; split|right|right]; reflexivity. }
  destruct Hroute as [[Hnext Hsame]| Hnext].
  - destruct (traverse_step self save (S (S fuel)) AgentWorkflow.Orchestrator w s1 h1
                Hsave Hrun) as (h2 & ->).
    cbn [AgentWorkflow.next_target]. unfold AgentWorkflow.route_after_orchestrator.
    replace (next_agent (written s1)) with (next_agent s1) by reflexivity.
    rewrite Hnext. cbn [AgentWorkflow.lookup AgentWorkflow.path_map String.eqb Ascii.eqb
                        Bool.eqb andb].
    destruct (limit_history
                (ClarificationAgent.max_history (AgentWorkflow.clarification self))
                (messages (state (World (written s1) h2)))) as [|m1 window1] eqn:Hwin1.
    + right. exists (World (written s1) h2). split.
      * rewrite (traverse_step_raise self save (S fuel) AgentWorkflow.Clarification
                   (World (written s1) h2) (World (written s1) h2)
                   list_index_out_of_range); [reflexivity|].
        apply clarification_empty_window. exact Hwin1.
      * destruct (empty_window_cause _ _ Hwin1) as [Hnil|Hneg]; [|right; right; exact Hneg].
        exfalso. cbn in Hnil. unfold AgentWorkflow.add in Hnil. rewrite Hsame in Hnil.
        apply app_eq_nil in Hnil as [Hnil _]. congruence.
    + left.
      destruct (traverse_clarification self save (S fuel) (World (written s1) h2) Hsave)
        as (s2 & h3 & -> & Hend).
      { rewrite Hwin1. discriminate. }
      exists [AgentWorkflow.Orchestrator; AgentWorkflow.Clarification], s2, h3.
      split; [reflexivity|]. split; [left; reflexivity|exact Hend].
  - left.
    destruct (traverse_after_route_to_research self save fuel w s1 h1 Hsave Hrun Hnext)
      as (s' & h' & Htraverse & _ & _ & Hend).
    exists [AgentWorkflow.Orchestrator; AgentWorkflow.Research; AgentWorkflow.Synthesis],
      s', h'.
    split; [exact Htraverse|]. split; [right; reflexivity|exact Hend].
Qed.

Lemma invoke_outcome (self : AgentWorkflow.t) (config : option string)
    (input : AgentState) (h : history) :
  (exists (final : AgentState) (trace : list AgentWorkflow.node) (h' : history),
      AgentWorkflow.invoke upper self config input h = (Ok (final, trace), h')
      /\ (trace = [AgentWorkflow.Orchestrator; AgentWorkflow.Clarification]
          \/ trace = [AgentWorkflow.Orchestrator; AgentWorkflow.Research;
                      AgentWorkflow.Synthesis])
      /\ next_agent final = "END"
      /\ final_answer final <> None)
  \/ (exists h' : history,
        AgentWorkflow.invoke upper self config input h
        = (Raise (IndexError "list index out of range"), h')
        /\ (messages input = []
            \/ MasterOrchestrator.max_history (AgentWorkflow.orchestrator self) < 0
            \/ ClarificationAgent.max_history (AgentWorkflow.clarification self) < 0))
  \/ store_stopped self config h (AgentWorkflow.invoke upper self config input h).
Proof.
  destruct (invoke_unless_stopped self config input h)
    as [Hstopped|(save & saved & h0 & Hsave & ->)]; [right; right; exact Hstopped|].
  unfold AgentWorkflow.recursion_limit, AgentWorkflow.entry_point.
  set (w0 := World (AgentWorkflow.map_input saved input) h0).
  destruct (traverse_orchestrator_total self save 22 w0 Hsave)
    as [(trace & s' & h' & -> & Htrace & Hend)|(w' & -> & Hcause)].
  - left. exists s', trace, h'. split; [reflexivity|]. split; assumption.
  - right. left. exists (calls w'). split; [reflexivity|].
    destruct Hcause as [Hnil|Hneg]; [left|right; exact Hneg].
    destruct (messages input) as [|m rest] eqn:Hinput; [reflexivity|exfalso].
    apply (map_input_messages_nonempty saved input); [rewrite Hinput; discriminate|].
    exact Hnil.
Qed.


(** ** The memory routes *)

Lemma thread_exists_eval (self : AgentWorkflow.t) (thread_id : string) (h : history) :
  AgentWorkflow.thread_exists self thread_id h
  = match AgentWorkflow.checkpointer self with
    | None => (Ok false, h)
    | Some saver =>
        match AgentWorkflow.saver_list saver h thread_id with
        | Ok checkpoints =>
            (Ok (Z.of_nat (List.length checkpoints) >? 0),
             (h ++ [ev_checkpoint_list thread_id true])%list)
        | Raise _ => (Ok false, (h ++ [ev_checkpoint_list thread_id false])%list)
        end
    end.
Proof.
  unfold AgentWorkflow.thread_exists, AgentWorkflow.get_thread_history.
  destruct (AgentWorkflow.checkpointer self) as [saver|]; [|reflexivity].
  unfold try_except, bind, read, lift, ret, AgentWorkflow.record_store_call, modify.
  destruct (AgentWorkflow.saver_list saver h thread_id) as [cps|e]; reflexivity.
Qed.

Lemma thread_unknown_eval (self : AgentWorkflow.t) (thread_id : string) (h : history) :
  thread_unknown self thread_id h ->
  exists h' : history,
    AgentWorkflow.thread_exists self thread_id h = (Ok false, h')
    /\ (h' = h \/ exists b, h' = (h ++ [ev_checkpoint_list thread_id b])%list).
Proof.
  unfold thread_unknown. rewrite thread_exists_eval.
  destruct (AgentWorkflow.checkpointer self) as [saver|].
  - destruct (AgentWorkflow.saver_list saver h thread_id) as [[|c cs]|e]; intros H.
    + eexists. split; [reflexivity|]. right. eexists. reflexivity.
    + destruct H.
    + eexists. split; [reflexivity|]. right. eexists. reflexivity.
  - intros _. exists h. split; [reflexivity|left; reflexivity].
Qed.

(** X10: for a thread the workflow does not know (no checkpoint store, a
    store whose listing raises, or no checkpoint) both memory routes answer
    404 "Session not found: <id>"; the store is asked at most for the listing,
    never for the state nor for a deletion, so the [ValueError] of a missing
    store and a store outage both look like a missing session. *)
Theorem unknown_thread_is_not_found (self : AgentWorkflow.t) (now : nat -> string)
    (session_id : string) (h : history)
    (Hunknown : thread_unknown self session_id h) :
  exists h' : history,
    MemoryRoutes.get_session_history self now session_id h
    = (HTTPException 404 ("Session not found: " ++ session_id), h')
    /\ MemoryRoutes.clear_session self session_id h
       = (HTTPException 404 ("Session not found: " ++ session_id), h')
    /\ (h' = h \/ exists b, h' = (h ++ [ev_checkpoint_list session_id b])%list).
Proof.
  destruct (thread_unknown_eval self session_id h Hunknown) as (h' & Hexists & Hcalls).
  exists h'.
  unfold MemoryRoutes.get_session_history, MemoryRoutes.clear_session, route.
  unfold bind at 1 3. rewrite Hexists. cbn [negb].
  repeat split; [reflexivity..|exact Hcalls].
Qed.

Lemma collect_fold (now : nat -> string) (stored : list message)
    (acc : list MemoryRoutes.Message) :
  let listed := fold_left (MemoryRoutes.collect now) stored acc in
  map (fun m => (MemoryRoutes.role m, MemoryRoutes.message_content m)) listed
  = (map (fun m => (MemoryRoutes.role m, MemoryRoutes.message_content m)) acc
     ++ map (fun msg => (role_of msg, content msg)) (filter in_dialogue stored))%list
  /\ map MemoryRoutes.timestamp listed
     = (map MemoryRoutes.timestamp acc
        ++ map now (seq (List.length acc) (List.length (filter in_dialogue stored))))%list
  /\ List.length listed
     = (List.length acc + List.length (filter in_dialogue stored))%nat.
Proof.
  revert acc. induction stored as [|msg stored IH]; intros acc; cbn zeta.
  - cbn. rewrite !app_nil_r, Nat.add_0_r. repeat split.
  - cbn [fold_left filter]. unfold MemoryRoutes.collect at 2 4 6.
    fold (in_dialogue msg). destruct (in_dialogue msg).
    + destruct (IH (acc ++ [ {| MemoryRoutes.role :=
                                  if isinstance_HumanMessage msg then "user"
                                  else "assistant";
                                MemoryRoutes.message_content := content msg;
                                MemoryRoutes.timestamp := now (List.length acc);
                                MemoryRoutes.metadata := [] |} ])%list)
        as (Hroles & Hstamps & Hlen).
      rewrite Hroles, Hstamps, Hlen.
      rewrite !map_app, !length_app. cbn [map List.length seq].
      rewrite <- !app_assoc. cbn [app].
      replace (List.length acc + 1)%nat with (S (List.length acc)) by lia.
      repeat split. lia.
    + apply IH.
Qed.

(** X11: for a thread the store knows, the history route lists exactly the
    stored User and Assistant messages, in their stored order, a User message
    under the role "user" and an Assistant message under "assistant"; tool and
    system messages are left out, [message_count] counts the listed messages
    only, and the k-th listed message carries the k-th reading of the clock.
    The store is asked once for the listing and once for the state. *)
Theorem session_history_lists_dialogue (self : AgentWorkflow.t) (now : nat -> string)
    (session_id : string) (h : history) (saver : AgentWorkflow.RedisSaver)
    (checkpoint : AgentState) (checkpoints : list AgentState) (stored : AgentState)
    (Hstore : AgentWorkflow.checkpointer self = Some saver)
    (Hlist : AgentWorkflow.saver_list saver h session_id = Ok (checkpoint :: checkpoints))
    (Hstate : AgentWorkflow.saver_get_state saver
                (h ++ [ev_checkpoint_list session_id true])%list session_id
              = Ok (Some stored)) :
  exists response : MemoryRoutes.SessionHistoryResponse,
    MemoryRoutes.get_session_history self now session_id h
    = (Response response,
       (h ++ [ev_checkpoint_list session_id true; ev_checkpoint_get session_id true])%list)
    /\ MemoryRoutes.history_session_id response = session_id
    /\ map (fun m => (MemoryRoutes.role m, MemoryRoutes.message_content m))
         (MemoryRoutes.history_messages response)
       = map (fun msg => (role_of msg, content msg))
           (filter in_dialogue (messages stored))
    /\ map MemoryRoutes.timestamp (MemoryRoutes.history_messages response)
       = map now (seq 0 (List.length (filter in_dialogue (messages stored))))
    /\ MemoryRoutes.history_message_count response
       = Z.of_nat (List.length (filter in_dialogue (messages stored))).
Proof.
  unfold MemoryRoutes.get_session_history, route. unfold bind at 1.
  rewrite thread_exists_eval, Hstore, Hlist.
  cbn [List.length Z.of_nat Z.gtb Z.compare negb].
  unfold bind at 1. unfold AgentWorkflow.get_thread_state. rewrite Hstore.
  unfold bind at 1, read. unfold bind at 1, AgentWorkflow.record_store_call, modify.
  rewrite Hstate. cbn [is_ok lift ret].
  destruct (collect_fold now (messages stored) []) as (Hroles & Hstamps & Hlen).
  cbn zeta in Hroles, Hstamps, Hlen. cbn [map app List.length Nat.add] in *.
  eexists. split.
  - unfold lift, ret. rewrite <- app_assoc. reflexivity.
  - cbn [MemoryRoutes.history_session_id MemoryRoutes.history_messages
         MemoryRoutes.history_message_count].
    rewrite Hlen. repeat split; assumption.
Qed.

(** X12: for a thread the store knows, the clearing route asks the store to
    delete that thread exactly once, after the listing; it answers "Session
    cleared successfully" when the deletion returns and 500 with the store's
    message when the deletion raises. *)
Theorem clear_session_deletes_once (self : AgentWorkflow.t) (session_id : string)
    (h : history) (saver : AgentWorkflow.RedisSaver)
    (checkpoint : AgentState) (checkpoints : list AgentState)
    (Hstore : AgentWorkflow.checkpointer self = Some saver)
    (Hlist : AgentWorkflow.saver_list saver h session_id = Ok (checkpoint :: checkpoints)) :
  exists deleted : bool,
    snd (MemoryRoutes.clear_session self session_id h)
    = (h ++ [ev_checkpoint_list session_id true;
             ev_checkpoint_delete session_id deleted])%list
    /\ fst (MemoryRoutes.clear_session self session_id h)
       = match AgentWorkflow.saver_delete_thread saver
                 (h ++ [ev_checkpoint_list session_id true])%list session_id with
         | Ok _ =>
             Response {| MemoryRoutes.cleared_message := "Session cleared successfully";
                         MemoryRoutes.cleared_session_id := session_id |}
         | Raise e => HTTPException 500 ("Failed to clear session: " ++ exn_str e)
         end
    /\ deleted = is_ok (AgentWorkflow.saver_delete_thread saver
                          (h ++ [ev_checkpoint_list session_id true])%list session_id).
Proof.
  assert (Hrun :
            MemoryRoutes.clear_session self session_id h
            = match AgentWorkflow.saver_delete_thread saver
                      (h ++ [ev_checkpoint_list session_id true])%list session_id with
              | Ok _ =>
                  (Response
                     {| MemoryRoutes.cleared_message := "Session cleared successfully";
                        MemoryRoutes.cleared_session_id := session_id |},
                   ((h ++ [ev_checkpoint_list session_id true])
                    ++ [ev_checkpoint_delete session_id true])%list)
              | Raise e =>
                  (HTTPException 500 ("Failed to clear session: " ++ exn_str e),
                   ((h ++ [ev_checkpoint_list session_id true])
                    ++ [ev_checkpoint_delete session_id false])%list)
              end).
  { unfold MemoryRoutes.clear_session, route. unfold bind at 1.
    rewrite thread_exists_eval, Hstore, Hlist.
    cbn [List.length Z.of_nat Z.gtb Z.compare negb].
    unfold bind at 1. unfold AgentWorkflow.delete_thread. rewrite Hstore.
    unfold bind, read, AgentWorkflow.record_store_call, modify, lift, ret.
    destruct (AgentWorkflow.saver_delete_thread saver
                (h ++ [ev_checkpoint_list session_id true])%list session_id) as [[]|e];
      reflexivity. }
  rewrite Hrun.
  destruct (AgentWorkflow.saver_delete_thread saver
              (h ++ [ev_checkpoint_list session_id true])%list session_id) as [[]|e];
    cbn [is_ok fst snd]; eexists; (split; [rewrite <- app_assoc; reflexivity|]);
    split; reflexivity.
Qed.

(** ** The chat route *)

Lemma chat_new_thread (self : AgentWorkflow.t) (uuid4 : string)
    (chat_request : ChatRoute.ChatRequest) (h h1 : history) :
  AgentWorkflow.thread_exists self (ChatRoute.session_of uuid4 chat_request) h
  = (Ok false, h1) ->
  ChatRoute.chat upper lower self uuid4 chat_request h
  = match AgentWorkflow.invoke upper self
            (Some (ChatRoute.session_of uuid4 chat_request))
            (create_initial_state [HumanMessage (ChatRoute.message chat_request)]
               (ChatRoute.session_of uuid4 chat_request)) h1 with
    | (Ok (final_state, _), h') =>
        (match final_answer final_state with
         | Some answer =>
             Response {| ChatRoute.answer := answer;
                         ChatRoute.sources := [];
                         ChatRoute.response_session_id :=
                           ChatRoute.session_of uuid4 chat_request;
                         ChatRoute.message_count :=
                           Z.of_nat (List.length (messages final_state)) |}
         | None =>
             ChatRoute.failed_to_generate "'NoneType' object is not subscriptable"
         end, h')
    | (Raise e, h') => (ChatRoute.on_exception lower e, h')
    end.
Proof.
  intros Hexists. unfold ChatRoute.chat, route. unfold bind at 1. rewrite Hexists.
  cbv [bind ret].
  destruct (AgentWorkflow.invoke upper self _ _ h1) as [[[final_state trace]|e] h'];
    [|reflexivity].
  cbn [fst]. destruct (final_answer final_state); reflexivity.
Qed.

Lemma store_stopped_raises (self : AgentWorkflow.t) (thread_id : string) (h : history)
    (out : result (AgentState * list AgentWorkflow.node) * history) :
  store_stopped self (Some thread_id) h out ->
  exists (e : exn) (h' : history), out = (Raise e, h').
Proof.
  intros (saver & _ & e & [(_ & ->)|(front & s & _ & ->)]); eexists _, _; reflexivity.
Qed.

(** X13: a request on a thread the workflow does not know starts a new
    conversation from the one user message, run under the thread of the
    session (the generated identifier when the request has none or an empty
    one). It is answered with status 200, the final answer of the turn, no
    sources and the session id; or with 500 "Failed to generate answer: list
    index out of range" ([str.lower] leaves that message as it is), which
    needs a negative history limit; or the checkpoint store stops the turn
    with an exception, which the [except] clauses of the route answer. *)
Theorem chat_new_conversation (self : AgentWorkflow.t) (uuid4 : string)
    (chat_request : ChatRoute.ChatRequest) (h : history)
    (Hunknown : thread_unknown self (ChatRoute.session_of uuid4 chat_request) h)
    (Hlower : lower "list index out of range" = "list index out of range") :
  let session_id := ChatRoute.session_of uuid4 chat_request in
  let started := snd (AgentWorkflow.thread_exists self session_id h) in
  let input := create_initial_state [HumanMessage (ChatRoute.message chat_request)]
                 session_id in
  (exists (final : AgentState) (trace : list AgentWorkflow.node) (h' : history)
          (answer : string),
      AgentWorkflow.invoke upper self (Some session_id) input started
      = (Ok (final, trace), h')
      /\ final_answer final = Some answer
      /\ ChatRoute.chat upper lower self uuid4 chat_request h
         = (Response {| ChatRoute.answer := answer;
                        ChatRoute.sources := [];
                        ChatRoute.response_session_id := session_id;
                        ChatRoute.message_count :=
                          Z.of_nat (List.length (messages final)) |}, h'))
  \/ (exists h' : history,
        ChatRoute.chat upper lower self uuid4 chat_request h
        = (HTTPException 500 "Failed to generate answer: list index out of range", h')
        /\ (MasterOrchestrator.max_history (AgentWorkflow.orchestrator self) < 0
            \/ ClarificationAgent.max_history (AgentWorkflow.clarification self) < 0))
  \/ (exists (e : exn) (h' : history),
        AgentWorkflow.invoke upper self (Some session_id) input started = (Raise e, h')
        /\ store_stopped self (Some session_id) started (Raise e, h')
        /\ ChatRoute.chat upper lower self uuid4 chat_request h
           = (ChatRoute.on_exception lower e, h')).
Proof.
  cbv zeta.
  destruct (thread_unknown_eval self _ h Hunknown) as (h1 & Hexists & _).
  rewrite (chat_new_thread self uuid4 chat_request h h1 Hexists).
  rewrite Hexists. cbn [snd].
  destruct (invoke_outcome self (Some (ChatRoute.session_of uuid4 chat_request))
              (create_initial_state [HumanMessage (ChatRoute.message chat_request)]
                 (ChatRoute.session_of uuid4 chat_request)) h1)
    as [(final & trace & h' & Hrun & _ & _ & Hanswer)|[(h' & Hrun & Hcause)|Hstopped]].
  - left. rewrite Hrun.
    destruct (final_answer final) as [answer|] eqn:Hfinal; [|congruence].
    exists final, trace, h', answer. repeat split. exact Hfinal.
  - right. left. rewrite Hrun. exists h'. split.
    + unfold ChatRoute.on_exception, exn_str. rewrite Hlower. reflexivity.
    + destruct Hcause as [Hnil|Hneg]; [discriminate Hnil|exact Hneg].
  - right. right.
    destruct (store_stopped_raises _ _ _ _ Hstopped) as (e & h' & Hout).
    rewrite Hout in Hstopped. rewrite Hout.
    exists e, h'. split; [reflexivity|]. split; [exact Hstopped|reflexivity].
Qed.

Lemma limit_history_keeps_last_two (max_history : Z) (front : list message)
    (prev_msg current_msg : message) :
  2 <= max_history ->
  exists front' : list message,
    limit_history max_history (front ++ [prev_msg; current_msg])
    = (front' ++ [prev_msg; current_msg])%list.
Proof.
  intros Hmh. unfold limit_history.
  destruct (Z.of_nat (List.length (front ++ [prev_msg; current_msg])) >? max_history)
    eqn:Hlong; [|exists front; reflexivity].
  unfold slice_from.
  replace (- max_history <? 0) with true by (symmetry; apply Z.ltb_lt; lia).
  rewrite length_app in *. cbn [List.length] in *.
  apply Z.gtb_lt in Hlong.
  set (start := Z.to_nat (Z.max 0 (Z.of_nat (List.length front + 2) + - max_history))).
  assert (Hstart : (start <= List.length front)%nat) by (unfold start; lia).
  exists (skipn start front).
  rewrite skipn_app.
  replace (start - List.length front)%nat with 0%nat by lia. reflexivity.
Qed.

Lemma follow_up_guard_outcome (self : agent_self) (w : world)
    (front : list message) (prev_msg current_msg : message) :
  limit_history (MasterOrchestrator.max_history self) (messages (state w))
  = (front ++ [prev_msg; current_msg])%list ->
  type prev_msg = ai ->
  type current_msg = human ->
  last_agent (state w) = Some "clarification" ->
  exists s' : AgentState,
    MasterOrchestrator.execute upper self w = (Ok tt, World s' (calls w))
    /\ next_agent s' = "research"
    /\ clarification_count s' = 0.
Proof.
  intros Hwindow Hprev Hcurrent Hlast.
  destruct (Z_lt_le_dec (clarification_count (state w))
              (MasterOrchestrator.max_clarifications self)) as [Hbelow|Hmax].
  2:{ apply counter_guard_outcome. lia. }
  unfold MasterOrchestrator.execute, bind at 1, read.
  replace (clarification_count (state w) >=? MasterOrchestrator.max_clarifications self)
    with false by (symmetry; rewrite Z.geb_leb; apply Z.leb_gt; lia).
  rewrite Hwindow.
  replace (Z.of_nat (List.length (front ++ [prev_msg; current_msg])) >=? 2) with true
    by (symmetry; rewrite Z.geb_leb; apply Z.leb_le; rewrite length_app; simpl; lia).
  unfold MasterOrchestrator.follow_up_detected, bind, lift, ret.
  rewrite item_last_but_one, item_last_cons.
  unfold isinstance_AIMessage, isinstance_HumanMessage.
  rewrite Hprev, Hcurrent, Hlast. cbn.
  eexists. split; [reflexivity|]. split; reflexivity.
Qed.

(** X14: the reply to a clarifying question is always researched. When the
    store knows the thread, its state was left by the clarification agent and
    ends with an Assistant message, the orchestrator reads a window of at
    least two messages, then, unless the checkpoint store stops the turn with
    an exception (which the [except] clauses of the route answer), the chat
    route runs orchestrator, research and synthesis on the stored state with
    the new user message appended, answers with status 200 and the final
    answer, and leaves [clarification_count] at 0, whatever the model of the
    orchestrator would have decided and whatever the counter was. *)
Theorem chat_reply_to_clarification_is_researched (self : AgentWorkflow.t)
    (uuid4 : string) (chat_request : ChatRoute.ChatRequest) (h : history)
    (saver : AgentWorkflow.RedisSaver)
    (checkpoint : AgentState) (checkpoints : list AgentState)
    (existing_state : AgentState) (front : list message) (question : message)
    (Hstore : AgentWorkflow.checkpointer self = Some saver)
    (Hlist : AgentWorkflow.saver_list saver h (ChatRoute.session_of uuid4 chat_request)
             = Ok (checkpoint :: checkpoints))
    (Hstate : AgentWorkflow.saver_get_state saver
                (h ++ [ev_checkpoint_list (ChatRoute.session_of uuid4 chat_request) true])%list
                (ChatRoute.session_of uuid4 chat_request)
              = Ok (Some existing_state))
    (Hlast : last_agent existing_state = Some "clarification")
    (Hmessages : messages existing_state = (front ++ [question])%list)
    (Hquestion : type question = ai)
    (Hwindow : 2 <= MasterOrchestrator.max_history (AgentWorkflow.orchestrator self)) :
  let session_id := ChatRoute.session_of uuid4 chat_request in
  let input := continue_conversation existing_state (ChatRoute.message chat_request) in
  let started :=
    (h ++ [ev_checkpoint_list session_id true; ev_checkpoint_get session_id true])%list in
  (exists (final : AgentState) (h' : history) (answer : string),
      AgentWorkflow.invoke upper self (Some session_id) input started
      = (Ok (final, [AgentWorkflow.Orchestrator; AgentWorkflow.Research;
                     AgentWorkflow.Synthesis]), h')
      /\ clarification_count final = 0
      /\ final_answer final = Some answer
      /\ ChatRoute.chat upper lower self uuid4 chat_request h
         = (Response {| ChatRoute.answer := answer;
                        ChatRoute.sources := [];
                        ChatRoute.response_session_id := session_id;
                        ChatRoute.message_count :=
                          Z.of_nat (List.length (messages final)) |}, h'))
  \/ (exists (e : exn) (h' : history),
        AgentWorkflow.invoke upper self (Some session_id) input started = (Raise e, h')
        /\ store_stopped self (Some session_id) started (Raise e, h')
        /\ ChatRoute.chat upper lower self uuid4 chat_request h
           = (ChatRoute.on_exception lower e, h')).
Proof.
  cbv zeta. set (session_id := ChatRoute.session_of uuid4 chat_request) in *.
  set (input := continue_conversation existing_state (ChatRoute.message chat_request)).
  set (h2 := (h ++ [ev_checkpoint_list session_id true;
                    ev_checkpoint_get session_id true])%list) in *.
  assert (Hchat : ChatRoute.chat upper lower self uuid4 chat_request h
                  = match AgentWorkflow.invoke upper self (Some session_id) input h2 with
                    | (Ok (final_state, _), h') =>
                        (match final_answer final_state with
                         | Some answer =>
                             Response {| ChatRoute.answer := answer;
                                         ChatRoute.sources := [];
                                         ChatRoute.response_session_id := session_id;
                                         ChatRoute.message_count :=
                                           Z.of_nat (List.length (messages final_state)) |}
                         | None =>
                             ChatRoute.failed_to_generate
                               "'NoneType' object is not subscriptable"
                         end, h')
                    | (Raise e, h') => (ChatRoute.on_exception lower e, h')
                    end).
  { unfold ChatRoute.chat, route. fold session_id. unfold bind at 1.
    rewrite thread_exists_eval, Hstore, Hlist.
    cbn [List.length Z.of_nat Z.gtb Z.compare].
    unfold bind at 1. unfold bind at 1. unfold AgentWorkflow.get_thread_state.
    rewrite Hstore. unfold bind at 1, read. unfold bind at 1.
    unfold AgentWorkflow.record_store_call, modify. rewrite Hstate.
    cbn [is_ok lift ret option_map]. unfold lift, ret. cbn [option_map].
    rewrite <- app_assoc. cbn [app]. fold input. fold h2.
    unfold bind.
    destruct (AgentWorkflow.invoke upper self (Some session_id) input h2)
      as [[[final_state trace]|e] h']; [|reflexivity].
    cbn [fst]. destruct (final_answer final_state); reflexivity. }
  destruct (invoke_unless_stopped self (Some session_id) input h2)
    as [Hstopped|(save & saved & h0 & Hsave & Hinvoke)].
  { right. destruct (store_stopped_raises _ _ _ _ Hstopped) as (e & h' & Hout).
    rewrite Hout in Hstopped. exists e, h'.
    split; [exact Hout|]. split; [exact Hstopped|]. rewrite Hchat, Hout. reflexivity. }
  left.
  assert (Hturn : exists (final : AgentState) (h' : history),
             AgentWorkflow.invoke upper self (Some session_id) input h2
             = (Ok (final, [AgentWorkflow.Orchestrator; AgentWorkflow.Research;
                            AgentWorkflow.Synthesis]), h')
             /\ clarification_count final = 0
             /\ final_answer final <> None).
  { rewrite Hinvoke.
    unfold AgentWorkflow.recursion_limit, AgentWorkflow.entry_point.
    set (w0 := World (AgentWorkflow.map_input saved input) h0).
    assert (Hends : exists front0,
               messages (state w0)
               = (front0 ++ [question; HumanMessage (ChatRoute.message chat_request)])%list).
    { unfold w0, AgentWorkflow.map_input, AgentWorkflow.add, input, continue_conversation.
      destruct saved as [previous|]; cbn; rewrite Hmessages.
      - exists (messages previous ++ front)%list. rewrite <- !app_assoc. reflexivity.
      - exists front. rewrite <- app_assoc. reflexivity. }
    destruct Hends as (front0 & Hends).
    destruct (limit_history_keeps_last_two
                (MasterOrchestrator.max_history (AgentWorkflow.orchestrator self))
                front0 question (HumanMessage (ChatRoute.message chat_request)) Hwindow)
      as (front' & Hlimit).
    rewrite <- Hends in Hlimit.
    destruct (follow_up_guard_outcome (AgentWorkflow.orchestrator self) w0 front'
                question (HumanMessage (ChatRoute.message chat_request)) Hlimit Hquestion)
      as (s1 & Hrun & Hnext & Hcount).
    { reflexivity. }
    { unfold w0, AgentWorkflow.map_input, input, continue_conversation.
      destruct saved; exact Hlast. }
    destruct (traverse_after_route_to_research self save 22 w0 s1 (calls w0) Hsave
                Hrun Hnext) as (s' & h' & -> & Hcount' & _ & _ & Hanswer).
    exists s', h'. split; [reflexivity|]. split; [congruence|exact Hanswer]. }
  destruct Hturn as (final & h' & Hrun & Hcount & Hanswer).
  destruct (final_answer final) as [answer|] eqn:Hfinal; [|congruence].
  exists final, h', answer. split; [exact Hrun|]. split; [exact Hcount|].
  split; [exact Hfinal|]. rewrite Hchat, Hrun, Hfinal. reflexivity.
Qed.

(** ** How often a turn calls the Completion port *)

Section CallBudget.
Variable p : event -> bool.

Lemma count_calls_app (h1 h2 : history) :
  count_calls p (h1 ++ h2)%list = (count_calls p h1 + count_calls p h2)%nat.
Proof. unfold count_calls. rewrite filter_app, length_app. reflexivity. Qed.

Lemma adds_nothing {A} (n : nat) (c : M world A) :
  (forall w, calls (snd (c w)) = calls w) -> adds_at_most p n c.
Proof.
  intros Hsame w. exists []. rewrite app_nil_r. split; [apply Hsame|].
  unfold count_calls. cbn. lia.
Qed.

Lemma adds_weaken {A} (n m : nat) (c : M world A) :
  (n <= m)%nat -> adds_at_most p n c -> adds_at_most p m c.
Proof.
  intros Hle Hc w. destruct (Hc w) as (added & Hcalls & Hcount).
  exists added. split; [exact Hcalls|lia].
Qed.

Lemma adds_ret {A} (n : nat) (a : A) : adds_at_most p n (ret a).
Proof. apply adds_nothing. reflexivity. Qed.

Lemma adds_raise {A} (n : nat) (e : exn) : adds_at_most p n (@raise world A e).
Proof. apply adds_nothing. reflexivity. Qed.

Lemma adds_lift {A} (n : nat) (r : result A) : adds_at_most p n (lift r).
Proof. apply adds_nothing. reflexivity. Qed.

Lemma adds_read (n : nat) : adds_at_most p n (@read world).
Proof. apply adds_nothing. reflexivity. Qed.

Lemma adds_assign (n : nat) (f : AgentState -> AgentState) : adds_at_most p n (assign f).
Proof. apply adds_nothing. reflexivity. Qed.

Lemma adds_record_call (n : nat) (e : event) :
  ((if p e then 1 else 0) <= n)%nat -> adds_at_most p n (record_call e).
Proof.
  intros Hle w. exists [e]. split; [reflexivity|].
  unfold count_calls. cbn. destruct (p e); cbn; lia.
Qed.

Lemma adds_bind {A B} (n m : nat) (c : M world A) (k : A -> M world B) :
  adds_at_most p n c -> (forall a, adds_at_most p m (k a)) ->
  adds_at_most p (n + m) (bind c k).
Proof.
  intros Hc Hk w. unfold bind.
  destruct (Hc w) as (added1 & Hcalls1 & Hcount1).
  destruct (c w) as [[a|e] w1]; cbn [snd] in *.
  - destruct (Hk a w1) as (added2 & Hcalls2 & Hcount2).
    exists (added1 ++ added2)%list. rewrite Hcalls2, Hcalls1, app_assoc.
    split; [reflexivity|]. rewrite count_calls_app. lia.
  - exists added1. split; [exact Hcalls1|lia].
Qed.

Lemma adds_try_except {A} (n m : nat) (body : M world A) (handler : exn -> M world A) :
  adds_at_most p n body -> (forall e, adds_at_most p m (handler e)) ->
  adds_at_most p (n + m) (try_except body handler).
Proof.
  intros Hb Hh w. unfold try_except.
  destruct (Hb w) as (added1 & Hcalls1 & Hcount1).
  destruct (body w) as [[a|e] w1]; cbn [snd] in *.
  - exists added1. split; [exact Hcalls1|lia].
  - destruct (Hh e w1) as (added2 & Hcalls2 & Hcount2).
    exists (added1 ++ added2)%list. rewrite Hcalls2, Hcalls1, app_assoc.
    split; [reflexivity|]. rewrite count_calls_app. lia.
Qed.

End CallBudget.

(** One step of a budget proof: a leaf that records no matching call, or a
    sequence whose first part records none. *)
Ltac adds_leaf :=
  first [ apply adds_ret | apply adds_raise | apply adds_lift | apply adds_read
        | apply adds_assign
        | apply adds_record_call; cbn; lia ].

Ltac adds_free :=
  repeat first [ adds_leaf
               | apply (adds_bind _ 0); [|intros ?]
               | apply (adds_try_except _ 0); [|intros ?] ].

Lemma adds_call_generate (n : nat) (llm : BaseLLM) (arg : generate_arg) :
  adds_at_most is_completion (S n) (call_generate llm arg).
Proof.
  unfold call_generate.
  apply (adds_bind _ 0); [adds_leaf|intros w].
  apply (adds_bind _ 1); [|intros ?; adds_leaf].
  apply adds_record_call. cbn. lia.
Qed.

Lemma adds_call_get_prompt (n : nat) lf name version label :
  adds_at_most is_completion n (call_get_prompt lf name version label).
Proof. unfold call_get_prompt. adds_free. Qed.

Lemma adds_call_compile (n : nat) prompt vars :
  adds_at_most is_completion n (call_compile prompt vars).
Proof. unfold call_compile. adds_free. Qed.

Lemma adds_call_trace_generation (n : nat) lf call :
  adds_at_most is_completion n (call_trace_generation lf call).
Proof. unfold call_trace_generation. adds_free. Qed.

Lemma adds_langfuse_prompt_enabled (n : nat) self :
  adds_at_most is_completion n (langfuse_prompt_enabled self).
Proof. unfold langfuse_prompt_enabled. destruct (langfuse_client self); adds_free. Qed.

Lemma adds_generate_with_langfuse (n : nat) self lf default_id name class vars :
  adds_at_most is_completion (S n)
    (generate_with_langfuse self lf default_id name class vars).
Proof.
  unfold generate_with_langfuse.
  do 3 (apply (adds_bind _ 0); [adds_leaf|intros ?]).
  apply (adds_bind _ 0); [apply adds_call_get_prompt|intros ?].
  apply (adds_bind _ 0); [apply adds_call_compile|intros ?].
  apply (adds_bind _ 1); [apply adds_call_generate|intros ?].
  apply (adds_bind _ 0); [adds_leaf|intros ?].
  apply (adds_bind _ 0); [apply adds_call_trace_generation|intros ?].
  adds_leaf.
Qed.

(** The block shared by the three text agents: the prompt-store path and
    its fallback call. *)
Lemma adds_with_fallback (n : nat) self lf default_id name class vars :
  adds_at_most is_completion (S (S n))
    (try_except
       (generate_with_langfuse self lf default_id name class vars)
       (fun _ => call_generate (llm_client self) (by_prompt_variables vars))).
Proof.
  apply (adds_try_except _ 1 (S n)); [apply adds_generate_with_langfuse|intros ?].
  apply adds_call_generate.
Qed.

Lemma adds_decide self vars :
  adds_at_most is_completion 2 (MasterOrchestrator.decide self vars).
Proof.
  unfold MasterOrchestrator.decide.
  apply (adds_bind _ 0); [apply adds_langfuse_prompt_enabled|intros [lf|]].
  - apply adds_with_fallback.
  - apply (adds_bind _ 0); [adds_leaf|intros ?]. apply adds_call_generate.
Qed.

Lemma adds_ask self vars :
  adds_at_most is_completion 2 (ClarificationAgent.ask self vars).
Proof.
  unfold ClarificationAgent.ask.
  apply (adds_bind _ 0); [apply adds_langfuse_prompt_enabled|intros [lf|]].
  - apply adds_with_fallback.
  - apply adds_call_generate.
Qed.

Lemma adds_synthesize self vars :
  adds_at_most is_completion 2 (AnswerSynthesisAgent.synthesize self vars).
Proof.
  unfold AnswerSynthesisAgent.synthesize.
  apply (adds_bind _ 0); [apply adds_langfuse_prompt_enabled|intros [lf|]].
  - apply adds_with_fallback.
  - apply adds_call_generate.
Qed.

Lemma adds_increment_iteration (n : nat) : adds_at_most is_completion n increment_iteration.
Proof. unfold increment_iteration. adds_leaf. Qed.

Lemma adds_append_message (n : nat) (m : message) :
  adds_at_most is_completion n (append_message m).
Proof. unfold append_message. adds_leaf. Qed.

Lemma adds_assign_context (n : nat) f :
  adds_at_most is_completion n (ResearchSupervisor.assign_context f).
Proof. unfold ResearchSupervisor.assign_context. adds_leaf. Qed.

Ltac adds_quiet :=
  repeat first [ adds_leaf
               | apply adds_increment_iteration
               | apply adds_append_message
               | apply adds_assign_context
               | apply adds_call_trace_generation
               | apply (adds_bind _ 0); [|intros ?]
               | apply (adds_try_except _ 0); [|intros ?] ].

Lemma adds_orchestrator (self : agent_self) :
  adds_at_most is_completion 2 (MasterOrchestrator.execute upper self).
Proof.
  unfold MasterOrchestrator.execute.
  apply (adds_bind _ 0); [adds_leaf|intros w]. cbv zeta.
  destruct (clarification_count (state w) >=? MasterOrchestrator.max_clarifications self).
  { unfold MasterOrchestrator.layer1. adds_quiet. }
  apply (adds_bind _ 0).
  { destruct (Z.of_nat _ >=? 2); [|adds_leaf].
    apply (adds_bind _ 0); [unfold MasterOrchestrator.follow_up_detected; adds_quiet|].
    intros [|]; [unfold MasterOrchestrator.layer2|]; adds_quiet. }
  intros [|]; [adds_leaf|].
  unfold MasterOrchestrator.layer3.
  apply (adds_bind _ 0); [adds_leaf|intros current]. cbv zeta.
  apply (adds_try_except _ 2 0).
  - apply (adds_bind _ 2 0); [apply adds_decide|intros decision].
    destruct (contains "CLARIFICATION" (upper decision)); adds_quiet.
  - intros e. adds_quiet.
Qed.

Lemma adds_clarification (self : agent_self) :
  adds_at_most is_completion 2 (ClarificationAgent.execute self).
Proof.
  unfold ClarificationAgent.execute.
  apply (adds_bind _ 0); [adds_leaf|intros w]. cbv zeta.
  apply (adds_bind _ 0); [adds_leaf|intros current].
  apply (adds_try_except _ 2 0).
  - apply (adds_bind _ 2 0); [apply adds_ask|intros text]. adds_quiet.
  - intros e. adds_quiet.
Qed.

Lemma adds_synthesis (self : agent_self) :
  adds_at_most is_completion 2 (AnswerSynthesisAgent.execute self).
Proof.
  unfold AnswerSynthesisAgent.execute.
  apply (adds_bind _ 0); [adds_leaf|intros w]. cbv zeta.
  apply (adds_try_except _ 2 0).
  - apply (adds_bind _ 2 0); [apply adds_synthesize|intros text]. adds_quiet.
  - intros e. adds_quiet.
Qed.

Lemma adds_research (self : ResearchSupervisor.t) :
  adds_at_most is_completion 1 (ResearchSupervisor.execute self).
Proof.
  unfold ResearchSupervisor.execute.
  apply (adds_try_except _ 1 0).
  - apply (adds_bind _ 0); [adds_leaf|intros w]. cbv zeta.
    apply (adds_bind _ 1 0).
    + unfold ResearchSupervisor.call_agent_invoke.
      apply (adds_bind _ 0); [adds_leaf|intros w1].
      apply (adds_bind _ 1 0); [|intros ?; adds_leaf].
      apply adds_record_call. cbn. lia.
    + intros result_messages.
      destruct (ResearchSupervisor.extract_tool_calls result_messages) as [obs hist].
      apply (adds_bind _ 0); [adds_quiet|intros ?].
      apply (adds_bind _ 0); [adds_quiet|intros ?].
      apply (adds_bind _ 0); [adds_quiet|intros last_msg].
      apply (adds_bind _ 0); [adds_quiet|intros ?].
      apply (adds_bind _ 0).
      { destruct (ResearchSupervisor.langfuse_client self); adds_quiet. }
      intros ?. apply (adds_bind _ 0).
      { destruct (find_first _ _); adds_quiet. }
      intros ?. adds_quiet.
  - intros e. adds_quiet.
Qed.

Lemma adds_write_channels (n : nat) : adds_at_most is_completion n AgentWorkflow.write_channels.
Proof. unfold AgentWorkflow.write_channels. adds_leaf. Qed.

Lemma adds_bind_lift {A B} (n : nat) (r : result A) (k : A -> M world B) :
  (forall a, r = Ok a -> adds_at_most is_completion n (k a)) ->
  adds_at_most is_completion n (bind (lift r) k).
Proof.
  intros Hk. destruct r as [a|e].
  - intros w. unfold bind, lift. apply (Hk a eq_refl).
  - apply adds_nothing. reflexivity.
Qed.

Lemma path_map_targets (key : string) (m : AgentWorkflow.node) :
  AgentWorkflow.lookup key AgentWorkflow.path_map = Some m ->
  m = AgentWorkflow.Clarification \/ m = AgentWorkflow.Research.
Proof.
  unfold AgentWorkflow.path_map. cbn [AgentWorkflow.lookup].
  destruct (String.eqb "clarification" key); [intros [= <-]; left; reflexivity|].
  destruct (String.eqb "research" key); [intros [= <-]; right; reflexivity|].
  discriminate.
Qed.

Lemma adds_put_checkpoint (saver : AgentWorkflow.RedisSaver) (thread_id : string) :
  adds_at_most is_completion 0 (AgentWorkflow.put_checkpoint saver thread_id).
Proof.
  unfold AgentWorkflow.put_checkpoint.
  apply (adds_bind _ 0); [adds_leaf|intros w]. cbv zeta.
  apply (adds_bind _ 0); [adds_leaf|intros ?]. adds_leaf.
Qed.

(** The run from a node: the node, the write-back, the edge, the saving. *)
Lemma adds_traverse_step (self : AgentWorkflow.t) (save : M world unit) (n m : nat)
    (node : AgentWorkflow.node) (fuel : nat) :
  adds_at_most is_completion 0 save ->
  adds_at_most is_completion n (AgentWorkflow.node_action upper self node) ->
  (forall s next,
      AgentWorkflow.next_target node s = Ok (AgentWorkflow.to_node next) ->
      adds_at_most is_completion m (AgentWorkflow.traverse upper self save fuel next)) ->
  adds_at_most is_completion (n + m) (AgentWorkflow.traverse upper self save (S fuel) node).
Proof.
  intros Hsave Hnode Hnext. cbn [AgentWorkflow.traverse].
  apply adds_bind; [exact Hnode|intros ?].
  apply (adds_bind _ 0); [apply adds_write_channels|intros ?].
  apply (adds_bind _ 0); [adds_leaf|intros w].
  apply adds_bind_lift. intros target Htarget.
  apply (adds_bind _ 0); [exact Hsave|intros ?].
  destruct target as [next|]; [|adds_leaf].
  apply (adds_weaken _ (m + 0)); [lia|].
  apply adds_bind; [|intros ?; adds_leaf].
  apply (Hnext (state w) next Htarget).
Qed.

Lemma adds_traverse_synthesis (self : AgentWorkflow.t) (save : M world unit)
    (fuel : nat) :
  adds_at_most is_completion 0 save ->
  adds_at_most is_completion 2
    (AgentWorkflow.traverse upper self save fuel AgentWorkflow.Synthesis).
Proof.
  intros Hsave. destruct fuel as [|fuel]; [apply adds_raise|].
  apply (adds_traverse_step self save 2 0); [exact Hsave|apply adds_synthesis|].
  intros s next Htarget. discriminate Htarget.
Qed.

Lemma adds_traverse_clarification (self : AgentWorkflow.t) (save : M world unit)
    (fuel : nat) :
  adds_at_most is_completion 0 save ->
  adds_at_most is_completion 2
    (AgentWorkflow.traverse upper self save fuel AgentWorkflow.Clarification).
Proof.
  intros Hsave. destruct fuel as [|fuel]; [apply adds_raise|].
  apply (adds_traverse_step self save 2 0); [exact Hsave|apply adds_clarification|].
  intros s next Htarget. discriminate Htarget.
Qed.

Lemma adds_traverse_research (self : AgentWorkflow.t) (save : M world unit)
    (fuel : nat) :
  adds_at_most is_completion 0 save ->
  adds_at_most is_completion 3
    (AgentWorkflow.traverse upper self save fuel AgentWorkflow.Research).
Proof.
  intros Hsave. destruct fuel as [|fuel]; [apply adds_raise|].
  apply (adds_traverse_step self save 1 2); [exact Hsave|apply adds_research|].
  intros s next [= <-]. apply adds_traverse_synthesis. exact Hsave.
Qed.

Lemma adds_traverse_orchestrator (self : AgentWorkflow.t) (save : M world unit)
    (fuel : nat) :
  adds_at_most is_completion 0 save ->
  adds_at_most is_completion 5
    (AgentWorkflow.traverse upper self save fuel AgentWorkflow.Orchestrator).
Proof.
  intros Hsave. destruct fuel as [|fuel]; [apply adds_raise|].
  apply (adds_traverse_step self save 2 3); [exact Hsave|apply adds_orchestrator|].
  intros s next Htarget. cbn [AgentWorkflow.next_target] in Htarget.
  destruct (AgentWorkflow.lookup _ _) as [m|] eqn:Hlookup; [|discriminate].
  injection Htarget as ->.
  destruct (path_map_targets _ _ Hlookup) as [-> | ->].
  - apply (adds_weaken _ 2 3); [lia|apply adds_traverse_clarification; exact Hsave].
  - apply adds_traverse_research. exact Hsave.
Qed.

Lemma calls_finish (r : result (list AgentWorkflow.node) * world) :
  snd (AgentWorkflow.finish r) = calls (snd r).
Proof. destruct r as [[trace|e] w]; reflexivity. Qed.

(** X15: whatever the ports and the checkpoint store answer, one turn records
    at most five calls of the model: at most two completions by the
    orchestrator, then at most two by the clarification agent, or one
    invocation of the tool loop and at most two completions by the synthesis
    agent. Every call recorded before the turn is kept, also when the turn
    raises. *)
Theorem turn_calls_the_model_at_most_five_times (self : AgentWorkflow.t)
    (config : option string) (input : AgentState) (h : history) :
  (exists added : history,
      snd (AgentWorkflow.invoke upper self config input h) = (h ++ added)%list
      /\ (count_calls is_completion added <= 5)%nat)
  /\ adds_at_most is_completion 2
       (MasterOrchestrator.execute upper (AgentWorkflow.orchestrator self))
  /\ adds_at_most is_completion 2
       (ClarificationAgent.execute (AgentWorkflow.clarification self))
  /\ adds_at_most is_completion 1
       (ResearchSupervisor.execute (AgentWorkflow.research self))
  /\ adds_at_most is_completion 2
       (AnswerSynthesisAgent.execute (AgentWorkflow.synthesis self)).
Proof.
  split; [|repeat split].
  - unfold AgentWorkflow.invoke, AgentWorkflow.entry_point.
    destruct (AgentWorkflow.checkpointer self) as [saver|].
    + destruct config as [thread_id|].
      2:{ exists []. rewrite app_nil_r. split; [reflexivity|]. cbn. lia. }
      destruct (AgentWorkflow.saver_get_state saver h thread_id) as [saved|e].
      2:{ exists [ev_checkpoint_get thread_id false]. split; [reflexivity|]. cbn. lia. }
      cbv zeta. rewrite calls_finish.
      assert (Hturn : adds_at_most is_completion (0 + 5)
                        (AgentWorkflow.put_checkpoint saver thread_id ;;
                         AgentWorkflow.run_saving upper self saver thread_id
                           AgentWorkflow.recursion_limit AgentWorkflow.Orchestrator)).
      { apply adds_bind; [apply adds_put_checkpoint|intros ?].
        apply adds_traverse_orchestrator. apply adds_put_checkpoint. }
      destruct (Hturn (World (AgentWorkflow.map_input saved input)
                         (h ++ [ev_checkpoint_get thread_id (is_ok (Ok saved))])%list))
        as (added & Hcalls & Hcount).
      exists ([ev_checkpoint_get thread_id true] ++ added)%list.
      split; [rewrite Hcalls, app_assoc; reflexivity|].
      rewrite count_calls_app. cbn in *. lia.
    + rewrite calls_finish.
      destruct (adds_traverse_orchestrator self (ret tt) AgentWorkflow.recursion_limit
                  (adds_ret is_completion 0 tt)
                  (World (AgentWorkflow.map_input None input) h))
        as (added & Hcalls & Hcount).
      exists added. split; [exact Hcalls|exact Hcount].
  - apply adds_orchestrator.
  - apply adds_clarification.
  - apply adds_research.
  - apply adds_synthesis.
Qed.

(** ** A tracer that fails after the completion *)

Lemma call_generate_eval (llm : BaseLLM) (arg : generate_arg) (w : world) :
  call_generate llm arg w
  = (generate llm (calls w) arg,
     World (state w)
       (calls w ++ [ev_generate (completion_model llm) arg
                      (is_ok (generate llm (calls w) arg))])%list).
Proof.
  unfold call_generate, bind, read, record_call, modify, lift. reflexivity.
Qed.

(** X16: when the clarification agent uses the prompt store and the store's
    template is fetched, compiled and completed but recording the trace
    raises, the completed text is thrown away: the Completion port is called a
    second time, with the prompt variables, and the question sent to the user
    is the result of that second call, or the fixed fallback question when it
    raises. *)
Theorem failed_trace_repeats_the_completion (self : agent_self) (w : world)
    (lf : LangfuseClient) (pc : prompt_config_t)
    (front : list message) (current : message)
    (prompt : prompt_object) (compiled out : string) (e : exn)
    (Hclient : langfuse_client self = Some lf)
    (Hconfig : cfg_prompt (agent_config self) = Some pc)
    (Hprovider : provider pc = Some "langfuse")
    (Hwindow : limit_history (ClarificationAgent.max_history self) (messages (state w))
               = (front ++ [current])%list) :
  let vars := [("query", content current); ("history", _format_history front)] in
  let name := get_or (prompt_id pc) "clarification" in
  let label := get_or (environment pc) "dev" in
  let model := completion_model (llm_client self) in
  let h1 := (calls w ++ [ev_get_prompt name (prompt_version pc) label true])%list in
  let h2 := (h1 ++ [ev_compile vars true])%list in
  let h3 := (h2 ++ [ev_generate model (by_prompt compiled) true])%list in
  let call :=
    {| trace_name := ClarificationAgent.agent_name self;
       trace_input_data := input_variables vars;
       trace_output := out;
       trace_model := model;
       trace_metadata := [("agent", meta_str "ClarificationAgent")];
       trace_session_id := session_id (state w) |} in
  let h4 := (h3 ++ [ev_trace_generation call false])%list in
  let second := generate (llm_client self) h4 (by_prompt_variables vars) in
  get_prompt lf (calls w) name (prompt_version pc) label = Ok prompt ->
  prompt_compile prompt vars = Ok compiled ->
  generate (llm_client self) h2 (by_prompt compiled) = Ok out ->
  trace_generation lf h3 call = Raise e ->
  ClarificationAgent.execute self w
  = (Ok tt,
     World (clarified (match second with
                       | Ok text => text
                       | Raise _ => ClarificationAgent.fallback
                       end) (state w))
       (h4 ++ [ev_generate model (by_prompt_variables vars) (is_ok second)])%list).
Proof.
  intros vars name label model h1 h2 h3 call h4 second Hprompt Hcompile Hgenerate Htrace.
  unfold ClarificationAgent.execute.
  unfold bind at 1. unfold read at 1. unfold bind at 1. unfold lift at 1.
  rewrite Hwindow, item_last.
  unfold all_but_last. rewrite removelast_last. fold vars.
  unfold try_except at 1. unfold bind at 1.
  unfold ClarificationAgent.ask. unfold bind at 1.
  unfold langfuse_prompt_enabled. rewrite Hclient.
  unfold bind at 1. rewrite Hconfig. cbn [prompt_config_get lift].
  rewrite Hprovider. cbn [option_string_eqb String.eqb Ascii.eqb Bool.eqb andb ret].
  assert (Hstore :
            generate_with_langfuse self lf "clarification"
              (ClarificationAgent.agent_name self) "ClarificationAgent" vars w
            = (Raise e, World (state w) h4)).
  { unfold generate_with_langfuse.
    unfold bind at 1. rewrite Hconfig. cbn [prompt_config_get lift].
    unfold bind at 1. cbn [lift]. unfold bind at 1. cbn [lift].
    unfold bind at 1. unfold call_get_prompt at 1.
    unfold bind at 1, read at 1. fold name. fold label. rewrite Hprompt.
    unfold bind at 1, record_call at 1, modify at 1. cbn [is_ok lift state calls].
    fold h1.
    unfold bind at 1. unfold call_compile at 1. rewrite Hcompile.
    unfold bind at 1, record_call at 1, modify at 1. cbn [is_ok lift state calls].
    fold h2.
    unfold bind at 1. unfold call_generate at 1.
    unfold bind at 1, read at 1. cbn [state calls]. rewrite Hgenerate.
    unfold bind at 1, record_call at 1, modify at 1. cbn [is_ok lift state calls].
    fold model. fold h3.
    unfold bind at 1, read at 1. unfold bind at 1.
    unfold call_trace_generation. unfold bind at 1, read at 1. cbn [state calls].
    fold call. rewrite Htrace.
    unfold bind at 1, record_call at 1, modify at 1. cbn [is_ok lift state calls].
    reflexivity. }
  unfold try_except at 1. rewrite Hstore.
  rewrite call_generate_eval. cbn [state calls]. fold second. fold model.
  destruct second as [text|e2]; cbn [is_ok]; reflexivity.
Qed.

(** ** The checkpointer a workflow is built with *)

Lemma init_checkpointer_eval (redis_client : option WorkflowInit.redis_client_t) :
  WorkflowInit.init_checkpointer redis_client
  = match redis_client with
    | None => None
    | Some client =>
        match WorkflowInit.new_saver client with
        | Ok saver => Some saver
        | Raise _ => None
        end
    end.
Proof.
  unfold WorkflowInit.init_checkpointer, WorkflowInit.set_up_checkpointer.
  destruct redis_client as [client|]; [|reflexivity].
  unfold bind, modify, try_except, lift, ret.
  destruct (WorkflowInit.new_saver client) as [saver|e]; [|reflexivity].
  destruct (WorkflowInit.saver_setup client saver) as [[]|e]; reflexivity.
Qed.

(** X17: [__init__] leaves the workflow without a checkpointer exactly when
    no Redis client is given or constructing the saver raises. When the saver
    is constructed and its [setup()] raises, the saver stays in place although
    the failure is caught: the thread operations of such a workflow do not
    raise "Checkpointer not initialized" but go to that saver. *)
Theorem failed_setup_keeps_the_checkpointer :
  (forall redis_client : option WorkflowInit.redis_client_t,
      WorkflowInit.init_checkpointer redis_client = None
      <-> (redis_client = None
           \/ exists client e,
                redis_client = Some client /\ WorkflowInit.new_saver client = Raise e))
  /\ (forall (self : AgentWorkflow.t) (client : WorkflowInit.redis_client_t)
             (saver : AgentWorkflow.RedisSaver) (e : exn)
             (thread_id : string) (h : history),
        AgentWorkflow.checkpointer self = WorkflowInit.init_checkpointer (Some client) ->
        WorkflowInit.new_saver client = Ok saver ->
        WorkflowInit.saver_setup client saver = Raise e ->
        AgentWorkflow.checkpointer self = Some saver
        /\ AgentWorkflow.get_thread_state self thread_id h
           = (AgentWorkflow.saver_get_state saver h thread_id,
              (h ++ [ev_checkpoint_get thread_id
                       (is_ok (AgentWorkflow.saver_get_state saver h thread_id))])%list)
        /\ AgentWorkflow.delete_thread self thread_id h
           = (AgentWorkflow.saver_delete_thread saver h thread_id,
              (h ++ [ev_checkpoint_delete thread_id
                       (is_ok (AgentWorkflow.saver_delete_thread saver h thread_id))])%list)).
Proof.
  split.
  - intros redis_client. rewrite init_checkpointer_eval. split.
    + destruct redis_client as [client|]; [|left; reflexivity].
      destruct (WorkflowInit.new_saver client) as [saver|e] eqn:Hnew; [discriminate|].
      intros _. right. exists client, e. split; [reflexivity|exact Hnew].
    + intros [->|(client & e & -> & ->)]; reflexivity.
  - intros self client saver e thread_id h Hbuilt Hnew Hsetup.
    rewrite init_checkpointer_eval, Hnew in Hbuilt.
    split; [exact Hbuilt|].
    unfold AgentWorkflow.get_thread_state, AgentWorkflow.delete_thread.
    rewrite Hbuilt.
    unfold bind, read, AgentWorkflow.record_store_call, modify, lift.
    split; reflexivity.
Qed.

(** ** The document retriever *)

Lemma to_document_loop (hits : list DocumentRetriever.hit) (acc : list document) :
  fold_left (fun acc result => (acc ++ [DocumentRetriever.to_document result])%list) hits acc
  = (acc ++ map DocumentRetriever.to_document hits)%list.
Proof.
  revert acc. induction hits as [|hit hits IH]; intros acc; cbn [fold_left map].
  - rewrite app_nil_r. reflexivity.
  - rewrite IH, <- app_assoc. reflexivity.
Qed.

Lemma retrieve_blank (self : DocumentRetriever.t) (query : string) (top_k : Z)
    (filter : option (list (string * string))) (h : list DocumentRetriever.call) :
  DocumentRetriever.blank strip query = true ->
  DocumentRetriever.retrieve strip self query top_k filter h
  = (Raise (ValueError "Query cannot be empty"), h).
Proof.
  intros Hblank. unfold DocumentRetriever.retrieve. rewrite Hblank. reflexivity.
Qed.

Lemma retrieve_not_blank (self : DocumentRetriever.t) (query : string) (top_k : Z)
    (filter : option (list (string * string))) (h : list DocumentRetriever.call) :
  DocumentRetriever.blank strip query = false ->
  DocumentRetriever.retrieve strip self query top_k filter h
  = let h1 := (h ++ [DocumentRetriever.embed_call [query]
                       (is_ok (DocumentRetriever.embed self h [query]))])%list in
    match DocumentRetriever.embed self h [query] with
    | Raise e => (Raise e, h1)
    | Ok [] => (Raise (IndexError "list index out of range"), h1)
    | Ok (vector :: _) =>
        let r := DocumentRetriever.search self h1 vector top_k filter in
        (match r with
         | Ok hits => Ok (map DocumentRetriever.to_document hits)
         | Raise e => Raise e
         end,
         (h1 ++ [DocumentRetriever.search_call vector top_k (is_ok r)])%list)
    end.
Proof.
  intros Hblank. unfold DocumentRetriever.retrieve. rewrite Hblank.
  cbv zeta.
  cbv [try_except bind DocumentRetriever.call_embed DocumentRetriever.call_search
       read modify lift ret raise].
  destruct (DocumentRetriever.embed self h [query]) as [[|vector rest]|e];
    cbn [is_ok]; try reflexivity.
  change (item (vector :: rest) 0) with (Ok vector).
  cbv beta iota.
  destruct (DocumentRetriever.search self
              (h ++ [DocumentRetriever.embed_call [query] true])%list vector top_k filter)
    as [hits|e]; cbn [is_ok]; [|reflexivity].
  rewrite to_document_loop. reflexivity.
Qed.

(** X18: [retrieve] rejects a query that is empty, or that [str.strip()]
    leaves empty, with [ValueError("Query cannot be empty")] before it calls
    the embedding model or the vector store; the empty query is rejected
    whatever [strip] would make of it. For any other query it embeds the query
    once; an embedding failure is raised again and an empty list of embeddings
    is an [IndexError], both without a search; otherwise it searches once with
    the first embedding, raises a search failure again, and on success returns
    one document per hit, in the order of the hits, a missing text, source,
    page or score replaced by "", "unknown", 0 and 0.0. *)
Theorem retrieve_outcomes (self : DocumentRetriever.t) (query : string) (top_k : Z)
    (filter : option (list (string * string))) (h : list DocumentRetriever.call) :
  (query = "" \/ strip query = "" <-> DocumentRetriever.blank strip query = true)
  /\ (DocumentRetriever.blank strip query = true ->
      DocumentRetriever.retrieve strip self query top_k filter h
      = (Raise (ValueError "Query cannot be empty"), h))
  /\ (DocumentRetriever.blank strip query = false ->
      let embedded := DocumentRetriever.embed self h [query] in
      let h1 := (h ++ [DocumentRetriever.embed_call [query] (is_ok embedded)])%list in
      match embedded with
      | Raise e =>
          DocumentRetriever.retrieve strip self query top_k filter h = (Raise e, h1)
      | Ok [] =>
          DocumentRetriever.retrieve strip self query top_k filter h
          = (Raise (IndexError "list index out of range"), h1)
      | Ok (vector :: _) =>
          match DocumentRetriever.search self h1 vector top_k filter with
          | Raise e =>
              DocumentRetriever.retrieve strip self query top_k filter h
              = (Raise e, (h1 ++ [DocumentRetriever.search_call vector top_k false])%list)
          | Ok hits =>
              exists documents : list document,
                DocumentRetriever.retrieve strip self query top_k filter h
                = (Ok documents,
                   (h1 ++ [DocumentRetriever.search_call vector top_k true])%list)
                /\ List.length documents = List.length hits
                /\ forall (i : nat) (hit : DocumentRetriever.hit),
                     nth_error hits i = Some hit ->
                     nth_error documents i
                     = Some {| doc_text := get_or (DocumentRetriever.hit_text hit) "";
                               doc_source :=
                                 match DocumentRetriever.hit_metadata_of hit with
                                 | Some m => get_or (DocumentRetriever.meta_source m) "unknown"
                                 | None => "unknown"
                                 end;
                               doc_page :=
                                 match DocumentRetriever.hit_metadata_of hit with
                                 | Some m => get_or (DocumentRetriever.meta_page m) 0
                                 | None => 0
                                 end;
                               doc_score :=
                                 get_or (DocumentRetriever.hit_score hit) 0.0%float |}
          end
      end).
Proof.
  split; [|split; [apply retrieve_blank|]].
  { unfold DocumentRetriever.blank, truthy. split.
    - intros [-> | ->]; [reflexivity|]. apply orb_true_r.
    - destruct query as [|c s]; [left; reflexivity|].
      destruct (strip (String c s)); [right; reflexivity|discriminate]. }
  intros Hblank. cbv zeta.
  rewrite (retrieve_not_blank self query top_k filter h Hblank). cbv zeta.
  destruct (DocumentRetriever.embed self h [query]) as [[|vector rest]|e];
    cbn [is_ok]; try reflexivity.
  destruct (DocumentRetriever.search self _ vector top_k filter) as [hits|e];
    cbn [is_ok]; [|reflexivity].
  exists (map DocumentRetriever.to_document hits).
  split; [reflexivity|]. split; [apply length_map|].
  intros i hit Hhit. rewrite nth_error_map, Hhit. cbn [option_map].
  unfold DocumentRetriever.to_document, DocumentRetriever.metadata_or_empty.
  destruct (DocumentRetriever.hit_metadata_of hit); reflexivity.
Qed.

(** X19: a [PDFRetrievalTool] reading through the document retriever does not
    catch the retriever's rejection: on a query that is empty, or that
    [str.strip()] leaves empty, it raises [ValueError("Query cannot be
    empty")]. On another query whose embedding and search return, it returns a
    text, and a hit the vector store gave no score counts as scoring 0.0: with
    a threshold that is not negative it is never among the documents shown. *)
Theorem pdf_tool_over_the_retriever
    (format_2f float_str : float -> string)
    (retriever : DocumentRetriever.t) (minimum : float)
    (query : string) (h : history) :
  let tool := pdf_tool_over strip retriever minimum in
  (DocumentRetriever.blank strip query = true ->
   PDFRetrievalTool._run format_2f float_str tool query h
   = (Raise (ValueError "Query cannot be empty"), (h ++ [ev_retrieve query 5 false])%list))
  /\ (forall (vector : DocumentRetriever.embedding)
             (vectors : list DocumentRetriever.embedding)
             (hits : list DocumentRetriever.hit),
        DocumentRetriever.blank strip query = false ->
        DocumentRetriever.embed retriever [] [query] = Ok (vector :: vectors) ->
        DocumentRetriever.search retriever [DocumentRetriever.embed_call [query] true]
          vector 5 None = Ok hits ->
        let shown :=
          PDFRetrievalTool.filter_documents tool (map DocumentRetriever.to_document hits) in
        exists out : string,
          PDFRetrievalTool._run format_2f float_str tool query h
          = (Ok out, (h ++ [ev_retrieve query 5 true])%list)
          /\ out = match shown with
                   | [] => PDFRetrievalTool.no_relevant_documents float_str tool
                   | _ :: _ =>
                       join PDFRetrievalTool.newline
                         (map (PDFRetrievalTool.format_document format_2f)
                            (PDFRetrievalTool.enumerate 1 shown))
                   end
          /\ (PrimFloat.ltb minimum 0.0%float = false ->
              forall hit,
                In hit hits ->
                DocumentRetriever.hit_score hit = None ->
                ~ In (DocumentRetriever.to_document hit) shown)).
Proof.
  cbv zeta. split.
  - intros Hblank.
    unfold PDFRetrievalTool._run, PDFRetrievalTool.call_retrieve.
    cbv [bind read modify lift].
    cbn [PDFRetrievalTool.retrieve pdf_tool_over]. unfold retriever_of.
    rewrite (retrieve_blank retriever query 5 None [] Hblank). reflexivity.
  - intros vector vectors hits Hblank Hembed Hsearch.
    assert (Hret : PDFRetrievalTool.retrieve (pdf_tool_over strip retriever minimum)
                     h query 5
                   = Ok (map DocumentRetriever.to_document hits)).
    { cbn [PDFRetrievalTool.retrieve pdf_tool_over]. unfold retriever_of.
      rewrite (retrieve_not_blank retriever query 5 None [] Hblank). cbv zeta.
      rewrite Hembed. cbn [is_ok app]. rewrite Hsearch. reflexivity. }
    eexists. split; [|split; [reflexivity|]].
    + unfold PDFRetrievalTool._run, PDFRetrievalTool.call_retrieve.
      cbv [bind read modify lift ret]. rewrite Hret. cbn [is_ok].
      destruct (PDFRetrievalTool.filter_documents _ _); reflexivity.
    + intros Hminimum hit Hin Hscore Hshown.
      unfold PDFRetrievalTool.filter_documents in Hshown.
      apply filter_In in Hshown as [_ Hpass].
      cbn [PDFRetrievalTool.min_similarity_score pdf_tool_over] in Hpass.
      unfold DocumentRetriever.to_document in Hpass. cbn [doc_score] in Hpass.
      rewrite Hscore in Hpass. cbn [get_or] in Hpass. congruence.
Qed.

End Properties.

(* ===================================================================== *)
(** * Concrete runs                                                     *)
(* ===================================================================== *)

Lemma confidence_score_steps_witness :
  AnswerSynthesisAgent._calculate_confidence [] = 0.0%float /\
  AnswerSynthesisAgent._calculate_confidence ["Used tool: pdf_retrieval"] = 0.6%float /\
  AnswerSynthesisAgent._calculate_confidence
    ["Used tool: pdf_retrieval"; "Used tool: web_search"] = 0.8%float /\
  AnswerSynthesisAgent._calculate_confidence ["a"; "b"; "c"; "d"] = 0.95%float /\
  PrimFloat.leb (AnswerSynthesisAgent._calculate_confidence ["a"])
                (AnswerSynthesisAgent._calculate_confidence ["a"; "b"; "c"]) = true.
Proof.
  destruct confidence_score_steps as (H0 & H1 & H2 & H3 & Hm).
  split; [apply H0; reflexivity|].
  split; [apply H1; reflexivity|].
  split; [apply H2; reflexivity|].
  split; [apply H3; simpl; lia|].
  apply Hm; simpl; lia.
Defined.

Lemma thread_operations_without_store_witness :
  AgentWorkflow.thread_exists workflow_without_store "session-123" [] = (Ok false, [])
  /\ AgentWorkflow.get_thread_state workflow_without_store "session-123" []
     = (Raise (ValueError "Checkpointer not initialized. Cannot retrieve thread state."), [])
  /\ AgentWorkflow.delete_thread workflow_without_store "session-123" []
     = (Raise (ValueError "Checkpointer not initialized. Cannot delete thread."), []).
Proof.
  apply (thread_operations_without_store workflow_without_store "session-123" []).
  reflexivity.
Defined.

Lemma pdf_retrieval_filters_by_score_witness :
  exists out : string,
    PDFRetrievalTool._run show_float show_float (sample_tool low_score_documents)
      "text-to-SQL accuracy" []
      = (Ok out, [ev_retrieve "text-to-SQL accuracy" 5 true])
    /\ out = PDFRetrievalTool.no_relevant_documents show_float
               (sample_tool low_score_documents)
    /\ out <> "".
Proof.
  destruct (pdf_retrieval_filters_by_score show_float show_float
              (sample_tool low_score_documents) "text-to-SQL accuracy" []
              low_score_documents eq_refl)
    as (out & Hrun & _ & _ & _ & Hnone & _).
  exists out. split; [exact Hrun|].
  destruct Hnone as (Hout & _ & Hne).
  - intros doc [<-|[<-|[]]]; reflexivity.
  - split; assumption.
Defined.

Lemma counter_guard_forces_research_witness :
  exists s' : AgentState,
    MasterOrchestrator.execute ascii_upper (plain_agent failing_llm default_agent_config)
      (World (set_clarification_count 2
                (create_initial_state [HumanMessage "Tell me more about it"] "session-123"))
             [])
    = (Ok tt, World s' [])
    /\ next_agent s' = "research"
    /\ clarification_count s' = 0
    /\ iteration s' = 1.
Proof.
  destruct ((counter_guard_forces_research ascii_upper)
              (plain_agent failing_llm default_agent_config)
              (World (set_clarification_count 2
                        (create_initial_state [HumanMessage "Tell me more about it"]
                           "session-123")) []))
    as (s' & Hrun & Hnext & Hcount & _ & Hiter & _).
  - vm_compute. discriminate.
  - exists s'. repeat split; assumption.
Defined.

Lemma follow_up_guard_forces_research_witness :
  exists s' : AgentState,
    MasterOrchestrator.execute ascii_upper (plain_agent failing_llm default_agent_config)
      (World follow_up_state []) = (Ok tt, World s' [])
    /\ next_agent s' = "research"
    /\ clarification_count s' = 0
    /\ iteration s' = 2.
Proof.
  destruct ((follow_up_guard_forces_research ascii_upper)
              (plain_agent failing_llm default_agent_config)
              (World follow_up_state [])
              [HumanMessage "Tell me more about it"]
              (AIMessage "Which paper do you mean?")
              (HumanMessage "The Spider paper"))
    as (s' & Hrun & Hnext & Hcount & _ & Hiter & _).
  - vm_compute. reflexivity.
  - reflexivity.
  - reflexivity.
  - reflexivity.
  - reflexivity.
  - exists s'. repeat split; assumption.
Defined.

Lemma research_appends_only_final_answer_witness :
  (exists (s' : AgentState) (h' : history) (appended : message),
      ResearchSupervisor.execute scripted_research (World first_turn_state [])
      = (Ok tt, World s' h')
      /\ messages s' = (messages first_turn_state ++ [appended])%list
      /\ last_agent s' = Some "research")
  /\ (exists (s' : AgentState) (h' : history),
        ResearchSupervisor.execute failing_research (World first_turn_state [])
        = (Ok tt, World s' h')
        /\ messages s' = messages first_turn_state
        /\ next_agent s' = "synthesis").
Proof.
  split.
  - destruct (research_appends_only_final_answer scripted_research
                (World first_turn_state [])) as [Hok _].
    destruct (Hok (scripted_loop [HumanMessage "What accuracy does Spider report?"])
                eq_refl)
      as (s' & h' & appended & Hrun & Hmsgs & _ & _ & _ & Hlast & _).
    + discriminate.
    + exists s', h', appended. repeat split; assumption.
  - destruct (research_appends_only_final_answer failing_research
                (World first_turn_state [])) as [_ Hfail].
    destruct Hfail as (s' & h' & Hrun & Hmsgs & _ & Hnext & _).
    + right. eexists. reflexivity.
    + exists s', h'. repeat split; assumption.
Defined.


(** The graph is compiled with the checkpoint store: when the store is down,
    the turn of a non-empty conversation raises what the store raised, before
    any agent runs. *)
Example invoke_raises_when_the_store_is_down :
  AgentWorkflow.invoke ascii_upper failing_store_workflow (Some "session-123")
    first_turn_state []
  = (Raise (PortError "store unavailable"), [ev_checkpoint_get "session-123" false]).
Proof. vm_compute. reflexivity. Qed.

(** A store that raises on the write after the orchestrator's step stops the
    turn there: the orchestrator has called the model, no other agent runs. *)
Example invoke_raises_when_a_write_fails :
  exists asked : event,
    AgentWorkflow.invoke ascii_upper full_store_workflow (Some "session-123")
      first_turn_state []
    = (Raise (PortError "store full"),
       [ev_checkpoint_get "session-123" true; ev_checkpoint_put "session-123" true;
        asked; ev_checkpoint_put "session-123" false])
    /\ is_completion asked = true.
Proof. eexists. split; [vm_compute; reflexivity|reflexivity]. Qed.


(** With a model that answers "CLARIFICATION" to every question and a window
    of one message, two turns ask for clarification and the third is forced
    to research by the counter. *)
Example always_clarifying_model_is_overruled :
  let '(s1, t1) :=
    turn always_clarifying_workflow None
      (create_initial_state [HumanMessage "Tell me more about it"] "session-123") in
  let '(s2, t2) :=
    turn always_clarifying_workflow (Some s1) (continue_conversation s1 "that one") in
  let '(s3, t3) :=
    turn always_clarifying_workflow (Some s2) (continue_conversation s2 "the paper") in
  (t1, clarification_count s1) = ([AgentWorkflow.Orchestrator; AgentWorkflow.Clarification], 1)
  /\ (t2, clarification_count s2)
     = ([AgentWorkflow.Orchestrator; AgentWorkflow.Clarification], 2)
  /\ (t3, clarification_count s3)
     = ([AgentWorkflow.Orchestrator; AgentWorkflow.Research; AgentWorkflow.Synthesis], 0)
  /\ tool_history (context s3) = ["pdf_retrieval"; "web_search"]
  /\ final_answer s3 = Some "Spider reports 85.3% execution accuracy.".
Proof. vm_compute. repeat split. Qed.

(** C4, as stated, fails: on the prompt-store path a completion that raises
    is retried once with a direct call, and when the retry returns, its text
    is the answer. Here the Completion port raised inside the clarification
    agent, and the agent asks the model's question, not the fallback one. *)
Lemma retried_completion_answers :
  exists (s' : AgentState) (h' : history),
    ClarificationAgent.execute retrying_clarification (World first_turn_state [])
    = (Ok tt, World s' h')
    /\ In (ev_generate "gpt-4o-mini" (by_prompt "Ask the user what is unclear.") false) h'
    /\ final_answer s' = Some "Which paper do you mean?"
    /\ final_answer s' <> Some "Could you please provide more details about your question?".
Proof.
  do 2 eexists. split; [vm_compute; reflexivity|].
  split; [right; right; left; reflexivity|]. split; [reflexivity|discriminate].
Qed.

Lemma completion_failure_is_caught_witness :
  (exists (s' : AgentState) (h' : history),
      ClarificationAgent.execute (plain_agent failing_llm default_agent_config)
        (World first_turn_state []) = (Ok tt, World s' h')
      /\ final_answer s'
         = Some "Could you please provide more details about your question?"
      /\ next_agent s' = "END")
  /\ (exists (s' : AgentState) (h' : history),
        AnswerSynthesisAgent.execute (plain_agent failing_llm default_agent_config)
          (World first_turn_state []) = (Ok tt, World s' h')
        /\ final_answer s' = Some "I encountered an error while processing your request."
        /\ confidence_score s' = Some 0.0%float)
  /\ (exists (s' : AgentState) (h' : history),
        AgentWorkflow.run ascii_upper workflow_without_store 2 AgentWorkflow.Research
          (World first_turn_state [])
        = (Ok [AgentWorkflow.Research; AgentWorkflow.Synthesis], World s' h')
        /\ final_answer s' = Some "Unable to complete research due to an error."
        /\ next_agent s' = "END").
Proof.
  destruct (completion_failure_is_caught ascii_upper) as (Hclarify & Hsynth & Hresearch).
  split; [|split].
  - destruct (Hclarify (plain_agent failing_llm default_agent_config)
                (World first_turn_state []))
      as (s' & added & Hrun & _ & Hnext & _ & Hfallback).
    + discriminate.
    + exists s', ([] ++ added)%list. split; [exact Hrun|]. split; [|exact Hnext].
      apply Hfallback.
      vm_compute in Hrun. injection Hrun as _ <-.
      intros e [<-|[]] _. reflexivity.
  - destruct (Hsynth (plain_agent failing_llm default_agent_config)
                (World first_turn_state []))
      as (s' & added & text & Hrun & _ & _ & Htext & Hfallback).
    exists s', ([] ++ added)%list. split; [exact Hrun|].
    assert (Hnone : no_completion_returned added).
    { vm_compute in Hrun. injection Hrun as _ <-.
      intros e [<-|[]] _. reflexivity. }
    destruct (Hfallback Hnone) as (_ & Hanswer & Hconfidence).
    split; [|exact Hconfidence]. rewrite Hanswer, Htext. reflexivity.
  - destruct (Hresearch workflow_without_store (World first_turn_state []) 0%nat)
      as (s' & added & Hrun & _ & Hnext & Hfailed).
    exists s', ([] ++ added)%list. split; [exact Hrun|]. split; [|exact Hnext].
    destruct (Hfailed eq_refl) as (_ & Hanswer). apply Hanswer.
    vm_compute in Hrun. injection Hrun as _ <-.
    intros e [<-|[<-|[]]] _; reflexivity.
Defined.

Lemma turn_keeps_counter_in_range_witness :
  exists (final : AgentState) (trace : list AgentWorkflow.node) (h' : history),
    AgentWorkflow.invoke ascii_upper (over_store always_clarifying_workflow None)
      (Some "session-123") first_turn_state []
    = (Ok (final, trace), h')
    /\ 0 <= clarification_count final <= 2.
Proof.
  destruct (turn_keeps_counter_in_range ascii_upper
              (over_store always_clarifying_workflow None) (Some "session-123")
              first_turn_state [])
    as [Hstopped|(final & trace & h' & Hrun & Hrange & _)].
  - discriminate.
  - vm_compute. discriminate.
  - vm_compute. discriminate.
  - vm_compute. split; discriminate.
  - destruct Hstopped as (saver & Hsaver & e & [(Hread & _)|(front & s & Hput & _)]);
      injection Hsaver as <-; discriminate.
  - exists final, trace, h'. split; [exact Hrun|exact Hrange].
Defined.

Lemma model_decision_routes_witness :
  exists s' : AgentState,
    MasterOrchestrator.execute ascii_upper
      (plain_agent (constant_llm "needs clarification") default_agent_config)
      (World first_turn_state [])
    = (Ok tt,
       World s'
         [ev_generate "gpt-4o-mini"
            (by_prompt_variables
               [("query", "What accuracy does Spider report?");
                ("history", "No previous conversation.")]) true])
    /\ next_agent s' = "clarification"
    /\ clarification_count s' = 1.
Proof.
  destruct (model_decision_routes ascii_upper
              (plain_agent (constant_llm "needs clarification") default_agent_config)
              (World first_turn_state [])
              (HumanMessage "What accuracy does Spider report?"))
    as (s' & _ & _ & Hrun & Hroute); try reflexivity.
  exists s'. split; [exact Hrun|].
  change (next_agent s' = "clarification"
          /\ clarification_count s' = 0 + 1
          /\ clarification_needed s' = true
          /\ missing_context s' = ["Query is vague or ambiguous"]) in Hroute.
  destruct Hroute as (Hnext & Hcount & _). split; assumption.
Defined.

(** The decision is read by looking for the word anywhere in the answer: a
    model that answers "No clarification needed" is routed to clarification. *)
Example incidental_mention_routes_to_clarification :
  exists (s' : AgentState) (h' : history),
    MasterOrchestrator.execute ascii_upper
      (plain_agent (constant_llm "No clarification needed") default_agent_config)
      (World first_turn_state []) = (Ok tt, World s' h')
    /\ next_agent s' = "clarification".
Proof. do 2 eexists. split; [vm_compute; reflexivity|reflexivity]. Qed.

Lemma empty_window_raises_index_error_witness :
  ClarificationAgent.execute (plain_agent failing_llm default_agent_config)
    (World (create_initial_state [] "session-123") [])
  = (Raise (IndexError "list index out of range"),
     World (create_initial_state [] "session-123") [])
  /\ MasterOrchestrator.execute ascii_upper negative_history_orchestrator (World first_turn_state [])
     = (Raise (IndexError "list index out of range"), World first_turn_state []).
Proof.
  split.
  - destruct ((empty_window_raises_index_error ascii_upper)
                (plain_agent failing_llm default_agent_config)
                (World (create_initial_state [] "session-123") [])) as [Hclarify _].
    apply Hclarify. reflexivity.
  - destruct ((empty_window_raises_index_error ascii_upper) negative_history_orchestrator
                (World first_turn_state [])) as [_ Horchestrate].
    apply Horchestrate; reflexivity.
Defined.

Lemma clarification_writes_only_its_answer_witness :
  exists (text : string) (s' : AgentState) (h' : history),
    ClarificationAgent.execute
      (plain_agent (constant_llm "Which paper do you mean?") default_agent_config)
      (World first_turn_state []) = (Ok tt, World s' h')
    /\ final_answer s' = Some text
    /\ iteration s' = 0.
Proof.
  destruct (clarification_writes_only_its_answer
              (plain_agent (constant_llm "Which paper do you mean?") default_agent_config)
              (World first_turn_state []))
    as (text & s' & h' & Hrun & _ & Hanswer & _ & _ & Hiter & _).
  - discriminate.
  - exists text, s', h'. repeat split; assumption.
Defined.

Lemma synthesis_asks_about_first_user_message_witness :
  exists (obs_text : string) (returned : bool) (s' : AgentState),
    AnswerSynthesisAgent.execute
      (plain_agent (constant_llm "Spider reports 85.3%.") default_agent_config)
      (World follow_up_state [])
    = (Ok tt,
       World s'
         [ev_generate "gpt-4o-mini"
            (by_prompt_variables
               [("query", "Tell me more about it"); ("observations", obs_text)])
            returned])
    /\ obs_text = "No observations available.".
Proof.
  destruct (synthesis_asks_about_first_user_message
              (plain_agent (constant_llm "Spider reports 85.3%.") default_agent_config)
              (World follow_up_state []) eq_refl)
    as (query & obs_text & returned & s' & Hrun & Hfirst & _ & Hobs & _).
  rewrite (Hfirst [] (HumanMessage "Tell me more about it")
             [AIMessage "Which paper do you mean?"; HumanMessage "The Spider paper"])
    in Hrun.
  - exists obs_text, returned, s'. split; [exact Hrun|].
    apply Hobs; [reflexivity|left; reflexivity].
  - reflexivity.
  - reflexivity.
  - intros m [].
Defined.


Lemma unknown_thread_is_not_found_witness :
  exists h' : history,
    MemoryRoutes.get_session_history workflow_with_store sample_clock "session-999" []
    = (HTTPException 404 "Session not found: session-999", h')
    /\ MemoryRoutes.clear_session workflow_with_store "session-999" []
       = (HTTPException 404 "Session not found: session-999", h')
    /\ (h' = [] \/ exists b, h' = [ev_checkpoint_list "session-999" b]).
Proof.
  apply (unknown_thread_is_not_found workflow_with_store sample_clock "session-999" []).
  exact I.
Defined.

Lemma session_history_lists_dialogue_witness :
  exists response : MemoryRoutes.SessionHistoryResponse,
    MemoryRoutes.get_session_history workflow_with_store sample_clock "session-123" []
    = (Response response,
       [ev_checkpoint_list "session-123" true; ev_checkpoint_get "session-123" true])
    /\ map (fun m => (MemoryRoutes.role m, MemoryRoutes.message_content m))
         (MemoryRoutes.history_messages response)
       = [("user", "Tell me more about it"); ("assistant", "Which paper do you mean?")]
    /\ MemoryRoutes.history_message_count response = 2.
Proof.
  destruct (session_history_lists_dialogue workflow_with_store sample_clock
              "session-123" [] sample_store stored_state [] stored_state)
    as (response & Hrun & _ & Hroles & _ & Hcount).
  - reflexivity.
  - reflexivity.
  - reflexivity.
  - exists response. split; [exact Hrun|]. split; [exact Hroles|exact Hcount].
Defined.

Lemma clear_session_deletes_once_witness :
  MemoryRoutes.clear_session workflow_with_store "session-123" []
  = (Response {| MemoryRoutes.cleared_message := "Session cleared successfully";
                 MemoryRoutes.cleared_session_id := "session-123" |},
     [ev_checkpoint_list "session-123" true; ev_checkpoint_delete "session-123" true]).
Proof.
  destruct (clear_session_deletes_once workflow_with_store "session-123" []
              sample_store stored_state [])
    as (deleted & Hcalls & Hresult & Hdeleted).
  - reflexivity.
  - reflexivity.
  - rewrite (surjective_pairing
               (MemoryRoutes.clear_session workflow_with_store "session-123" [])).
    rewrite Hcalls, Hresult, Hdeleted. reflexivity.
Defined.

Lemma chat_new_conversation_witness :
  exists (answer : string) (count : Z) (h' : history),
    ChatRoute.chat ascii_upper ascii_lower (over_store always_clarifying_workflow None)
      "generated-id"
      {| ChatRoute.message := "Tell me more about it";
         ChatRoute.request_session_id := Some "";
         ChatRoute.top_k := 5 |} []
    = (Response {| ChatRoute.answer := answer;
                   ChatRoute.sources := [];
                   ChatRoute.response_session_id := "generated-id";
                   ChatRoute.message_count := count |}, h').
Proof.
  destruct (chat_new_conversation ascii_upper ascii_lower
              (over_store always_clarifying_workflow None) "generated-id"
              {| ChatRoute.message := "Tell me more about it";
                 ChatRoute.request_session_id := Some "";
                 ChatRoute.top_k := 5 |} [] I eq_refl)
    as [(final & trace & h' & answer & _ & _ & Hchat)
       |[(h' & _ & [Hneg|Hneg])|(e & h' & _ & Hstopped & _)]].
  - exists answer, (Z.of_nat (List.length (messages final))), h'. exact Hchat.
  - vm_compute in Hneg. discriminate.
  - vm_compute in Hneg. discriminate.
  - destruct Hstopped as (saver & Hsaver & e' & [(Hread & _)|(front & s & Hput & _)]);
      injection Hsaver as <-; discriminate.
Defined.

Lemma chat_reply_to_clarification_is_researched_witness :
  exists (final : AgentState) (h' : history) (answer : string),
    clarification_count final = 0
    /\ final_answer final = Some answer
    /\ ChatRoute.chat ascii_upper ascii_lower workflow_with_store "generated-id"
         {| ChatRoute.message := "The Spider paper";
            ChatRoute.request_session_id := Some "session-123";
            ChatRoute.top_k := 5 |} []
       = (Response {| ChatRoute.answer := answer;
                      ChatRoute.sources := [];
                      ChatRoute.response_session_id := "session-123";
                      ChatRoute.message_count :=
                        Z.of_nat (List.length (messages final)) |}, h').
Proof.
  destruct (chat_reply_to_clarification_is_researched ascii_upper ascii_lower
              workflow_with_store "generated-id"
              {| ChatRoute.message := "The Spider paper";
                 ChatRoute.request_session_id := Some "session-123";
                 ChatRoute.top_k := 5 |} []
              sample_store stored_state [] stored_state
              [HumanMessage "Tell me more about it"; Message tool "lookup" []]
              (AIMessage "Which paper do you mean?"))
    as [(final & h' & answer & _ & Hcount & Hanswer & Hchat)
       |(e & h' & _ & Hstopped & _)].
  - reflexivity.
  - reflexivity.
  - reflexivity.
  - reflexivity.
  - reflexivity.
  - reflexivity.
  - vm_compute. discriminate.
  - exists final, h', answer. split; [exact Hcount|]. split; [exact Hanswer|exact Hchat].
  - destruct Hstopped as (saver & Hsaver & e' & [(Hread & _)|(front & s & Hput & _)]);
      injection Hsaver as <-; discriminate.
Defined.

Lemma failed_trace_repeats_the_completion_witness :
  exists h' : history,
    ClarificationAgent.execute untraced_clarification (World first_turn_state [])
    = (Ok tt, World (clarified "Which paper do you mean?" first_turn_state) h')
    /\ count_calls is_completion h' = 2%nat.
Proof.
  pose proof (failed_trace_repeats_the_completion untraced_clarification
                (World first_turn_state []) untraced_store
                {| provider := Some "langfuse"; prompt_id := None;
                   prompt_version := None; environment := None |}
                [] (HumanMessage "What accuracy does Spider report?")
                {| prompt_text := "clarification";
                   prompt_compile := fun _ => Ok "Ask the user what is unclear." |}
                "Ask the user what is unclear." "Which paper do you mean?"
                (PortError "tracing unavailable")
                eq_refl eq_refl eq_refl eq_refl) as Hrun.
  cbv zeta in Hrun.
  specialize (Hrun eq_refl eq_refl eq_refl eq_refl).
  eexists. split; [exact Hrun|]. reflexivity.
Defined.

Lemma failed_setup_keeps_the_checkpointer_witness :
  WorkflowInit.init_checkpointer (Some unprepared_redis) = Some sample_store
  /\ fst (AgentWorkflow.get_thread_state workflow_with_store "session-123" [])
     = Ok (Some stored_state).
Proof.
  destruct failed_setup_keeps_the_checkpointer as [_ Hkept].
  destruct (Hkept workflow_with_store unprepared_redis sample_store
              (PortError "index creation failed") "session-123" [])
    as (Hsaver & Hstate & _); try reflexivity.
  split; [reflexivity|]. rewrite Hstate. reflexivity.
Defined.

Lemma retrieve_outcomes_witness :
  DocumentRetriever.retrieve ascii_strip sample_retriever "   " 5 None []
  = (Raise (ValueError "Query cannot be empty"), [])
  /\ exists documents : list document,
       DocumentRetriever.retrieve ascii_strip sample_retriever "What is Spider?" 5 None []
       = (Ok documents,
          [DocumentRetriever.embed_call ["What is Spider?"] true;
           DocumentRetriever.search_call [0.25%float] 5 true])
       /\ List.length documents = 2%nat.
Proof.
  destruct (retrieve_outcomes ascii_strip sample_retriever "   " 5 None [])
    as (_ & Hblank & _).
  destruct (retrieve_outcomes ascii_strip sample_retriever "What is Spider?" 5 None [])
    as (_ & _ & Hother).
  split.
  - apply Hblank. reflexivity.
  - specialize (Hother eq_refl). cbv zeta in Hother. cbn in Hother.
    destruct Hother as (documents & Hrun & Hlen & _).
    exists documents. split; [exact Hrun|exact Hlen].
Defined.

Lemma pdf_tool_over_the_retriever_witness :
  PDFRetrievalTool._run show_float show_float
    (pdf_tool_over ascii_strip sample_retriever 0.5%float) "" []
  = (Raise (ValueError "Query cannot be empty"), [ev_retrieve "" 5 false])
  /\ exists out : string,
       PDFRetrievalTool._run show_float show_float
         (pdf_tool_over ascii_strip sample_retriever 0.5%float) "What is Spider?" []
       = (Ok out, [ev_retrieve "What is Spider?" 5 true]).
Proof.
  destruct (pdf_tool_over_the_retriever ascii_strip show_float show_float sample_retriever
              0.5%float "" []) as [Hblank _].
  destruct (pdf_tool_over_the_retriever ascii_strip show_float show_float sample_retriever
              0.5%float "What is Spider?" []) as [_ Hother].
  split.
  - apply Hblank. reflexivity.
  - edestruct (Hother [0.25%float] [] _ eq_refl eq_refl eq_refl) as (out & Hrun & _).
    exists out. exact Hrun.
Defined.
